(** * Stock ledger and task completion of the inventory application

    A shallow embedding of the stock-ledger code of the web admin
    ([api.js]: [updateItem], [updateHistory], [addHistory]; the history
    page: [handleEdit], [handleEditFormChange], [handleEditSubmit]) and of
    the mobile client ([api.js]: [csvToArray], [arrayToCsv], [getItemById],
    [updateItemStock], [addHistoryEntry], [deductItem],
    [updateTaskCheckStatus], [canMarkTaskDone], [doneTask],
    [deductTaskItems]), followed by the properties proved about them.

    Conventions of the embedding.
    - A JavaScript number is an exact rational or [NaN]: no rounding, no
      infinities, no negative zero.
    - A JavaScript string is a [string] of 8-bit code units.
    - The hosted database is an in-memory record of three tables.  A row is
      the object the code handed to the client library; a query never fails
      for a reason other than the one the code itself tests for ([single]
      on a result that is not exactly one row).
    - [async] functions run to completion one after the other; a thrown
      exception keeps the writes made before it.
    - [new Date()] is the argument [now] of the call that reads it, in
      milliseconds; a stored timestamp is that number.  A call that inserts
      several rows ([deductItem], [deductTaskItems] on several lines) stamps
      them all with its [now], where the source reads the clock at each
      insert: the timestamps of the rows of one such call may be later
      than [now] by the time the call has taken. *)

From Stdlib Require Import ZArith QArith String Ascii List Bool Lia.
From Stdlib Require Import DecimalNat.
Import ListNotations.

Set Implicit Arguments.

(** ** JavaScript values *)

Module JS.

Inductive number : Type :=
| Num (q : Q)
| NaN.

Definition Int (z : Z) : number := Num (inject_Z z).

Inductive value : Type :=
| Undefined
| Null
| Number (n : number)
| Str (s : string).

(** [StringToNumber] is the engine's reading of a string as a numeric
    literal, the one step of [Number(x)] that is not written out here. *)
Class NumericStrings := StringToNumber : string -> number.

Definition is_zero (q : Q) : bool := (Qnum q =? 0)%Z.

(** [!!x] *)
Definition truthy (v : value) : bool :=
  match v with
  | Undefined | Null => false
  | Number (Num q) => negb (is_zero q)
  | Number NaN => false
  | Str s => negb (s =? "")%string
  end.

(** [Number(x)] *)
Definition ToNumber `{NumericStrings} (v : value) : number :=
  match v with
  | Undefined => NaN
  | Null => Int 0
  | Number n => n
  | Str s => StringToNumber s
  end.

(** [x || d] *)
Definition or_else (v d : value) : value := if truthy v then v else d.

(** [Number.isInteger(n)] *)
Definition isInteger (n : number) : bool :=
  match n with
  | Num q => (Qnum q mod Zpos (Qden q) =? 0)%Z
  | NaN => false
  end.

Definition sub (a b : number) : number :=
  match a, b with
  | Num x, Num y => Num (x - y)
  | _, _ => NaN
  end.

Definition add (a b : number) : number :=
  match a, b with
  | Num x, Num y => Num (x + y)
  | _, _ => NaN
  end.

(** [a < b], [a > b] and numeric equality; all false on [NaN]. *)
Definition lt (a b : number) : bool :=
  match a, b with
  | Num x, Num y => match x ?= y with Lt => true | _ => false end
  | _, _ => false
  end.

Definition gt (a b : number) : bool := lt b a.

Definition eqn (a b : number) : bool :=
  match a, b with
  | Num x, Num y => Qeq_bool x y
  | _, _ => false
  end.

(** [Math.max(a, b)] *)
Definition max (a b : number) : number :=
  match a, b with
  | Num x, Num y => if lt a b then b else a
  | _, _ => NaN
  end.

(** [n || 0] on a numeric column *)
Definition num_or_zero (n : number) : number :=
  if truthy (Number n) then n else Int 0.

(** *** Strings *)

Local Open Scope string_scope.

(** White space removed by [String.prototype.trim], within 8-bit code
    units: TAB, LF, VT, FF, CR, SP and NBSP. *)
Definition is_white_space (c : ascii) : bool :=
  let n := nat_of_ascii c in
  ((9 <=? n) && (n <=? 13) || (n =? 32) || (n =? 160))%nat.

Fixpoint trimStart (s : string) : string :=
  match s with
  | "" => ""
  | String c s' => if is_white_space c then trimStart s' else s
  end.

Fixpoint trimEnd (s : string) : string :=
  match s with
  | "" => ""
  | String c s' =>
      match trimEnd s' with
      | "" => if is_white_space c then "" else String c ""
      | r => String c r
      end
  end.

Definition trim (s : string) : string := trimEnd (trimStart s).

(** A string starts well when it does not start with white space. *)
Definition starts_well (s : string) : bool :=
  match s with
  | "" => true
  | String c _ => negb (is_white_space c)
  end.

(** [s.split(sep)] for a one-character separator: never empty. *)
Fixpoint split (sep : ascii) (s : string) : list string :=
  match s with
  | "" => [""]
  | String c s' =>
      if Ascii.eqb c sep then "" :: split sep s'
      else match split sep s' with
           | [] => [String c ""]
           | h :: t => String c h :: t
           end
  end.

(** [arr.join(sep)] *)
Fixpoint join (sep : string) (l : list string) : string :=
  match l with
  | [] => ""
  | x :: l' =>
      match l' with
      | [] => x
      | _ :: _ => x ++ sep ++ join sep l'
      end
  end.

(** [arr.includes(x)] on an array of strings *)
Definition includes (l : list string) (x : string) : bool :=
  existsb (String.eqb x) l.

Fixpoint contains (c : ascii) (s : string) : bool :=
  match s with
  | "" => false
  | String a s' => Ascii.eqb a c || contains c s'
  end.

(** Decimal digits, most significant first; [None] when there is no digit
    or another character. *)
Definition digit (c : ascii) : option Z :=
  let n := nat_of_ascii c in
  if ((48 <=? n) && (n <=? 57))%nat then Some (Z.of_nat n - 48)%Z else None.

Fixpoint digits (acc : option Z) (s : string) : option Z :=
  match s with
  | "" => acc
  | String c s' =>
      match digit c with
      | Some d => digits (Some (10 * match acc with Some a => a | None => 0 end + d)%Z) s'
      | None => None
      end
  end.

Definition unsigned_literal (s : string) : option Z := digits None s.

(** A reading of numeric strings for the examples: blank strings and
    signed decimal integer literals are read as JavaScript reads them.
    Every other string is read as [NaN]: that is how JavaScript reads a
    string that holds no numeric literal, and not how it reads a literal
    with a fraction, an exponent or a radix prefix (["12.0"], ["1e1"],
    ["0x10"]), which the examples do not use. *)
Definition integer_literals : NumericStrings :=
  fun s =>
    let read (sign : Z) (o : option Z) :=
      match o with
      | Some z => Int (sign * z)
      | None => NaN
      end in
    match trim s with
    | "" => Int 0
    | String "+" r => read 1%Z (unsigned_literal r)
    | String "-" r => read (-1)%Z (unsigned_literal r)
    | t => read 1%Z (unsigned_literal t)
    end.

End JS.

(** ** The hosted database *)

Module Item.
(** A row of table [items]. *)
Record row : Type := mk {
  id : string;
  name : string;
  category : string;
  stock : JS.number;
  updated_at : option Z
}.

Definition with_stock (n : JS.number) (r : row) : row :=
  mk (id r) (name r) (category r) n (updated_at r).
End Item.

Module History.
(** A row of table [history].  [id] is given by the database on insert;
    a column the inserting code does not supply is [None]. *)
Record row : Type := mk {
  id : Z;
  employee_id : string;
  employee_name : string;
  item_id : string;
  item_name : string;
  action : string;
  qty : JS.number;
  stock_before : option JS.number;
  stock_after : option JS.number;
  timestamp : Z
}.

Definition with_action (a : string) (r : row) : row :=
  mk (id r) (employee_id r) (employee_name r) (item_id r) (item_name r)
     a (qty r) (stock_before r) (stock_after r) (timestamp r).

Definition with_stock_after (n : JS.number) (r : row) : row :=
  mk (id r) (employee_id r) (employee_name r) (item_id r) (item_name r)
     (action r) (qty r) (stock_before r) (Some n) (timestamp r).
End History.

Module Task.
(** What column [deducted_by_list] may hold: the code accepts an array
    and a comma-separated text alike. *)
Inductive id_list : Type :=
| IdsNull
| IdsText (s : string)
| IdsArray (l : list string).

Record required : Type := mkRequired {
  item_id : string;
  required_qty : JS.number
}.

(** A row of table [tasks]; the membership columns are comma-separated
    text or NULL. *)
Record row : Type := mk {
  task_id : string;
  status : string;
  assigned_at : option Z;
  items : list required;
  read_by : option string;
  checked_by : option string;
  deducted_by_list : id_list;
  done_by : option string;
  done_at : option Z
}.

Definition with_checked_by (s : string) (r : row) : row :=
  mk (task_id r) (status r) (assigned_at r) (items r) (read_by r)
     (Some s) (deducted_by_list r) (done_by r) (done_at r).

Definition with_deducted_by_list (l : list string) (r : row) : row :=
  mk (task_id r) (status r) (assigned_at r) (items r) (read_by r)
     (checked_by r) (IdsArray l) (done_by r) (done_at r).

(** The three columns written by [doneTask]. *)
Definition with_done (by_ : string) (at_ : Z) (st : string) (r : row) : row :=
  mk (task_id r) st (assigned_at r) (items r) (read_by r)
     (checked_by r) (deducted_by_list r) (Some by_) (Some at_).

Definition with_done_at (at_ : Z) (r : row) : row :=
  mk (task_id r) (status r) (assigned_at r) (items r) (read_by r)
     (checked_by r) (deducted_by_list r) (done_by r) (Some at_).
End Task.

Module Db.

Record store : Type := mkStore {
  items : list Item.row;
  history : list History.row;
  tasks : list Task.row;
  next_history_id : Z
}.

Definition with_items (l : list Item.row) (s : store) : store :=
  mkStore l (history s) (tasks s) (next_history_id s).
Definition with_history (l : list History.row) (s : store) : store :=
  mkStore (items s) l (tasks s) (next_history_id s).
Definition with_tasks (l : list Task.row) (s : store) : store :=
  mkStore (items s) (history s) l (next_history_id s).

(** What a JavaScript [throw] carries: [new Error(message)], or the
    error object returned by the database client. *)
Inductive exn : Type :=
| Error (message : string)
| PostgrestError.

Inductive result (A : Type) : Type :=
| Ok (a : A)
| Throw (e : exn).
Arguments Throw {A} e.

(** An [async] function over the database: the store after the call and
    what the call returned or threw. *)
Definition M (A : Type) : Type := store -> store * result A.

Definition ret {A} (a : A) : M A := fun s => (s, Ok a).
Definition throw {A} (e : exn) : M A := fun s => (s, Throw e).
Definition bind {A B} (m : M A) (k : A -> M B) : M B :=
  fun s => match m s with
           | (s', Ok a) => k a s'
           | (s', Throw e) => (s', Throw e)
           end.
(** [try { m } catch (e) { h e }] *)
Definition try_catch {A} (m : M A) (h : exn -> M A) : M A :=
  fun s => match m s with
           | (s', Ok a) => (s', Ok a)
           | (s', Throw e) => h e s'
           end.
Definition get : M store := fun s => (s, Ok s).
Definition modify (f : store -> store) : M unit := fun s => (f s, Ok tt).

(** [for (const x of xs) { body x }] *)
Fixpoint for_of {A} (xs : list A) (body : A -> M unit) : M unit :=
  match xs with
  | [] => ret tt
  | x :: xs' => bind (body x) (fun _ => for_of xs' body)
  end.

(** [.eq(column, v)]: the test a row must pass. *)
Definition eq_text {R} (column : R -> string) (v : string) (r : R) : bool :=
  String.eqb (column r) v.
Definition eq_int {R} (column : R -> Z) (v : Z) (r : R) : bool :=
  Z.eqb (column r) v.

(** [.select().<filters>] *)
Definition select {R} (p : R -> bool) (rows : list R) : list R :=
  filter p rows.

(** [.single()]: the row when the result is exactly one row. *)
Definition single {R} (rows : list R) : option R :=
  match rows with
  | [r] => Some r
  | _ => None
  end.

(** [.update(patch).<filters>] *)
Definition update {R} (p : R -> bool) (patch : R -> R) (rows : list R) : list R :=
  map (fun r => if p r then patch r else r) rows.

End Db.

Declare Scope db_scope.
Delimit Scope db_scope with db.
Notation "x <- m ;; k" := (Db.bind m (fun x => k))
  (at level 61, m at next level, right associativity) : db_scope.
Notation "m ;;; k" := (Db.bind m (fun _ => k))
  (at level 61, right associativity) : db_scope.

Local Open Scope string_scope.
Local Open Scope db_scope.

(** ** Web admin: [api.js] and the history page *)

Module WebAdmin.
Section Api.
Context `{JS.NumericStrings}.

Import Db.

(** [generateRandomId] draws 16 characters from this alphabet; an
    employee's [id] is such a string. *)
Definition chars : string := "abcdefghijklmnopqrstuvwxyz0123456789".

Definition generated_id (id : string) : bool :=
  (String.length id =? 16)%nat
  && forallb (fun c => JS.contains c chars) (list_ascii_of_string id).

(** The object passed to [updateItem]: [id] and the columns to change. *)
Record item_update : Type := mkItemUpdate {
  iu_id : string;
  iu_name : option string;
  iu_category : option string;
  iu_stock : option JS.number
}.

Definition apply_item_update (now : Z) (u : item_update) (r : Item.row) : Item.row :=
  Item.mk (Item.id r)
          (match iu_name u with Some n => n | None => Item.name r end)
          (match iu_category u with Some c => c | None => Item.category r end)
          (match iu_stock u with Some n => n | None => Item.stock r end)
          (Some now).

(** [updateItem]: one row is patched and returned; when the filter does
    not select exactly one row the request fails and changes nothing. *)
Definition updateItem (now : Z) (item : item_update) : M Item.row :=
  s <- get ;;
  match single (select (eq_text Item.id (iu_id item)) (items s)) with
  | Some r =>
      modify (with_items
                (update (eq_text Item.id (iu_id item))
                        (apply_item_update now item) (items s))) ;;;
      ret (apply_item_update now item r)
  | None => throw PostgrestError
  end.

(** The object passed to [updateHistory]; an absent property is
    [Undefined] ([None] for [action], which may also be [null]). *)
Record history_update : Type := mkHistoryUpdate {
  hu_id : Z;
  hu_qty : JS.value;
  hu_action : option string;
  hu_stock_after : JS.value
}.

Definition updateHistory (history : history_update) : M unit :=
  let qty := JS.ToNumber (hu_qty history) in
  let action :=
    match hu_action history with
    | Some a => JS.trim a
    | None => ""
    end in
  let stockAfter :=
    match hu_stock_after history with
    | JS.Undefined => None
    | v => Some (JS.ToNumber v)
    end in
  if negb (JS.isInteger qty) then throw (Error "INVALID_QTY")
  else if (action =? "") then throw (Error "ACTION_EMPTY")
  else
    let payload (r : History.row) :=
      match stockAfter with
      | Some n => History.with_stock_after n (History.with_action action r)
      | None => History.with_action action r
      end in
    modify (fun s =>
      with_history (update (eq_int History.id (hu_id history)) payload (Db.history s)) s).

(** The object kept under key [user] of the browser's local storage. *)
Record stored_user : Type := mkStoredUser {
  su_id : option string;
  su_employee_id : option string;
  su_name : option string;
  su_employee_name : option string;
  su_username : option string
}.

(** [a || b] on a string that may be absent *)
Definition str_or (a : option string) (b : string) : string :=
  match a with
  | Some s => if s =? "" then b else s
  | None => b
  end.

Definition str_truthy (a : option string) : bool :=
  match a with
  | Some s => negb (s =? "")
  | None => false
  end.

Definition resolveCurrentUser (raw : option stored_user) : option (string * string) :=
  match raw with
  | None => None
  | Some u =>
      Some (str_or (su_id u) (str_or (su_employee_id u) "SYSTEM"),
            str_or (su_name u)
              (str_or (su_employee_name u) (str_or (su_username u) "System Admin")))
  end.

(** The object passed to [addHistory]. *)
Record history_insert : Type := mkHistoryInsert {
  hi_item_id : option string;
  hi_item_name : option string;
  hi_action : option string;
  hi_qty : JS.value;
  hi_stock_before : JS.value;
  hi_stock_after : JS.value;
  hi_employee_id : option string;
  hi_employee_name : option string
}.

Definition addHistory (session : option stored_user) (now : Z)
    (payload : history_insert) : M History.row :=
  let currentUser := resolveCurrentUser session in
  if negb (str_truthy (hi_item_id payload))
     || negb (str_truthy (hi_action payload))
     || negb (JS.truthy (hi_qty payload))
  then throw (Error "Missing required fields for history")
  else
    let stockBefore :=
      JS.ToNumber (JS.or_else (hi_stock_before payload) (JS.Number (JS.Int 0))) in
    let stockAfter :=
      JS.ToNumber (JS.or_else (hi_stock_after payload) (JS.Number (JS.Int 0))) in
    let requested := str_or (hi_action payload) "" in
    let finalQty :=
      if requested =? "deduct" then JS.ToNumber (hi_qty payload) else stockAfter in
    let finalAction :=
      if negb (requested =? "deduct") then
        if JS.gt stockAfter stockBefore then "add"
        else if JS.lt stockAfter stockBefore then "min"
        else requested
      else requested in
    s <- get ;;
    let historyData :=
      History.mk (next_history_id s)
        (str_or (match currentUser with
                 | Some (id, _) => Some id
                 | None => hi_employee_id payload
                 end) "SYSTEM")
        (str_or (match currentUser with
                 | Some (_, name) => Some name
                 | None => hi_employee_name payload
                 end) "Unknown")
        (str_or (hi_item_id payload) "")
        (str_or (hi_item_name payload) "Unknown Item")
        finalAction
        finalQty
        (Some stockBefore)
        (Some stockAfter)
        now in
    modify (fun s =>
      mkStore (items s) (history s ++ [historyData]) (tasks s)
              (next_history_id s + 1)) ;;;
    ret historyData.

End Api.
End WebAdmin.

Module HistoryPage.
Section Page.
Context `{JS.NumericStrings}.

Import Db WebAdmin.

(** The edit form of the modal: [qty] is a number when the modal opens
    and the text of the input once the admin has typed. *)
Record form : Type := mkForm {
  qty : JS.value;
  action : string
}.

(** State of the page while the edit modal is open. *)
Record editing : Type := mkEditing {
  editEntry : History.row;
  editForm : form;
  currentItemStock : JS.number
}.

Inductive message : Type :=
| NoMessage
| FailedToUpdateHistoryEntry (e : exn)
| ItemStockUpdateFailed.

(** What the page shows besides the modal's own fields and the table. *)
Record page : Type := mkPage {
  showEditModal : bool;
  error : message
}.

(** A numeric column as JavaScript reads it in arithmetic: NULL is 0. *)
Definition column (o : option JS.number) : JS.number :=
  match o with
  | Some n => n
  | None => JS.Int 0
  end.

(** [getItems] returns the table; the order of its rows matters to
    [find] only among rows of equal [id]. *)
Definition getItems : M (list Item.row) := s <- get ;; ret (Db.items s).

Definition handleEdit (entry : History.row) : M editing :=
  let valueToEdit :=
    if History.action entry =? "deduct" then History.qty entry
    else if History.action entry =? "add" then
      JS.max (JS.Int 0)
        (JS.sub (column (History.stock_after entry)) (column (History.stock_before entry)))
    else if History.action entry =? "min" then
      JS.max (JS.Int 0)
        (JS.sub (column (History.stock_before entry)) (column (History.stock_after entry)))
    else JS.Int 0 in
  items <- getItems ;;
  let currentItem := find (eq_text Item.id (History.item_id entry)) items in
  ret (mkEditing entry
         (mkForm (JS.Number valueToEdit) (History.action entry))
         (match currentItem with
          | Some i => Item.stock i
          | None => JS.Int 0
          end)).

Inductive field : Type := FieldQty | FieldAction.

Definition handleEditFormChange (name : field) (value : string)
    (ed : editing) : editing :=
  let f := editForm ed in
  match name with
  | FieldQty =>
      let value :=
        if JS.lt (JS.ToNumber (JS.Str value)) (JS.Int 0) then "0" else value in
      mkEditing (editEntry ed) (mkForm (JS.Str value) (action f)) (currentItemStock ed)
  | FieldAction =>
      mkEditing (editEntry ed) (mkForm (qty f) value) (currentItemStock ed)
  end.

(** [refreshHistory] clears the message and reloads the table it shows,
    which is a read. *)
Definition refreshHistory (pg : page) : M page :=
  ret (mkPage (showEditModal pg) NoMessage).

Definition handleEditSubmit (now : Z) (ed : editing) (pg : page) : M page :=
  let pg := mkPage (showEditModal pg) NoMessage in
  try_catch
    (let newValue := JS.ToNumber (qty (editForm ed)) in
     pg <-
       (if History.action (editEntry ed) =? "deduct" then
          updateHistory
            (mkHistoryUpdate (History.id (editEntry ed)) (JS.Number newValue)
               (Some (action (editForm ed))) JS.Undefined) ;;;
          let qtyDifference := JS.sub (History.qty (editEntry ed)) newValue in
          let newItemStock := JS.add (currentItemStock ed) qtyDifference in
          try_catch
            (updateItem now
               (mkItemUpdate (History.item_id (editEntry ed)) None None
                  (Some newItemStock)) ;;;
             ret pg)
            (fun _ => ret (mkPage (showEditModal pg) ItemStockUpdateFailed))
        else
          updateHistory
            (mkHistoryUpdate (History.id (editEntry ed)) JS.Undefined
               (Some (action (editForm ed))) (JS.Number newValue)) ;;;
          ret pg) ;;
     refreshHistory (mkPage false (error pg)))
    (fun err => ret (mkPage (showEditModal pg) (FailedToUpdateHistoryEntry err))).

End Page.
End HistoryPage.

(** ** Mobile client: [api.js] *)

Module Mobile.

Import Db.

Definition comma : ascii := ","%char.

Definition nonempty (s : string) : bool := negb (s =? "").

(** [csvToArray]: [filter(Boolean)] keeps the non-empty strings. *)
Definition csvToArray (value : option string) : list string :=
  match value with
  | Some s =>
      if nonempty s then filter nonempty (map JS.trim (JS.split comma s)) else []
  | None => []
  end.

Definition arrayToCsv (arr : list string) : string := JS.join "," arr.

(** The identifiers that survive being written to a membership column and
    read back: not empty, free of commas and of white space at either
    end.  Generated identifiers are of this kind. *)
Definition csv_safe (id : string) : bool :=
  nonempty id && negb (JS.contains comma id) && (JS.trim id =? id).

(** [if (!list.includes(id)) list.push(id)] *)
Definition push_absent (lst : list string) (id : string) : list string :=
  if negb (JS.includes lst id) then (lst ++ [id])%list else lst.

Definition getItemById (itemId : string) : M Item.row :=
  s <- get ;;
  match single (select (eq_text Item.id itemId) (items s)) with
  | Some data => ret data
  | None => throw (Error ("Item " ++ itemId ++ " not found"))
  end.

Definition updateItemStock (itemId : string) (newStock : JS.number) : M unit :=
  modify (fun s =>
    with_items (update (eq_text Item.id itemId) (Item.with_stock newStock) (items s)) s).

(** [addHistoryEntry]: the inserted object has no [stock_before] and no
    [stock_after] property; [action] defaults to ['deduct'] and
    [timestamp] to the current time. *)
Definition addHistoryEntry (now : Z) (employee_id employee_name item_id item_name : string)
    (qty : JS.number) (action : option string) : M unit :=
  let action := match action with Some a => a | None => "deduct" end in
  modify (fun s =>
    mkStore (items s)
      (history s ++
         [History.mk (next_history_id s) employee_id employee_name item_id item_name
            action qty None None now])
      (tasks s)
      (next_history_id s + 1)).

(** An element of the [items] argument of [deductItem]. *)
Record deduction : Type := mkDeduction {
  itemId : string;
  qty : JS.number
}.

(** [deductItem]; the e-mail sent to the admins after each entry leaves
    the store as it is and cannot throw. *)
Definition deductItem (now : Z) (employeeId employeeName : string)
    (items : list deduction) : M unit :=
  for_of items (fun item =>
    data <- getItemById (itemId item) ;;
    let newStock := JS.max (JS.sub (Item.stock data) (qty item)) (JS.Int 0) in
    updateItemStock (itemId item) newStock ;;;
    addHistoryEntry now employeeId employeeName (itemId item) (Item.name data)
      (qty item) (Some "deduct")).

Definition updateTaskCheckStatus (taskId employeeId : string) : M unit :=
  s <- get ;;
  match single (select (eq_text Task.task_id taskId) (tasks s)) with
  | None => throw PostgrestError
  | Some data =>
      let lst := csvToArray (Task.checked_by data) in
      let lst := push_absent lst employeeId in
      modify (fun s =>
        with_tasks (update (eq_text Task.task_id taskId)
                      (Task.with_checked_by (arrayToCsv lst)) (tasks s)) s)
  end.

(** The rows of [history] of one employee with action ['deduct'] and a
    timestamp after [assigned_at]. *)
Definition deducts_after (employeeId : string) (assigned_at : Z)
    (h : History.row) : bool :=
  eq_text History.employee_id employeeId h
  && eq_text History.action "deduct" h
  && (assigned_at <? History.timestamp h)%Z.

(** [canMarkTaskDone]; a NULL [assigned_at] makes the history query
    fail. *)
Definition canMarkTaskDone (taskId employeeId : string) : M bool :=
  s <- get ;;
  match single (select (eq_text Task.task_id taskId) (tasks s)) with
  | None => throw PostgrestError
  | Some task =>
      let checkedList := csvToArray (Task.checked_by task) in
      let isChecked := JS.includes checkedList employeeId in
      match Task.assigned_at task with
      | None => throw PostgrestError
      | Some assigned_at =>
          let hist := firstn 1 (select (deducts_after employeeId assigned_at) (history s)) in
          let hasValidDeduct := (0 <? length hist)%nat in
          ret (isChecked && hasValidDeduct)
      end
  end.

Definition doneTask (now : Z) (taskId employeeId : string) : M (list string) :=
  allowed <- canMarkTaskDone taskId employeeId ;;
  if negb allowed then
    throw (Error "Task cannot be marked as done. You must check the task and deduct after it was assigned.")
  else
    s <- get ;;
    let data := single (select (eq_text Task.task_id taskId) (tasks s)) in
    let lst := csvToArray (match data with Some d => Task.done_by d | None => None end) in
    let lst := push_absent lst employeeId in
    modify (fun s =>
      with_tasks (update (eq_text Task.task_id taskId)
                    (Task.with_done (arrayToCsv lst) now "completed") (tasks s)) s) ;;;
    ret lst.

(** [deductTaskItems]: the stock is read with [single] (a missing row reads
    as stock 0 and name ['Unknown Item']), lowered by [required_qty] and
    written back with the update that [updateItemStock] also sends. *)
Definition deductTaskItems (now : Z) (taskId employeeId employeeName : string)
    (items : list Task.required) : M (list string) :=
  match items with
  | [] => throw (Error "No items specified for deduction.")
  | _ :: _ =>
      for_of items (fun item =>
        s <- get ;;
        let currentItemData :=
          single (select (eq_text Item.id (Task.item_id item)) (Db.items s)) in
        let stock :=
          match currentItemData with
          | Some d => JS.num_or_zero (Item.stock d)
          | None => JS.Int 0
          end in
        let name :=
          match currentItemData with
          | Some d => if nonempty (Item.name d) then Item.name d else "Unknown Item"
          | None => "Unknown Item"
          end in
        let newStock := JS.sub stock (Task.required_qty item) in
        updateItemStock (Task.item_id item) newStock ;;;
        addHistoryEntry now employeeId employeeName (Task.item_id item) name
          (Task.required_qty item) (Some "deduct")) ;;;
      s <- get ;;
      match single (select (eq_text Task.task_id taskId) (tasks s)) with
      | None => throw (Error "Task not found.")
      | Some taskData =>
          let deductedByList :=
            match Task.deducted_by_list taskData with
            | Task.IdsArray l => l
            | Task.IdsText t => csvToArray (Some t)
            | Task.IdsNull => csvToArray None
            end in
          let deductedByList := push_absent deductedByList employeeId in
          modify (fun s =>
            with_tasks (update (eq_text Task.task_id taskId)
                          (Task.with_deducted_by_list deductedByList) (tasks s)) s) ;;;
          ret deductedByList
      end
  end.

End Mobile.

(** ** Vocabulary of the statements *)

Module Ledger.

Import Db.

(** [action] is missing, empty or blank. *)
Definition action_empty (a : option string) : bool :=
  match a with
  | Some a => JS.trim a =? ""
  | None => true
  end.

(** Two versions of a history row that differ at most in [action] and
    [stock_after]. *)
Definition kept (r r' : History.row) : Prop :=
  History.id r' = History.id r
  /\ History.employee_id r' = History.employee_id r
  /\ History.employee_name r' = History.employee_name r
  /\ History.item_id r' = History.item_id r
  /\ History.item_name r' = History.item_name r
  /\ History.qty r' = History.qty r
  /\ History.stock_before r' = History.stock_before r
  /\ History.timestamp r' = History.timestamp r.

(** The row of [items] with a given [id], when there is exactly one. *)
Definition item_of (id : string) (s : store) : option Item.row :=
  single (select (eq_text Item.id id) (items s)).

(** The row of [tasks] with a given [task_id], when there is exactly one. *)
Definition task_of (taskId : string) (s : store) : option Task.row :=
  single (select (eq_text Task.task_id taskId) (tasks s)).

(** An item row does not hold a negative stock. *)
Definition not_negative (r : Item.row) : Prop :=
  JS.lt (Item.stock r) (JS.Int 0) = false.

(** One turn of the loop of [deductItem]. *)
Definition deductItem_step now employeeId employeeName (item : Mobile.deduction)
    : M unit :=
  data <- Mobile.getItemById (Mobile.itemId item) ;;
  let newStock :=
    JS.max (JS.sub (Item.stock data) (Mobile.qty item)) (JS.Int 0) in
  Mobile.updateItemStock (Mobile.itemId item) newStock ;;;
  Mobile.addHistoryEntry now employeeId employeeName (Mobile.itemId item)
    (Item.name data) (Mobile.qty item) (Some "deduct").

(** The membership sets of a task, as the code reads them. *)
Definition checked (t : Task.row) : list string :=
  Mobile.csvToArray (Task.checked_by t).
Definition done (t : Task.row) : list string :=
  Mobile.csvToArray (Task.done_by t).

(** The employee has a history row with action [deduct] and a timestamp
    after [t]. *)
Definition has_deduct_after (employeeId : string) (t : Z) (s : store) : Prop :=
  exists h,
    In h (history s)
    /\ History.employee_id h = employeeId
    /\ History.action h = "deduct"
    /\ (t < History.timestamp h)%Z.

(** The condition of [doneTask]: the employee checked the task and deducted
    after the task was assigned. *)
Definition may_be_done (taskId employeeId : string) (s : store) : Prop :=
  exists task assigned_at,
    task_of taskId s = Some task
    /\ In employeeId (checked task)
    /\ Task.assigned_at task = Some assigned_at
    /\ has_deduct_after employeeId assigned_at s.

(** The task is marked done for the employee, at time [now]. *)
Definition done_for (taskId employeeId : string) (now : Z) (s : store) : Prop :=
  exists task,
    task_of taskId s = Some task
    /\ In employeeId (done task)
    /\ Task.status task = "completed"
    /\ Task.done_at task = Some now.

(** The store [doneTask] writes once the condition holds. *)
Definition marked now taskId employeeId (s : store) : store :=
  with_tasks
    (update (eq_text Task.task_id taskId)
       (Task.with_done
          (Mobile.arrayToCsv
             (Mobile.push_absent
                (Mobile.csvToArray
                   (match task_of taskId s with
                    | Some d => Task.done_by d
                    | None => None
                    end))
                employeeId))
          now "completed")
       (tasks s))
    s.

(** Check and done requests of the mobile client. *)
Inductive request : Type :=
| Check (taskId employeeId : string)
| Done (now : Z) (taskId employeeId : string).

Definition run_op (op : request) (s : store) : store :=
  match op with
  | Check taskId employeeId => fst (Mobile.updateTaskCheckStatus taskId employeeId s)
  | Done now taskId employeeId => fst (Mobile.doneTask now taskId employeeId s)
  end.

Definition run (ops : list request) (s : store) : store :=
  fold_left (fun s op => run_op op s) ops s.

(** The task, the employee and the membership set of a request. *)
Definition target (op : request) : string :=
  match op with
  | Check taskId _ => taskId
  | Done _ taskId _ => taskId
  end.

Definition who (op : request) : string :=
  match op with
  | Check _ employeeId => employeeId
  | Done _ _ employeeId => employeeId
  end.

Definition set_of (op : request) (t : Task.row) : list string :=
  match op with
  | Check _ _ => checked t
  | Done _ _ _ => done t
  end.

(** The request goes through: the task of a check request can be read,
    and [doneTask] returns. *)
Definition goes_through (op : request) (s : store) : Prop :=
  match op with
  | Check taskId _ => exists task, task_of taskId s = Some task
  | Done now taskId employeeId =>
      exists doneByList, snd (Mobile.doneTask now taskId employeeId s) = Ok doneByList
  end.

(** The identifier a check request appends is one that survives the
    comma-separated column; a done request needs no such condition. *)
Definition op_safe (op : request) : Prop :=
  match op with
  | Check _ employeeId => Mobile.csv_safe employeeId = true
  | Done _ _ _ => True
  end.

Definition no_duplicates (t : Task.row) : Prop :=
  NoDup (checked t) /\ NoDup (done t).

(** [t'] is a later version of task [t]: no member was removed. *)
Definition grown (t t' : Task.row) : Prop :=
  Task.task_id t' = Task.task_id t
  /\ incl (checked t) (checked t')
  /\ incl (done t) (done t').

(** ... and no duplicate was introduced. *)
Definition later (t t' : Task.row) : Prop :=
  grown t t' /\ (no_duplicates t -> no_duplicates t').

End Ledger.

(** ** Concrete stores and requests *)

Module Sample.

Import Db WebAdmin.

(** An employee, with an [id] as [generateRandomId] makes them. *)
Definition sari : string := "k3v9x0q2m7c1z8a4".

Definition gloves (stock : Z) : Item.row :=
  Item.mk "ITEMAB12CD34" "Gloves" "Safety" (JS.Int stock) None.

Definition empty : store := mkStore [] [] [] 1.

(** A restock from 10 to 15 entered in the web admin. *)
Definition restock : history_insert :=
  mkHistoryInsert (Some "ITEMAB12CD34") (Some "Gloves") (Some "add")
    (JS.Number (JS.Int 5)) (JS.Number (JS.Int 10)) (JS.Number (JS.Int 15))
    None None.

Definition restock_row : History.row :=
  History.mk 1 "SYSTEM" "Unknown" "ITEMAB12CD34" "Gloves" "add"
    (JS.Int 15) (Some (JS.Int 10)) (Some (JS.Int 15)) 0.

Definition restocked : store := mkStore [] [restock_row] [] 2.

(** The same insert entered as a removal: [min] is requested although the
    stock goes from 10 to 15. *)
Definition mislabelled : history_insert :=
  mkHistoryInsert (Some "ITEMAB12CD34") (Some "Gloves") (Some "min")
    (JS.Number (JS.Int 5)) (JS.Number (JS.Int 10)) (JS.Number (JS.Int 15))
    None None.

(** An insert whose [qty] is not a number. *)
Definition bad_qty : history_insert :=
  mkHistoryInsert (Some "ITEMAB12CD34") (Some "Gloves") (Some "deduct")
    (JS.Str "abc") (JS.Number (JS.Int 10)) (JS.Number (JS.Int 10))
    None None.

Definition bad_qty_row : History.row :=
  History.mk 1 "SYSTEM" "Unknown" "ITEMAB12CD34" "Gloves" "deduct"
    JS.NaN (Some (JS.Int 10)) (Some (JS.Int 10)) 0.

(** An insert without [action]. *)
Definition no_action : history_insert :=
  mkHistoryInsert (Some "ITEMAB12CD34") (Some "Gloves") None
    (JS.Number (JS.Int 5)) (JS.Number (JS.Int 10)) (JS.Number (JS.Int 15))
    None None.

(** Requests to [updateHistory]: a [qty] that is not a number, and a
    blank [action]. *)
Definition patch_bad_qty : history_update :=
  mkHistoryUpdate 1 (JS.Str "abc") (Some "min") JS.Undefined.

Definition patch_blank_action : history_update :=
  mkHistoryUpdate 1 (JS.Number (JS.Int 4)) (Some "  ") JS.Undefined.

(** The mobile client took 12 gloves out of 50. *)
Definition deducted_row : History.row :=
  History.mk 1 sari "Sari" "ITEMAB12CD34" "Gloves" "deduct"
    (JS.Int 12) None None 1000.

Definition after_deduct : store := mkStore [gloves 38] [deducted_row] [] 2.

(** The admin opens that entry, types 20 for the quantity and submits at
    time 5000. *)
Definition edit_to_20 : HistoryPage.editing :=
  HistoryPage.mkEditing deducted_row (HistoryPage.mkForm (JS.Str "20") "deduct")
    (JS.Int 38).

Definition blank_page : HistoryPage.page :=
  HistoryPage.mkPage true HistoryPage.NoMessage.

(** A task that needs eight gloves, and five gloves on the shelf. *)
Definition needs_eight : Task.required :=
  Task.mkRequired "ITEMAB12CD34" (JS.Int 8).

Definition refill : Task.row :=
  Task.mk "TASK1700000000000" "assigned" (Some 500%Z) [needs_eight]
    None None Task.IdsNull None None.

Definition short : store := mkStore [gloves 5] [] [refill] 1.

(** Fifty gloves on the shelf; Sari takes 12 at time 1000. *)
Definition full : store := mkStore [gloves 50] [] [refill] 1.

Definition takes_12 : Mobile.deduction :=
  Mobile.mkDeduction "ITEMAB12CD34" (JS.Int 12).

(** Sari has checked the refill task and has deducted after it was
    assigned. *)
Definition checked_refill : Task.row :=
  Task.mk "TASK1700000000000" "assigned" (Some 500%Z) [needs_eight]
    None (Some sari) Task.IdsNull None None.

Definition ready : store := mkStore [gloves 38] [deducted_row] [checked_refill] 2.

Definition done_refill (now : Z) : Task.row :=
  Task.mk "TASK1700000000000" "completed" (Some 500%Z) [needs_eight]
    None (Some sari) Task.IdsNull (Some sari) (Some now).

Definition finished (now : Z) : store :=
  mkStore [gloves 38] [deducted_row] [done_refill now] 2.

(** The refill task before anyone checked it, with Sari's deduction in
    the ledger; Sari checks twice and marks done twice. *)
Definition assigned : store := mkStore [gloves 38] [deducted_row] [refill] 2.

Definition eager : list Ledger.request :=
  [Ledger.Check "TASK1700000000000" sari;
   Ledger.Check "TASK1700000000000" sari;
   Ledger.Done 2000 "TASK1700000000000" sari;
   Ledger.Done 3000 "TASK1700000000000" sari].

Definition after_edit : store :=
  mkStore [Item.mk "ITEMAB12CD34" "Gloves" "Safety" (JS.Int 30) (Some 5000%Z)]
    [deducted_row] [] 2.

End Sample.

(** ** Web admin: more of [api.js] *)

Module WebAdminApi.

Import Db.

(** [s.charAt(i)] *)
Definition charAt (s : string) (i : nat) : string :=
  match String.get i s with
  | Some c => String c ""
  | None => ""
  end.

(** [generateRandomId]; [draw i] is what
    [Math.floor(Math.random() * chars.length)] gives at turn [i] of the
    loop. *)
Definition generateRandomId (draw : nat -> nat) : string :=
  fold_left (fun id i => id ++ charAt WebAdmin.chars (draw i)) (seq 0 16) "".

(** The alphabet of [generateRandomItemId]. *)
Definition item_chars : string := "ABCDEFGHIJKLMNOPQRSTUVWXYZ0123456789".

Definition generateRandomItemId (draw : nat -> nat) : string :=
  fold_left (fun id i => id ++ charAt item_chars (draw i)) (seq 0 8) "ITEM".

(** [.delete().<filters>] *)
Definition delete {R} (p : R -> bool) (rows : list R) : list R :=
  filter (fun r => negb (p r)) rows.

Definition deleteItem (id : string) : M unit :=
  modify (fun s => with_items (delete (eq_text Item.id id) (items s)) s).

Definition deleteHistory (id : Z) : M unit :=
  modify (fun s => with_history (delete (eq_int History.id id) (history s)) s).

(** What [getTasks] adds to a task row. *)
Record task_lists : Type := mkTaskLists {
  read_by_list : list string;
  read_by_count : nat;
  checked_by_list : list string;
  checked_by_count : nat
}.

(** [value.split(',').map(s => s.trim()).filter(Boolean)] when [value] is a
    string, the empty array otherwise. *)
Definition split_list (value : option string) : list string :=
  match value with
  | Some s => filter Mobile.nonempty (map JS.trim (JS.split Mobile.comma s))
  | None => []
  end.

(** The function [getTasks] maps over the rows it fetched. *)
Definition getTasks_lists (task : Task.row) : task_lists :=
  let readList := split_list (Task.read_by task) in
  let checkedList := split_list (Task.checked_by task) in
  mkTaskLists readList (length readList) checkedList (length checkedList).

End WebAdminApi.

(** ** Web admin: the former history page *)

Module HistoryPageOld.
Section Page.
Context `{JS.NumericStrings}.

Import Db WebAdmin.

(** The edit form: [qty] is the entry's [stock_after] when the modal
    opens and the text of the input once the admin has typed. *)
Record form : Type := mkForm {
  qty : JS.value;
  action : string
}.

Record editing : Type := mkEditing {
  editEntry : History.row;
  editForm : form
}.

Inductive message : Type :=
| NoMessage
| FailedToUpdateHistoryEntry.

Record page : Type := mkPage {
  showEditModal : bool;
  error : message
}.

(** A column as the page receives it: NULL is [null]. *)
Definition column (o : option JS.number) : JS.value :=
  match o with
  | Some n => JS.Number n
  | None => JS.Null
  end.

Definition handleEdit (entry : History.row) (pg : page) : editing * page :=
  (mkEditing entry (mkForm (column (History.stock_after entry)) (History.action entry)),
   mkPage true (error pg)).

Definition handleEditFormChange (name : HistoryPage.field) (value : string)
    (ed : editing) : editing :=
  let f := editForm ed in
  match name with
  | HistoryPage.FieldQty => mkEditing (editEntry ed) (mkForm (JS.Str value) (action f))
  | HistoryPage.FieldAction => mkEditing (editEntry ed) (mkForm (qty f) value)
  end.

(** [refreshHistory] clears the message and reloads the table it shows. *)
Definition refreshHistory (pg : page) : M page :=
  ret (mkPage (showEditModal pg) NoMessage).

Definition handleEditSubmit (ed : editing) (pg : page) : M page :=
  let pg := mkPage (showEditModal pg) NoMessage in
  try_catch
    (let newStockAfter := JS.ToNumber (qty (editForm ed)) in
     updateHistory
       (mkHistoryUpdate (History.id (editEntry ed)) (JS.Number newStockAfter)
          (Some (action (editForm ed))) (JS.Number newStockAfter)) ;;;
     refreshHistory (mkPage false (error pg)))
    (fun _ => ret (mkPage (showEditModal pg) FailedToUpdateHistoryEntry)).

End Page.
End HistoryPageOld.


(** ** More concrete stores and requests *)

Module Cases.

Import Db WebAdmin.

(** A patch that turns the restock into a correction to 4. *)
Definition patch_min : history_update :=
  mkHistoryUpdate 1 (JS.Number (JS.Int 4)) (Some "min") (JS.Number (JS.Int 4)).

Definition corrected_row : History.row :=
  History.mk 1 "SYSTEM" "Unknown" "ITEMAB12CD34" "Gloves" "min"
    (JS.Int 15) (Some (JS.Int 10)) (Some (JS.Int 4)) 0.

Definition corrected : store := mkStore [] [corrected_row] [] 2.

(** The same patch for an entry that does not exist. *)
Definition patch_nobody : history_update :=
  mkHistoryUpdate 7 (JS.Number (JS.Int 4)) (Some "min") (JS.Number (JS.Int 4)).

(** The former history page, with its modal closed. *)
Definition old_page : HistoryPageOld.page :=
  HistoryPageOld.mkPage false HistoryPageOld.NoMessage.

(** The admin opens the restock entry and types 12. *)
Definition edit_restock : HistoryPage.editing :=
  HistoryPage.mkEditing Sample.restock_row
    (HistoryPage.mkForm (JS.Str "12") "add") (JS.Int 0).

(** The admin raises Sari's deduction from 12 to 60, with 38 on the
    shelf. *)
Definition edit_to_60 : HistoryPage.editing :=
  HistoryPage.mkEditing Sample.deducted_row
    (HistoryPage.mkForm (JS.Str "60") "deduct") (JS.Int 38).

(** Sari's deduction in the ledger, the gloves deleted from [items]. *)
Definition orphan : store := mkStore [] [Sample.deducted_row] [] 2.

(** A second item and a second task. *)
Definition masks (stock : Z) : Item.row :=
  Item.mk "ITEMEF56GH78" "Masks" "Safety" (JS.Int stock) None.

Definition two_shelves : store :=
  mkStore [Sample.gloves 50; masks 7] [] [Sample.refill] 1.

Definition takes_3_masks : Mobile.deduction :=
  Mobile.mkDeduction "ITEMEF56GH78" (JS.Int 3).

(** A line for an item that table [items] does not hold. *)
Definition ghost : Mobile.deduction :=
  Mobile.mkDeduction "ITEMZZ00ZZ00" (JS.Int 1).

Definition sweep : Task.row :=
  Task.mk "TASK1700000000001" "assigned" (Some 400%Z) [Sample.needs_eight]
    None None Task.IdsNull None None.

Definition two_tasks : store :=
  mkStore [Sample.gloves 5] [] [Sample.refill; sweep] 1.


(** Sari has seen the refill task. *)
Definition seen_refill : Task.row :=
  Task.mk "TASK1700000000000" "assigned" (Some 500%Z) [Sample.needs_eight]
    (Some Sample.sari) None Task.IdsNull None None.

Definition seen : store :=
  mkStore [Sample.gloves 38] [Sample.deducted_row] [seen_refill] 2.


End Cases.


(** ** An edit of the history page, from opening the modal to saving *)

Module Rounds.
Section Rounds.
Context `{JS.NumericStrings}.

Import Db HistoryPage.

(** The admin opens [entry], types [typed] for the quantity and saves. *)
Definition edit_round (now : Z) (entry : History.row) (typed : string)
    (pg : page) : M page :=
  ed <- handleEdit entry ;;
  handleEditSubmit now (handleEditFormChange FieldQty typed ed) pg.

End Rounds.
End Rounds.


(** ** Mobile client: more of [api.js] *)

Module MobileApi.

Import Db Mobile.

Definition with_read_by (s : string) (r : Task.row) : Task.row :=
  Task.mk (Task.task_id r) (Task.status r) (Task.assigned_at r) (Task.items r)
    (Some s) (Task.checked_by r) (Task.deducted_by_list r) (Task.done_by r)
    (Task.done_at r).

Definition updateTaskReadStatus (taskId employeeId : string) : M unit :=
  s <- get ;;
  match single (select (eq_text Task.task_id taskId) (tasks s)) with
  | None => throw PostgrestError
  | Some data =>
      let lst := csvToArray (Task.read_by data) in
      let lst := push_absent lst employeeId in
      modify (fun s =>
        with_tasks (update (eq_text Task.task_id taskId)
                      (with_read_by (arrayToCsv lst)) (tasks s)) s)
  end.

(** What [getTasks] returns for a task; [can_mark_done] is kept as the
    truth value of the expression. *)
Record task_view : Type := mkTaskView {
  task : Task.row;
  read_by_list : list string;
  read_count : nat;
  checked_by_list : list string;
  checked_count : nat;
  deducted_by_list : list string;
  can_mark_done : bool
}.

(** The function [getTasks] maps over the rows; [None] when it throws.  In
    the branch for an array in [deducted_by_list] the first statement is
    the identifier [z], which is declared nowhere: evaluating it throws a
    [ReferenceError]. *)
Definition getTasks_view (employeeId : option string) (task : Task.row)
    : option task_view :=
  let readBy := csvToArray (Task.read_by task) in
  let checkedBy := csvToArray (Task.checked_by task) in
  let view deductedBy :=
    mkTaskView task readBy (length readBy) checkedBy (length checkedBy) deductedBy
      (match employeeId with
       | Some e => nonempty e && JS.includes checkedBy e && JS.includes deductedBy e
       | None => false
       end) in
  match Task.deducted_by_list task with
  | Task.IdsArray _ => None
  | Task.IdsText t => Some (view (csvToArray (Some t)))
  | Task.IdsNull => Some (view [])
  end.

(** [rows.map(f)] where [f] may throw *)
Fixpoint map_throwing {A B} (f : A -> option B) (rows : list A) : option (list B) :=
  match rows with
  | [] => Some []
  | r :: rows' =>
      match f r with
      | Some b =>
          match map_throwing f rows' with
          | Some bs => Some (b :: bs)
          | None => None
          end
      | None => None
      end
  end.

(** [getTasks] on the rows its query fetched (all rows of [tasks], in the
    order of the query): whatever is thrown is caught and answered with
    the empty array. *)
Definition getTasks (fetched : list Task.row) (employeeId : option string)
    : list task_view :=
  match map_throwing (getTasks_view employeeId) fetched with
  | Some views => views
  | None => []
  end.

(** One turn of the loop of [deductTaskItems]. *)
Definition deductTaskItems_turn (now : Z) (employeeId employeeName : string)
    (item : Task.required) : M unit :=
  s <- get ;;
  let currentItemData :=
    single (select (eq_text Item.id (Task.item_id item)) (Db.items s)) in
  let stock :=
    match currentItemData with
    | Some d => JS.num_or_zero (Item.stock d)
    | None => JS.Int 0
    end in
  let name :=
    match currentItemData with
    | Some d => if nonempty (Item.name d) then Item.name d else "Unknown Item"
    | None => "Unknown Item"
    end in
  let newStock := JS.sub stock (Task.required_qty item) in
  updateItemStock (Task.item_id item) newStock ;;;
  addHistoryEntry now employeeId employeeName (Task.item_id item) name
    (Task.required_qty item) (Some "deduct").

(** The history row a deduction writes. *)
Definition deduct_entry (id now : Z) (employeeId employeeName item_id item_name : string)
    (qty : JS.number) : History.row :=
  History.mk id employeeId employeeName item_id item_name "deduct" qty None None now.

(** The [deducted_by_list] column of a task as [deductTaskItems] reads
    it. *)
Definition deducted (t : Task.row) : list string :=
  match Task.deducted_by_list t with
  | Task.IdsArray l => l
  | Task.IdsText t => csvToArray (Some t)
  | Task.IdsNull => csvToArray None
  end.

(** What the loop of [deductTaskItems] reads of an item:
    [currentItemData?.stock || 0] and [currentItemData?.name || 'Unknown Item']. *)
Definition read_stock (id : string) (s : store) : JS.number :=
  match single (select (eq_text Item.id id) (Db.items s)) with
  | Some d => JS.num_or_zero (Item.stock d)
  | None => JS.Int 0
  end.
Definition read_name (id : string) (s : store) : string :=
  match single (select (eq_text Item.id id) (Db.items s)) with
  | Some d => if nonempty (Item.name d) then Item.name d else "Unknown Item"
  | None => "Unknown Item"
  end.

End MobileApi.


(** * The dashboard of the mobile client *)

Module Dashboard.

Import Db Mobile MobileApi.

(** What [Alert.alert] shows at the end of [handleDoneTask]. *)
Inductive alert : Type :=
| NoAlert
| AlreadyDone
| CheckFirst
| DeductFirst
| Success
| ErrorAlert (e : exn).

(** The state of the screen that [handleDoneTask] reads and sets; the
    [loading] flag is left out. *)
Record screen : Type := mkScreen {
  tasks : list task_view;
  selectedTask : option task_view;
  hasDeductToday : bool
}.

Definition getDoneByList (scr : screen) : list string :=
  match selectedTask scr with
  | None => []
  | Some t =>
      match Task.done_by (task t) with
      | None => []
      | Some v =>
          if nonempty v
          then filter nonempty (map JS.trim (JS.split comma v))
          else []
      end
  end.

(** [selectedTask?.checked_by_list?.includes(String(employeeId))] *)
Definition isChecked (employeeId : string) (scr : screen) : bool :=
  match selectedTask scr with
  | Some t => JS.includes (checked_by_list t) employeeId
  | None => false
  end.

(** [updateTask] of [handleDoneTask] *)
Definition updateTask (doneByList : list string) (now : Z) (t : task_view)
    : task_view :=
  mkTaskView (Task.with_done (JS.join "," doneByList) now "completed" (task t))
    (read_by_list t) (read_count t) (checked_by_list t) (checked_count t)
    (deducted_by_list t) (can_mark_done t).

(** [handleDoneTask]; [now] is the clock when [doneTask] writes and
    [ui_now] the clock when the screen is updated. *)
Definition handleDoneTask (now ui_now : Z) (employeeId : string) (scr : screen)
    : M (screen * alert) :=
  match selectedTask scr with
  | None => ret (scr, NoAlert)
  | Some selected =>
      if JS.includes (getDoneByList scr) employeeId then ret (scr, AlreadyDone)
      else if negb (isChecked employeeId scr) then ret (scr, CheckFirst)
      else if negb (hasDeductToday scr) then ret (scr, DeductFirst)
      else
        try_catch
          (doneByList <- doneTask now (Task.task_id (task selected)) employeeId ;;
           let update := updateTask doneByList ui_now in
           ret (mkScreen
                  (map (fun t =>
                          if Task.task_id (task t) =? Task.task_id (task selected)
                          then update t else t)
                     (tasks scr))
                  (Some (update selected))
                  (hasDeductToday scr),
                Success))
          (fun e => ret (scr, ErrorAlert e))
  end.

End Dashboard.


Module Screens.

Import Db Mobile MobileApi.

(** The refill task as [getTasks] hands it to the dashboard once Sari has
    checked it, and the screen with that task open. *)
Definition refill_view : task_view :=
  mkTaskView Sample.checked_refill [] 0 [Sample.sari] 1 [] false.

Definition open_refill : Dashboard.screen :=
  Dashboard.mkScreen [refill_view] (Some refill_view) true.

(** The same screen after the Done button, pressed at 2000 and answered
    at 2001. *)
Definition refill_view_done : task_view :=
  mkTaskView
    (Task.mk "TASK1700000000000" "completed" (Some 500%Z) [Sample.needs_eight]
       None (Some Sample.sari) Task.IdsNull (Some Sample.sari) (Some 2001%Z))
    [] 0 [Sample.sari] 1 [] false.

Definition done_refill : Dashboard.screen :=
  Dashboard.mkScreen [refill_view_done] (Some refill_view_done) true.

End Screens.


(** * Comparing cached and fetched data

    [deepEqual] of the history page (the same function is in the task page
    and in the dashboard of the mobile client).  It is called on what
    [JSON.parse] and the database client return, so a value is [null], a
    boolean, a number, a string, or an object, an array being an object
    whose keys are its indices: that is how [Object.keys] and [a[key]]
    see it.  The fields of an object are listed in the order of
    [Object.keys]; their keys are distinct ([well_formed]), so that the
    value listed with a key of [a] is [a[key]].

    [a === b] is equality for the primitive values.  On objects it is
    identity, which the values of this model do not have; the comparison
    of the fields answers [true] on identical objects as well
    ([deepEqual_refl]), so that this first test never changes the
    answer. *)

Module Json.

#[warnings="-register-all"] Inductive value : Type :=
| JNull
| JBool (b : bool)
| JNumber (n : Q)
| JString (s : string)
| JObject (is_array : bool) (fields : list (string * value)).

(** [Object.keys(a)] *)
Definition keys (fields : list (string * value)) : list string := map fst fields.

(** [b[key]] *)
Fixpoint lookup (key : string) (fields : list (string * value)) : option value :=
  match fields with
  | [] => None
  | (k, v) :: rest => if k =? key then Some v else lookup key rest
  end.

Fixpoint deepEqual (a b : value) : bool :=
  match a, b with
  | JObject _ fa, JObject _ fb =>
      (length (keys fa) =? length (keys fb))%nat
      && forallb (fun '(key, a_key) =>
                    JS.includes (keys fb) key
                    && match lookup key fb with
                       | Some b_key => deepEqual a_key b_key
                       | None => false
                       end) fa
  | JNull, JNull => true
  | JBool x, JBool y => Bool.eqb x y
  | JNumber x, JNumber y => Qeq_bool x y
  | JString x, JString y => x =? y
  | _, _ => false
  end.

Fixpoint distinct (l : list string) : bool :=
  match l with
  | [] => true
  | x :: l' => negb (JS.includes l' x) && distinct l'
  end.

Fixpoint well_formed (a : value) : bool :=
  match a with
  | JObject _ fa => distinct (keys fa) && forallb (fun '(_, v) => well_formed v) fa
  | _ => true
  end.

Fixpoint uint_digits (d : Decimal.uint) : string :=
  match d with
  | Decimal.Nil => ""
  | Decimal.D0 d => String "0" (uint_digits d)
  | Decimal.D1 d => String "1" (uint_digits d)
  | Decimal.D2 d => String "2" (uint_digits d)
  | Decimal.D3 d => String "3" (uint_digits d)
  | Decimal.D4 d => String "4" (uint_digits d)
  | Decimal.D5 d => String "5" (uint_digits d)
  | Decimal.D6 d => String "6" (uint_digits d)
  | Decimal.D7 d => String "7" (uint_digits d)
  | Decimal.D8 d => String "8" (uint_digits d)
  | Decimal.D9 d => String "9" (uint_digits d)
  end.

Definition index (i : nat) : string := uint_digits (Nat.to_uint i).

Definition indexed (start : nat) (l : list value) : list (string * value) :=
  combine (map index (seq start (length l))) l.

Definition array (l : list value) : value := JObject true (indexed 0 l).

End Json.

(** Two history rows as the page caches them. *)
Module Cached.

Import Json.

Definition row_a : value :=
  JObject false
    [("id", JNumber 1%Q); ("action", JString "deduct"); ("stock_after", JNull)].

(** The same row with its fields in another order. *)
Definition row_b : value :=
  JObject false
    [("action", JString "deduct"); ("stock_after", JNull); ("id", JNumber 1%Q)].

End Cached.


Example integer_literals_examples :
  JS.integer_literals "12" = JS.Int 12 /\ JS.integer_literals " -7 " = JS.Int (-7)
  /\ JS.integer_literals "" = JS.Int 0 /\ JS.integer_literals "abc" = JS.NaN
  /\ JS.integer_literals "-" = JS.NaN /\ JS.integer_literals "+3" = JS.Int 3.
Proof. repeat split; reflexivity. Qed.

(** ** Strings: [trim], [split] and [join] *)

Section StringFacts.

Import JS.

Lemma trimEnd_idempotent s : trimEnd (trimEnd s) = trimEnd s.
Proof.
  induction s as [|c s IH]; simpl; trivial.
  destruct (trimEnd s) as [|d r] eqn:E.
  - destruct (is_white_space c) eqn:W; simpl; trivial. now rewrite W.
  - simpl in *. now rewrite IH.
Qed.

Lemma trimStart_starts_well s : starts_well (trimStart s) = true.
Proof.
  induction s as [|c s IH]; simpl; trivial.
  destruct (is_white_space c) eqn:W; trivial. simpl. now rewrite W.
Qed.

Lemma trimStart_fixed s : starts_well s = true -> trimStart s = s.
Proof.
  destruct s as [|c s]; simpl; trivial.
  now destruct (is_white_space c).
Qed.

Lemma trimEnd_starts_well s : starts_well s = true -> starts_well (trimEnd s) = true.
Proof.
  destruct s as [|c s]; simpl; trivial. intros W.
  destruct (trimEnd s); simpl; trivial.
  destruct (is_white_space c) eqn:E; [discriminate|].
  simpl. now rewrite E.
Qed.

Lemma trim_idempotent s : trim (trim s) = trim s.
Proof.
  unfold trim.
  rewrite (trimStart_fixed (trimEnd (trimStart s))).
  - apply trimEnd_idempotent.
  - apply trimEnd_starts_well, trimStart_starts_well.
Qed.

Lemma contains_trimStart c s : contains c s = false -> contains c (trimStart s) = false.
Proof.
  induction s as [|a s IH]; simpl; trivial. intros E.
  apply orb_false_iff in E as [E1 E2].
  destruct (is_white_space a); auto. simpl. now rewrite E1, E2.
Qed.

Lemma contains_trimEnd c s : contains c s = false -> contains c (trimEnd s) = false.
Proof.
  induction s as [|a s IH]; simpl; trivial. intros E.
  apply orb_false_iff in E as [E1 E2]. specialize (IH E2).
  destruct (trimEnd s) as [|d r].
  - destruct (is_white_space a); simpl; trivial. now rewrite E1.
  - simpl in *. now rewrite E1, IH.
Qed.

Lemma contains_trim c s : contains c s = false -> contains c (trim s) = false.
Proof. intros E. now apply contains_trimEnd, contains_trimStart. Qed.

Lemma split_pieces sep s : Forall (fun p => contains sep p = false) (split sep s).
Proof.
  induction s as [|c s IH]; simpl.
  - repeat constructor.
  - destruct (Ascii.eqb c sep) eqn:E.
    + constructor; trivial.
    + destruct (split sep s) as [|h t].
      * constructor; trivial. simpl. now rewrite E.
      * inversion IH; subst. constructor; trivial. simpl. now rewrite E.
Qed.

Lemma split_without sep s : contains sep s = false -> split sep s = [s].
Proof.
  induction s as [|c s IH]; simpl; trivial. intros E.
  apply orb_false_iff in E as [E1 E2]. now rewrite E1, IH.
Qed.

Lemma split_append sep x r :
  contains sep x = false -> split sep (x ++ String sep r) = x :: split sep r.
Proof.
  induction x as [|c x IH]; simpl; intros E.
  - now rewrite Ascii.eqb_refl.
  - apply orb_false_iff in E as [E1 E2]. now rewrite E1, IH.
Qed.

Lemma split_join sep l :
  l <> [] -> Forall (fun p => contains sep p = false) l ->
  split sep (join (String sep "") l) = l.
Proof.
  induction l as [|x l IH]; [congruence|]. intros _ F.
  inversion F as [|? ? Fx Fl]; subst. simpl.
  destruct l as [|y l].
  - now apply split_without.
  - change (String sep "" ++ join (String sep "") (y :: l))
      with (String sep (join (String sep "") (y :: l))).
    rewrite split_append by trivial. f_equal. apply IH; [discriminate|trivial].
Qed.

Lemma join_empty sep l :
  join sep l = "" -> Forall (fun p => p <> "") l -> l = [].
Proof.
  destruct l as [|x l]; trivial. intros E F. exfalso.
  inversion F as [|? ? Fx _]; subst. simpl in E.
  destruct l; [congruence|]. destruct x; [congruence|discriminate].
Qed.

Lemma includes_In l x : includes l x = true <-> In x l.
Proof.
  unfold includes. rewrite existsb_exists. split.
  - intros [y [I E]]. apply String.eqb_eq in E. now subst.
  - intros I. exists x. split; trivial. apply String.eqb_refl.
Qed.

Lemma includes_not_In l x : includes l x = false <-> ~ In x l.
Proof.
  rewrite <- includes_In. destruct (includes l x); split; congruence.
Qed.

End StringFacts.

(** ** Membership columns: [csvToArray] after [arrayToCsv] *)

Section CsvFacts.

Import JS Mobile.

Lemma csv_safe_iff id :
  csv_safe id = true <-> id <> "" /\ contains comma id = false /\ trim id = id.
Proof.
  unfold csv_safe, nonempty.
  rewrite !andb_true_iff, !negb_true_iff, String.eqb_eq, String.eqb_neq.
  tauto.
Qed.

Lemma csvToArray_safe value : Forall (fun id => csv_safe id = true) (csvToArray value).
Proof.
  destruct value as [s|]; simpl; [|constructor].
  destruct (nonempty s); [|constructor].
  apply Forall_forall. intros x I.
  apply filter_In in I as [I N]. apply in_map_iff in I as [p [E I]]. subst x.
  apply csv_safe_iff. repeat split.
  - unfold nonempty in N. apply negb_true_iff in N. now apply String.eqb_neq.
  - apply contains_trim.
    pose proof (split_pieces comma s) as F. rewrite Forall_forall in F. now apply F.
  - apply trim_idempotent.
Qed.

Lemma map_trim_safe l :
  Forall (fun id => csv_safe id = true) l -> map trim l = l.
Proof.
  induction 1 as [|x l Hx _ IH]; simpl; trivial.
  apply csv_safe_iff in Hx as (_ & _ & T). now rewrite T, IH.
Qed.

Lemma filter_nonempty_safe l :
  Forall (fun id => csv_safe id = true) l -> filter nonempty l = l.
Proof.
  induction 1 as [|x l Hx _ IH]; simpl; trivial.
  unfold csv_safe in Hx. apply andb_true_iff in Hx as [Hx _].
  apply andb_true_iff in Hx as [Hx _]. now rewrite Hx, IH.
Qed.

(** Reading back a column written from safe identifiers gives the array
    that was written. *)
Lemma csvToArray_arrayToCsv l :
  Forall (fun id => csv_safe id = true) l ->
  csvToArray (Some (arrayToCsv l)) = l.
Proof.
  intros F. unfold csvToArray, arrayToCsv.
  destruct (nonempty (join "," l)) eqn:N.
  - destruct l as [|x l]; [discriminate|].
    change "," with (String comma "").
    rewrite split_join.
    + now rewrite map_trim_safe, filter_nonempty_safe.
    + discriminate.
    + eapply Forall_impl; [|exact F]. intros a Ha.
      now apply csv_safe_iff in Ha.
  - unfold nonempty in N. apply negb_false_iff, String.eqb_eq in N.
    symmetry. apply (join_empty _ N).
    eapply Forall_impl; [|exact F]. intros a Ha. now apply csv_safe_iff in Ha.
Qed.

Lemma push_absent_safe l id :
  Forall (fun x => csv_safe x = true) l -> csv_safe id = true ->
  Forall (fun x => csv_safe x = true) (push_absent l id).
Proof.
  intros F S. unfold push_absent.
  destruct (includes l id); simpl; trivial.
  apply Forall_app. split; trivial. now constructor.
Qed.

Lemma push_absent_In l id : In id (push_absent l id).
Proof.
  unfold push_absent. destruct (includes l id) eqn:E; simpl.
  - now apply includes_In.
  - apply in_or_app. right. now left.
Qed.

Lemma push_absent_incl l id : incl l (push_absent l id).
Proof.
  unfold push_absent. destruct (includes l id); simpl.
  - apply incl_refl.
  - now apply incl_appl, incl_refl.
Qed.

Lemma push_absent_NoDup l id : NoDup l -> NoDup (push_absent l id).
Proof.
  intros N. unfold push_absent. destruct (includes l id) eqn:E; simpl; trivial.
  apply includes_not_In in E.
  apply NoDup_rev in N. rewrite <- (rev_involutive (l ++ [id])).
  apply NoDup_rev. rewrite rev_app_distr. simpl. constructor; trivial.
  now rewrite <- in_rev.
Qed.

Lemma push_absent_present l id : In id l -> push_absent l id = l.
Proof.
  intros I. unfold push_absent. apply includes_In in I. now rewrite I.
Qed.

(** An identifier made by [generateRandomId] is safe. *)
Lemma chars_clean c :
  contains c WebAdmin.chars = true ->
  is_white_space c = false /\ Ascii.eqb c comma = false.
Proof.
  destruct c as [[] [] [] [] [] [] [] []]; vm_compute;
    intros E; try discriminate E; split; reflexivity.
Qed.

Lemma clean_string_fixed s :
  forallb (fun c => negb (is_white_space c) && negb (Ascii.eqb c comma))
    (list_ascii_of_string s) = true ->
  trimStart s = s /\ trimEnd s = s /\ contains comma s = false.
Proof.
  induction s as [|c s IH]; simpl; [tauto|]. intros E.
  apply andb_true_iff in E as [E1 E2]. apply andb_true_iff in E1 as [W C].
  apply negb_true_iff in W, C. destruct (IH E2) as (_ & T & N).
  rewrite W, T, C, N. repeat split. now destruct s.
Qed.

Lemma generated_id_safe id : WebAdmin.generated_id id = true -> csv_safe id = true.
Proof.
  unfold WebAdmin.generated_id. intros E. apply andb_true_iff in E as [L F].
  assert (G : forallb (fun c => negb (is_white_space c) && negb (Ascii.eqb c comma))
                (list_ascii_of_string id) = true).
  { rewrite forallb_forall in F |- *. intros c I.
    destruct (chars_clean c (F c I)) as [W C]. now rewrite W, C. }
  destruct (clean_string_fixed id G) as (S & T & N).
  apply csv_safe_iff. repeat split; trivial.
  - intros ->. discriminate.
  - unfold trim. now rewrite S.
Qed.

End CsvFacts.

(** ** Arithmetic on integers *)

Section NumberFacts.

Import JS.

Lemma add_Int a b : add (Int a) (Int b) = Int (a + b).
Proof.
  unfold add, Int, inject_Z, Qplus. simpl. f_equal. f_equal. lia.
Qed.

Lemma sub_Int a b : sub (Int a) (Int b) = Int (a - b).
Proof.
  unfold sub, Int, inject_Z, Qminus, Qplus, Qopp. simpl. f_equal. f_equal. lia.
Qed.

Lemma lt_Int a b : lt (Int a) (Int b) = (a <? b)%Z.
Proof.
  unfold lt, Int, inject_Z, Qcompare. simpl. rewrite !Z.mul_1_r.
  unfold Z.ltb. now destruct (a ?= b)%Z.
Qed.

Lemma max_Int a b : max (Int a) (Int b) = Int (Z.max a b).
Proof.
  pose proof (lt_Int a b) as L. unfold max, Int in *. rewrite L.
  destruct (a <? b)%Z eqn:E.
  - apply Z.ltb_lt in E. now rewrite Z.max_r by lia.
  - apply Z.ltb_ge in E. now rewrite Z.max_l by lia.
Qed.

Lemma isInteger_Int z : isInteger (Int z) = true.
Proof. unfold isInteger, Int, inject_Z. simpl. now rewrite Z.mod_1_r. Qed.

Lemma eqn_not_lt a b : eqn a b = true -> lt a b = false /\ lt b a = false.
Proof.
  destruct a as [x|], b as [y|]; simpl; try discriminate. intros E.
  apply Qeq_bool_iff in E.
  assert (E' : (y == x)%Q) by now symmetry.
  apply Qeq_alt in E, E'. now rewrite E, E'.
Qed.

Lemma lt_asym a b : lt a b = true -> lt b a = false.
Proof.
  destruct a as [x|], b as [y|]; simpl; try discriminate.
  rewrite <- (Qcompare_antisym x y). now destruct (x ?= y)%Q.
Qed.

End NumberFacts.

(** ** Queries and updates *)

Section DbFacts.

Import Db.

Lemma bind_eq {A B} (m : M A) (k : A -> M B) s :
  bind m k s
  = match m s with
    | (s', Ok a) => k a s'
    | (s', Throw e) => (s', Throw e)
    end.
Proof. reflexivity. Qed.

Lemma try_catch_eq {A} (m : M A) handler s :
  try_catch m handler s
  = match m s with
    | (s', Ok a) => (s', Ok a)
    | (s', Throw e) => handler e s'
    end.
Proof. reflexivity. Qed.

Lemma single_map {R} (f : R -> R) rows r :
  single rows = Some r -> single (map f rows) = Some (f r).
Proof.
  destruct rows as [|x [|y rows]]; simpl; try discriminate. congruence.
Qed.

Lemma single_find {R} (p : R -> bool) rows r :
  single (select p rows) = Some r -> find p rows = Some r.
Proof.
  unfold select. induction rows as [|x rows IH]; simpl; [discriminate|].
  destruct (p x) eqn:E; [|exact IH].
  destruct (filter p rows); simpl; [congruence|discriminate].
Qed.

Lemma single_unique {R} (p : R -> bool) rows d r :
  single (select p rows) = Some d -> In r rows -> p r = true -> r = d.
Proof.
  intros S I P. assert (F : In r (select p rows)) by now apply filter_In.
  destruct (select p rows) as [|x [|y l]]; simpl in S; try discriminate.
  injection S as <-. destruct F as [F|[]]. now symmetry.
Qed.

Lemma limit_1_not_empty {R} (p : R -> bool) rows :
  (0 <? length (firstn 1 (select p rows)))%nat = existsb p rows.
Proof.
  unfold select. induction rows as [|r rows IH]; simpl; trivial.
  destruct (p r); simpl; trivial.
Qed.

Lemma select_update {R} (column : R -> string) v patch rows :
  (forall r, column (patch r) = column r) ->
  select (eq_text column v) (update (eq_text column v) patch rows)
  = map patch (select (eq_text column v) rows).
Proof.
  intros K. unfold select, update, eq_text.
  induction rows as [|r rows IH]; simpl; trivial.
  destruct (column r =? v) eqn:E; simpl.
  - now rewrite K, E, IH.
  - now rewrite E.
Qed.

Lemma update_ext {R} (p : R -> bool) f g rows :
  (forall r, f r = g r) -> update p f rows = update p g rows.
Proof.
  intros E. unfold update. apply map_ext. intros r. now rewrite E.
Qed.

Lemma update_update {R} (p : R -> bool) f g rows :
  (forall r, p (g r) = p r) ->
  update p f (update p g rows) = update p (fun r => f (g r)) rows.
Proof.
  intros K. unfold update. rewrite map_map. apply map_ext. intros r.
  destruct (p r) eqn:E; [now rewrite K, E|now rewrite E].
Qed.

Lemma update_Forall2 {R} (P : R -> R -> Prop) p patch rows :
  (forall r, P r r) -> (forall r, P r (patch r)) ->
  Forall2 P rows (update p patch rows).
Proof.
  intros Hr Hp. induction rows as [|r rows IH]; simpl; constructor; trivial.
  destruct (p r); trivial.
Qed.

Lemma update_Forall2_in {R} (P : R -> R -> Prop) p patch rows :
  (forall r, P r r) ->
  (forall r, In r rows -> p r = true -> P r (patch r)) ->
  Forall2 P rows (update p patch rows).
Proof.
  intros Hr. induction rows as [|r rows IH]; simpl; intros Hp; constructor.
  - destruct (p r) eqn:E; [apply Hp; auto|apply Hr].
  - apply IH. intros r' I. apply Hp. now right.
Qed.

End DbFacts.

(** ** Web admin: inserting and patching history rows *)

Section WebAdminFacts.
Context `{JS.NumericStrings}.

Import Db WebAdmin.

Ltac run_db :=
  unfold bind, get, modify, ret, throw, try_catch in *; simpl in *.

Lemma str_truthy_or a : str_truthy a = true -> a = Some (str_or a "").
Proof.
  destruct a as [x|]; simpl; [|discriminate].
  destruct (x =? "") eqn:E; simpl; [discriminate|trivial].
Qed.

(** What a successful [addHistory] did: the validation passed, one row
    was appended and returned, and nothing else changed. *)
Lemma addHistory_inserted session now payload s s' row :
  addHistory session now payload s = (s', Ok row) ->
  str_truthy (hi_action payload) = true
  /\ JS.truthy (hi_qty payload) = true
  /\ s' = mkStore (items s) (history s ++ [row]) (tasks s) (next_history_id s + 1)
  /\ History.stock_before row =
       Some (JS.ToNumber (JS.or_else (hi_stock_before payload) (JS.Number (JS.Int 0))))
  /\ History.stock_after row =
       Some (JS.ToNumber (JS.or_else (hi_stock_after payload) (JS.Number (JS.Int 0)))).
Proof.
  unfold addHistory.
  destruct (str_truthy (hi_item_id payload)); simpl; [|discriminate].
  destruct (str_truthy (hi_action payload)); simpl; [|discriminate].
  destruct (JS.truthy (hi_qty payload)); simpl; [|discriminate].
  run_db. intros E. inversion E; subst; clear E. simpl. repeat split.
Qed.

(** C1.  Every history row inserted by [addHistory] carries the action
    the code derives from the payload.  With [stockBefore] and
    [stockAfter] the numbers read from the payload's [stock_before] and
    [stock_after] ([Number(payload.stock_before || 0)] and likewise), which
    are also the snapshot the row records: the action is [deduct] when
    [deduct] was requested; otherwise it is [add] when [stockAfter] is
    above [stockBefore], [min] when it is below, and the requested action
    when the two are equal. *)
Theorem addHistory_classifies_action session now payload s s' row :
  addHistory session now payload s = (s', Ok row) ->
  let stockBefore :=
    JS.ToNumber (JS.or_else (hi_stock_before payload) (JS.Number (JS.Int 0))) in
  let stockAfter :=
    JS.ToNumber (JS.or_else (hi_stock_after payload) (JS.Number (JS.Int 0))) in
  history s' = (history s ++ [row])%list
  /\ History.stock_before row = Some stockBefore
  /\ History.stock_after row = Some stockAfter
  /\ (hi_action payload = Some "deduct" -> History.action row = "deduct")
  /\ (hi_action payload <> Some "deduct" ->
      (JS.gt stockAfter stockBefore = true -> History.action row = "add")
      /\ (JS.lt stockAfter stockBefore = true -> History.action row = "min")
      /\ (JS.eqn stockAfter stockBefore = true ->
          hi_action payload = Some (History.action row))).
Proof.
  intros E. destruct (addHistory_inserted _ _ _ _ E) as (A & _ & S' & B & F).
  cbv zeta. split; [now subst s'|]. split; [exact B|]. split; [exact F|].
  clear B F S'. apply str_truthy_or in A.
  revert E. unfold addHistory.
  destruct (_ || _ || _); simpl; [discriminate|].
  run_db. intros E. inversion E; subst; clear E. simpl.
  set (before := JS.ToNumber (JS.or_else (hi_stock_before payload) _)).
  set (after := JS.ToNumber (JS.or_else (hi_stock_after payload) _)).
  split.
  - intros D. rewrite D. reflexivity.
  - intros D.
    assert (N : (str_or (hi_action payload) "" =? "deduct") = false).
    { apply String.eqb_neq. intros Q. apply D. now rewrite A, Q. }
    rewrite N. simpl. repeat split.
    + intros G. now rewrite G.
    + intros L. unfold JS.gt. rewrite (lt_asym _ _ L). now rewrite L.
    + intros Q. apply eqn_not_lt in Q as [Q1 Q2]. unfold JS.gt.
      now rewrite Q1, Q2.
Qed.

(** C2, as the code has it.  The recorded [qty] of an inserted row is the
    requested quantity (read as a number) when [deduct] was requested,
    and the recorded [stock_after] otherwise. *)
Theorem addHistory_records_qty session now payload s s' row :
  addHistory session now payload s = (s', Ok row) ->
  (hi_action payload = Some "deduct" ->
     History.qty row = JS.ToNumber (hi_qty payload))
  /\ (hi_action payload <> Some "deduct" ->
        Some (History.qty row) = History.stock_after row).
Proof.
  intros E. destruct (addHistory_inserted _ _ _ _ E) as (A & _ & _ & _ & _).
  apply str_truthy_or in A.
  revert E. unfold addHistory.
  destruct (_ || _ || _); simpl; [discriminate|].
  run_db. intros E. inversion E; subst; clear E. simpl. split.
  - intros D. now rewrite D.
  - intros D.
    assert (N : (str_or (hi_action payload) "" =? "deduct") = false).
    { apply String.eqb_neq. intros Q. apply D. now rewrite A, Q. }
    now rewrite N.
Qed.

End WebAdminFacts.

Section WebAdminExamples.

Import Db WebAdmin.

#[local] Existing Instance JS.integer_literals.

(** A removal is requested for a stock that goes from 10 up to 15: the
    row is recorded as [add]. *)
Lemma addHistory_classifies_action_witness :
  addHistory None 0 Sample.mislabelled Sample.empty
  = (Sample.restocked, Ok Sample.restock_row)
  /\ hi_action Sample.mislabelled = Some "min"
  /\ History.stock_before Sample.restock_row = Some (JS.Int 10)
  /\ History.stock_after Sample.restock_row = Some (JS.Int 15)
  /\ History.action Sample.restock_row = "add".
Proof.
  split; [reflexivity|]. split; [reflexivity|].
  destruct (addHistory_classifies_action (H := JS.integer_literals)
              None 0 Sample.mislabelled Sample.empty (s' := Sample.restocked)
              (row := Sample.restock_row) eq_refl)
    as (_ & B & A & _ & K).
  split; [exact B|]. split; [exact A|].
  destruct K as (G & _); [discriminate|]. apply G. reflexivity.
Defined.

(** C2, as stated, fails: restocking from 10 to 15 records [qty] 15, not
    the difference 5. *)
Lemma addHistory_qty_is_not_the_difference :
  addHistory None 0 Sample.restock Sample.empty
  = (Sample.restocked, Ok Sample.restock_row)
  /\ History.action Sample.restock_row = "add"
  /\ History.stock_before Sample.restock_row = Some (JS.Int 10)
  /\ History.stock_after Sample.restock_row = Some (JS.Int 15)
  /\ History.qty Sample.restock_row = JS.Int 15
  /\ History.qty Sample.restock_row <> JS.Int (Z.abs (15 - 10)).
Proof. repeat split; discriminate. Qed.

Lemma addHistory_records_qty_witness :
  addHistory None 0 Sample.restock Sample.empty
  = (Sample.restocked, Ok Sample.restock_row)
  /\ (hi_action Sample.restock = Some "deduct" ->
      History.qty Sample.restock_row = JS.ToNumber (hi_qty Sample.restock))
  /\ (hi_action Sample.restock <> Some "deduct" ->
      Some (History.qty Sample.restock_row) = History.stock_after Sample.restock_row).
Proof.
  split; [reflexivity|].
  apply (addHistory_records_qty (H := JS.integer_literals)
           None 0 Sample.restock Sample.empty (s' := Sample.restocked)).
  reflexivity.
Defined.

End WebAdminExamples.

(** ** Web admin: validation and frame of [updateHistory] *)

Section HistoryUpdateFacts.
Context `{JS.NumericStrings}.

Import Db WebAdmin Ledger.

Lemma updateHistory_invalid_qty h s :
  JS.isInteger (JS.ToNumber (hu_qty h)) = false ->
  updateHistory h s = (s, Throw (Error "INVALID_QTY")).
Proof. intros E. unfold updateHistory. now rewrite E. Qed.

Lemma updateHistory_action_empty h s :
  JS.isInteger (JS.ToNumber (hu_qty h)) = true ->
  action_empty (hu_action h) = true ->
  updateHistory h s = (s, Throw (Error "ACTION_EMPTY")).
Proof.
  intros E A. unfold updateHistory. rewrite E. simpl.
  destruct (hu_action h) as [a|]; simpl in *; [now rewrite A|reflexivity].
Qed.

(** The patch [updateHistory] sends once the validation has passed. *)
Lemma updateHistory_patches h s :
  JS.isInteger (JS.ToNumber (hu_qty h)) = true ->
  action_empty (hu_action h) = false ->
  exists a,
    hu_action h = Some a
    /\ updateHistory h s
       = (with_history
            (update (eq_int History.id (hu_id h))
               (fun r =>
                  match hu_stock_after h with
                  | JS.Undefined => History.with_action (JS.trim a) r
                  | v => History.with_stock_after (JS.ToNumber v)
                           (History.with_action (JS.trim a) r)
                  end)
               (history s)) s,
          Ok tt).
Proof.
  intros E A. unfold updateHistory. rewrite E. simpl.
  destruct (hu_action h) as [a|]; simpl in *; [|discriminate].
  exists a. split; trivial. rewrite A. unfold modify.
  now destruct (hu_stock_after h).
Qed.

Lemma addHistory_missing_action session now payload s :
  str_truthy (hi_action payload) = false ->
  addHistory session now payload s
  = (s, Throw (Error "Missing required fields for history")).
Proof.
  intros E. unfold addHistory. rewrite E. simpl. now rewrite orb_true_r.
Qed.

(** C4, as the code has it.  [updateHistory] rejects a [qty] that is not
    an integer with [INVALID_QTY] and, the [qty] being an integer, a
    missing, empty or blank [action] with [ACTION_EMPTY]; [addHistory]
    rejects a missing or empty [action] with its own message.  In each
    case the store is the one before the call. *)
Theorem history_mutation_rejected_before_write h session now payload s :
  (JS.isInteger (JS.ToNumber (hu_qty h)) = false ->
     updateHistory h s = (s, Throw (Error "INVALID_QTY")))
  /\ (JS.isInteger (JS.ToNumber (hu_qty h)) = true ->
      action_empty (hu_action h) = true ->
      updateHistory h s = (s, Throw (Error "ACTION_EMPTY")))
  /\ (str_truthy (hi_action payload) = false ->
      addHistory session now payload s
      = (s, Throw (Error "Missing required fields for history"))).
Proof.
  split; [apply updateHistory_invalid_qty|].
  split; [apply updateHistory_action_empty|apply addHistory_missing_action].
Qed.

Lemma kept_refl r : kept r r.
Proof. unfold kept. tauto. Qed.

Lemma kept_with_action a r : kept r (History.with_action a r).
Proof. unfold kept. simpl. tauto. Qed.

Lemma kept_with_stock_after n r : kept r (History.with_stock_after n r).
Proof. unfold kept. simpl. tauto. Qed.

Lemma kept_trans r1 r2 r3 : kept r1 r2 -> kept r2 r3 -> kept r1 r3.
Proof. unfold kept. intuition congruence. Qed.

(** C10.  Whatever [updateHistory] is given and whatever it answers, the
    tables [items] and [tasks] are as before and every history row keeps
    its [id], [employee_id], [employee_name], [item_id], [item_name],
    [qty], [stock_before] and [timestamp]; rows with another [id] are
    not touched at all. *)
Theorem updateHistory_frame h s :
  let s' := fst (updateHistory h s) in
  items s' = items s
  /\ tasks s' = tasks s
  /\ Forall2 (fun r r' => kept r r' /\ (History.id r <> hu_id h -> r' = r))
       (history s) (history s').
Proof.
  destruct (JS.isInteger (JS.ToNumber (hu_qty h))) eqn:E.
  - destruct (action_empty (hu_action h)) eqn:A.
    + rewrite (updateHistory_action_empty _ _ E A). simpl.
      repeat split. induction (history s); constructor; trivial.
      split; [apply kept_refl|trivial].
    + destruct (updateHistory_patches _ s E A) as (a & _ & ->). simpl.
      repeat split. unfold update.
      induction (history s) as [|r rows IH]; simpl; constructor; trivial.
      unfold eq_int. destruct (Z.eqb_spec (History.id r) (hu_id h)) as [I|I].
      * split; [|congruence].
        destruct (hu_stock_after h);
          solve [ apply kept_with_action
                | eapply kept_trans;
                  [apply kept_with_action|apply kept_with_stock_after] ].
      * split; [apply kept_refl|trivial].
  - rewrite (updateHistory_invalid_qty _ _ E). simpl.
    repeat split. induction (history s); constructor; trivial.
    split; [apply kept_refl|trivial].
Qed.

End HistoryUpdateFacts.

Section HistoryUpdateExamples.

Import Db WebAdmin Ledger.

#[local] Existing Instance JS.integer_literals.

Lemma history_mutation_rejected_before_write_witness :
  updateHistory Sample.patch_bad_qty Sample.restocked
  = (Sample.restocked, Throw (Error "INVALID_QTY"))
  /\ updateHistory Sample.patch_blank_action Sample.restocked
     = (Sample.restocked, Throw (Error "ACTION_EMPTY"))
  /\ addHistory None 0 Sample.no_action Sample.restocked
     = (Sample.restocked, Throw (Error "Missing required fields for history")).
Proof.
  split; [|split].
  - apply (history_mutation_rejected_before_write
             Sample.patch_bad_qty None 0 Sample.no_action Sample.restocked).
    reflexivity.
  - apply (history_mutation_rejected_before_write
             Sample.patch_blank_action None 0 Sample.no_action Sample.restocked);
      reflexivity.
  - apply (history_mutation_rejected_before_write
             Sample.patch_bad_qty None 0 Sample.no_action Sample.restocked).
    reflexivity.
Defined.

(** C4, as stated, fails on insert: [addHistory] writes a row for the
    [qty] ["abc"], which is not an integer, and its answer to a missing
    [action] is not [ACTION_EMPTY]. *)
Lemma addHistory_does_not_check_qty :
  JS.isInteger (JS.ToNumber (hi_qty Sample.bad_qty)) = false
  /\ addHistory None 0 Sample.bad_qty Sample.empty
     = (mkStore [] [Sample.bad_qty_row] [] 2, Ok Sample.bad_qty_row)
  /\ hi_action Sample.no_action = None
  /\ snd (addHistory None 0 Sample.no_action Sample.empty)
     <> Throw (Error "ACTION_EMPTY").
Proof. repeat split. discriminate. Qed.

End HistoryUpdateExamples.

(** ** Web admin: editing a deduct entry *)

Section EditFacts.
Context `{JS.NumericStrings}.

Import Db WebAdmin HistoryPage Ledger.

#[local] Arguments JS.sub : simpl never.
#[local] Arguments JS.add : simpl never.

(** Opening the modal on a deduct entry: the form shows the entry's
    [qty], and [currentItemStock] is the stock of the owning item. *)
Lemma handleEdit_deduct entry s it :
  History.action entry = "deduct" ->
  item_of (History.item_id entry) s = Some it ->
  handleEdit entry s
  = (s, Ok (mkEditing entry (mkForm (JS.Number (History.qty entry)) "deduct")
              (Item.stock it))).
Proof.
  intros A I. unfold handleEdit, getItems, bind, get, ret. simpl.
  rewrite A. simpl. now rewrite (single_find _ _ I).
Qed.

Lemma updateItem_single now u s it :
  item_of (iu_id u) s = Some it ->
  updateItem now u s
  = (with_items (update (eq_text Item.id (iu_id u)) (apply_item_update now u) (items s)) s,
     Ok (apply_item_update now u it)).
Proof.
  intros I. unfold updateItem, item_of in *.
  rewrite bind_eq. unfold get. cbv iota beta. now rewrite I.
Qed.

(** The run of [handleEditSubmit] on a deduct entry whose new quantity
    passes the validation and whose item exists. *)
Lemma handleEditSubmit_deduct now ed pg s oldQty newQty currentStock it :
  History.action (editEntry ed) = "deduct" ->
  History.qty (editEntry ed) = JS.Int oldQty ->
  JS.ToNumber (qty (editForm ed)) = JS.Int newQty ->
  action_empty (Some (action (editForm ed))) = false ->
  currentItemStock ed = JS.Int currentStock ->
  item_of (History.item_id (editEntry ed)) s = Some it ->
  let patched :=
    update (eq_int History.id (History.id (editEntry ed)))
      (History.with_action (JS.trim (action (editForm ed)))) (Db.history s) in
  handleEditSubmit now ed pg s
  = (mkStore
       (update (eq_text Item.id (History.item_id (editEntry ed)))
          (apply_item_update now
             (mkItemUpdate (History.item_id (editEntry ed)) None None
                (Some (JS.Int (currentStock + (oldQty - newQty))))))
          (items s))
       patched (tasks s) (next_history_id s),
     Ok (mkPage false NoMessage)).
Proof.
  intros A Q N E C I patched. unfold handleEditSubmit.
  rewrite A, N, Q, C, String.eqb_refl, sub_Int, add_Int.
  set (h := mkHistoryUpdate _ _ _ _).
  assert (Eh : JS.isInteger (JS.ToNumber (hu_qty h)) = true)
    by apply isInteger_Int.
  destruct (updateHistory_patches h s Eh E) as (a & Ea & U).
  injection Ea as <-. simpl in U.
  rewrite try_catch_eq, !bind_eq, U. cbv iota beta.
  rewrite try_catch_eq, bind_eq.
  rewrite (updateItem_single now _ _ (it := it)) by exact I.
  reflexivity.
Qed.

(** What the newer page does on every such edit.  Submitting the edit of
    a deduct entry from [oldQty] to [newQty] sets the stock of the owning
    item to [currentStock + (oldQty - newQty)], where [currentStock] is the
    stock read when the modal was opened; the history rows keep their
    [qty], although the page hands the new one to [updateHistory]: only
    [action] is patched. *)
Theorem deduct_edit_moves_stock_keeps_qty
    now ed pg s oldQty newQty currentStock it :
  History.action (editEntry ed) = "deduct" ->
  History.qty (editEntry ed) = JS.Int oldQty ->
  JS.ToNumber (qty (editForm ed)) = JS.Int newQty ->
  action_empty (Some (action (editForm ed))) = false ->
  currentItemStock ed = JS.Int currentStock ->
  item_of (History.item_id (editEntry ed)) s = Some it ->
  let s' := fst (handleEditSubmit now ed pg s) in
  (exists it',
      item_of (History.item_id (editEntry ed)) s' = Some it'
      /\ Item.stock it' = JS.Int (currentStock + (oldQty - newQty)))
  /\ Db.history s'
     = update (eq_int History.id (History.id (editEntry ed)))
         (History.with_action (JS.trim (action (editForm ed)))) (Db.history s)
  /\ Forall2 kept (Db.history s) (Db.history s').
Proof.
  intros A Q N E C I.
  rewrite (handleEditSubmit_deduct now ed pg s A Q N E C I). simpl.
  split; [|split].
  - unfold item_of in *. simpl. rewrite select_update by reflexivity.
    rewrite (single_map _ _ I). eexists. split; reflexivity.
  - reflexivity.
  - apply update_Forall2; [apply kept_refl|apply kept_with_action].
Qed.

End EditFacts.

Section EditExamples.

Import Db WebAdmin HistoryPage Ledger.

#[local] Existing Instance JS.integer_literals.

Lemma edit_scenario :
  handleEdit Sample.deducted_row Sample.after_deduct
  = (Sample.after_deduct,
     Ok (mkEditing Sample.deducted_row (mkForm (JS.Number (JS.Int 12)) "deduct")
           (JS.Int 38)))
  /\ handleEditFormChange FieldQty "20"
       (mkEditing Sample.deducted_row (mkForm (JS.Number (JS.Int 12)) "deduct")
          (JS.Int 38))
     = Sample.edit_to_20
  /\ handleEditSubmit 5000 Sample.edit_to_20 Sample.blank_page Sample.after_deduct
     = (Sample.after_edit, Ok (mkPage false NoMessage)).
Proof. repeat split. Qed.

Lemma deduct_edit_moves_stock_keeps_qty_witness :
  let s' := fst (handleEditSubmit 5000 Sample.edit_to_20 Sample.blank_page
                   Sample.after_deduct) in
  (exists it',
      item_of "ITEMAB12CD34" s' = Some it'
      /\ Item.stock it' = JS.Int (38 + (12 - 20)))
  /\ Db.history s'
     = update (eq_int History.id 1) (History.with_action (JS.trim "deduct"))
         (Db.history Sample.after_deduct)
  /\ Forall2 kept (Db.history Sample.after_deduct) (Db.history s').
Proof.
  apply (deduct_edit_moves_stock_keeps_qty 5000 Sample.edit_to_20
           Sample.blank_page Sample.after_deduct
           (oldQty := 12%Z) (newQty := 20%Z) (currentStock := 38%Z)
           (it := Sample.gloves 38)); reflexivity.
Defined.

(** C3 at its failing input.  Sari's deduction of 12 gloves is in the
    ledger and 38 gloves are on the shelf; the admin opens the entry,
    types 20 and saves.  On the newer page ([History.new.js]) the stock
    moves to [38 + (12 - 20) = 30], as the claim says, but the entry still
    says 12: the page puts the new quantity in the patch it hands to
    [updateHistory] and logs that it updates it, and [updateHistory] never
    writes [qty].  On the page the application mounts ([History.js]) the
    same edit moves no stock at all: the entry keeps its 12, the item its
    38, and the 20 is stored as the entry's [stock_after]. *)
Theorem deduct_edit_does_not_store_the_new_qty :
  (let s' := fst (Rounds.edit_round 5000 Sample.deducted_row "20" Sample.blank_page
                    Sample.after_deduct) in
   JS.StringToNumber "20" = JS.Int 20
   /\ s' = fst (handleEditSubmit 5000 Sample.edit_to_20 Sample.blank_page
                  Sample.after_deduct)
   /\ map Item.stock (items s') = [JS.Int (38 + (12 - 20))]
   /\ map History.qty (Db.history s') = [JS.Int 12]
   /\ map History.qty (Db.history s') <> [JS.Int 20])
  /\ (let ed :=
        HistoryPageOld.handleEditFormChange FieldQty "20"
          (fst (HistoryPageOld.handleEdit Sample.deducted_row Cases.old_page)) in
      let s' := fst (HistoryPageOld.handleEditSubmit ed Cases.old_page
                       Sample.after_deduct) in
      map Item.stock (items s') = [JS.Int 38]
      /\ map Item.stock (items s') <> [JS.Int (38 + (12 - 20))]
      /\ map History.qty (Db.history s') = [JS.Int 12]
      /\ map History.stock_after (Db.history s') = [Some (JS.Int 20)]).
Proof.
  split; cbv zeta.
  - split; [reflexivity|]. split; [reflexivity|]. split; [reflexivity|].
    split; [reflexivity|discriminate].
  - split; [reflexivity|]. split; [discriminate|]. split; reflexivity.
Qed.

End EditExamples.

(** ** Mobile client: deductions *)

Section DeductFacts.

Import Db Mobile Ledger.

#[local] Arguments JS.sub : simpl never.
#[local] Arguments JS.max : simpl never.
#[local] Arguments JS.lt : simpl never.

Lemma max_zero_not_negative a : JS.lt (JS.max a (JS.Int 0)) (JS.Int 0) = false.
Proof.
  destruct a as [q|]; [|reflexivity].
  unfold JS.max. change (JS.Num (inject_Z 0)) with (JS.Int 0).
  destruct (JS.lt (JS.Num q) (JS.Int 0)) eqn:E; trivial.
Qed.

Lemma deductItem_step_run now employeeId employeeName item s :
  deductItem_step now employeeId employeeName item s
  = match item_of (itemId item) s with
    | Some data =>
        (mkStore
           (update (eq_text Item.id (itemId item))
              (Item.with_stock
                 (JS.max (JS.sub (Item.stock data) (qty item)) (JS.Int 0)))
              (items s))
           (history s ++
              [History.mk (next_history_id s) employeeId employeeName (itemId item)
                 (Item.name data) "deduct" (qty item) None None now])
           (tasks s) (next_history_id s + 1),
         Ok tt)
    | None => (s, Throw (Error ("Item " ++ itemId item ++ " not found")))
    end.
Proof.
  unfold deductItem_step, getItemById, item_of.
  rewrite !bind_eq. unfold get. cbv iota beta.
  destruct (single _); reflexivity.
Qed.

Lemma deductItem_cons now employeeId employeeName item items s :
  deductItem now employeeId employeeName (item :: items) s
  = match deductItem_step now employeeId employeeName item s with
    | (s', Ok _) => deductItem now employeeId employeeName items s'
    | (s', Throw e) => (s', Throw e)
    end.
Proof. reflexivity. Qed.

(** A turn of the loop leaves no row of the item it handles, and makes no
    row of another item, negative. *)
Lemma deductItem_step_not_negative now employeeId employeeName item s id :
  (id = itemId item \/ forall r, In r (items s) -> Item.id r = id -> not_negative r) ->
  forall s' x,
    deductItem_step now employeeId employeeName item s = (s', Ok x) ->
    forall r, In r (items s') -> Item.id r = id -> not_negative r.
Proof.
  intros K s' x. rewrite deductItem_step_run.
  destruct (item_of (itemId item) s) as [data|]; [|discriminate].
  intros E. inversion E; subst; clear E. simpl. intros r I ID.
  unfold update in I. apply in_map_iff in I as [r0 [E I]].
  unfold eq_text in E. destruct (String.eqb_spec (Item.id r0) (itemId item)) as [M|M].
  - subst r. apply max_zero_not_negative.
  - subst r. destruct K as [K|K]; [congruence|]. now apply K.
Qed.

Lemma deductItem_keeps_not_negative now employeeId employeeName items id :
  forall s s' x,
    deductItem now employeeId employeeName items s = (s', Ok x) ->
    (In id (map itemId items)
     \/ forall r, In r (Db.items s) -> Item.id r = id -> not_negative r) ->
    forall r, In r (Db.items s') -> Item.id r = id -> not_negative r.
Proof.
  induction items as [|item items IH]; intros s s' x E K.
  - inversion E; subst. destruct K as [[]|K]. exact K.
  - rewrite deductItem_cons in E.
    destruct (deductItem_step now employeeId employeeName item s) as [s1 [u|e]] eqn:S;
      [|discriminate].
    apply (IH s1 s' x E).
    destruct (in_dec string_dec id (map itemId items)) as [I|I]; [now left|right].
    apply (deductItem_step_not_negative now employeeId employeeName item s (id := id))
      with (x := u); trivial.
    destruct K as [[K|K]|K]; [now left|contradiction|now right].
Qed.

(** The direct deduction flow clamps: after [deductItem] no row of a
    deducted item holds a negative stock. *)
Lemma deductItem_clamps now employeeId employeeName items s s' x :
  deductItem now employeeId employeeName items s = (s', Ok x) ->
  forall item r,
    In item items -> In r (Db.items s') -> Item.id r = itemId item ->
    not_negative r.
Proof.
  intros E item r I. apply (deductItem_keeps_not_negative _ _ _ _ _ E).
  left. now apply in_map.
Qed.

End DeductFacts.

Section DeductionEntryFacts.

Import Db Mobile Ledger.

#[local] Arguments JS.sub : simpl never.
#[local] Arguments JS.max : simpl never.
#[local] Arguments JS.num_or_zero : simpl never.
#[local] Arguments JS.lt : simpl never.

(** C8, as the code has it.  Deducting [q] from an item that holds [S]
    leaves [max (S - q) 0] in stock, which is [S - q] when [q] is at most
    [S], and appends one history row with action [deduct] and [qty] [q];
    the row has neither [stock_before] nor [stock_after]. *)
Theorem deductItem_records_deduction now employeeId employeeName id q S it s :
  item_of id s = Some it ->
  Item.stock it = JS.Int S ->
  let s' := fst (deductItem now employeeId employeeName
                   [mkDeduction id (JS.Int q)] s) in
  (exists it',
      item_of id s' = Some it'
      /\ Item.stock it' = JS.Int (Z.max (S - q) 0)
      /\ ((q <= S)%Z -> Item.stock it' = JS.Int (S - q)))
  /\ history s'
     = (history s ++
          [History.mk (next_history_id s) employeeId employeeName id
             (Item.name it) "deduct" (JS.Int q) None None now])%list.
Proof.
  intros I St. rewrite deductItem_cons, deductItem_step_run. simpl.
  rewrite I, St, sub_Int, max_Int. simpl. split; [|reflexivity].
  unfold item_of in *. simpl. rewrite select_update by reflexivity.
  rewrite (single_map _ _ I). eexists. split; [reflexivity|]. simpl.
  split; [reflexivity|]. intros L. now rewrite Z.max_l by lia.
Qed.

(** The task-items flow does not clamp: deducting more than the shelf
    holds leaves a negative stock, whether or not the task is found
    afterwards. *)
Lemma deductTaskItems_does_not_clamp now taskId employeeId employeeName id q S it s :
  item_of id s = Some it ->
  Item.stock it = JS.Int S ->
  (S < q)%Z ->
  let s' := fst (deductTaskItems now taskId employeeId employeeName
                   [Task.mkRequired id (JS.Int q)] s) in
  exists it',
    item_of id s' = Some it'
    /\ Item.stock it' = JS.Int (S - q)
    /\ JS.lt (Item.stock it') (JS.Int 0) = true.
Proof.
  intros I St L.
  assert (Z0 : JS.num_or_zero (JS.Int S) = JS.Int S).
  { unfold JS.num_or_zero, JS.truthy, JS.is_zero, JS.Int, inject_Z. simpl.
    destruct (Z.eqb_spec S 0) as [->|]; reflexivity. }
  assert (E : exists tasks' r,
             deductTaskItems now taskId employeeId employeeName
               [Task.mkRequired id (JS.Int q)] s
             = (mkStore
                  (update (eq_text Item.id id) (Item.with_stock (JS.Int (S - q)))
                     (items s))
                  (history s ++
                     [History.mk (next_history_id s) employeeId employeeName id
                        (if nonempty (Item.name it) then Item.name it
                         else "Unknown Item")
                        "deduct" (JS.Int q) None None now])
                  tasks' (next_history_id s + 1),
                r)).
  { unfold deductTaskItems, for_of. rewrite !bind_eq. unfold get at 1.
    cbv iota beta. unfold item_of in I. simpl. rewrite I, St, Z0, sub_Int.
    unfold updateItemStock, addHistoryEntry, modify, ret. simpl.
    rewrite !bind_eq. unfold get. cbv iota beta. simpl.
    destruct (single (select (eq_text Task.task_id taskId) (tasks s))) as [t|].
    - eexists _, _. reflexivity.
    - eexists _, _. reflexivity. }
  destruct E as (tasks' & r & ->). simpl. unfold item_of in *. simpl.
  rewrite select_update by reflexivity. rewrite (single_map _ _ I).
  eexists. split; [reflexivity|]. simpl. split; [reflexivity|].
  rewrite lt_Int. apply Z.ltb_lt. lia.
Qed.

End DeductionEntryFacts.

Section DeductExamples.

Import Db Mobile Ledger.

(** C7 at its failing input: with 5 on the shelf, the task-items flow
    deducts 8 and stores -3, where the direct flow stores 0. *)
Theorem deductTaskItems_goes_negative :
  snd (deductTaskItems 1000 "TASK1700000000000" Sample.sari "Sari"
         [Sample.needs_eight] Sample.short)
  = Ok [Sample.sari]
  /\ map Item.stock
       (items (fst (deductTaskItems 1000 "TASK1700000000000" Sample.sari "Sari"
                      [Sample.needs_eight] Sample.short)))
     = [JS.Int (-3)]
  /\ JS.lt (JS.Int (-3)) (JS.Int 0) = true
  /\ map Item.stock
       (items (fst (deductItem 1000 Sample.sari "Sari"
                      [mkDeduction "ITEMAB12CD34" (JS.Int 8)] Sample.short)))
     = [JS.Int 0].
Proof. repeat split. Qed.

Lemma deductItem_records_deduction_witness :
  let s' := fst (deductItem 1000 Sample.sari "Sari" [Sample.takes_12] Sample.full) in
  (exists it',
      item_of "ITEMAB12CD34" s' = Some it'
      /\ Item.stock it' = JS.Int (Z.max (50 - 12) 0)
      /\ ((12 <= 50)%Z -> Item.stock it' = JS.Int (50 - 12)))
  /\ history s'
     = (history Sample.full ++
          [History.mk 1 Sample.sari "Sari" "ITEMAB12CD34" "Gloves" "deduct"
             (JS.Int 12) None None 1000])%list.
Proof.
  apply (deductItem_records_deduction 1000 Sample.sari "Sari" "ITEMAB12CD34"
           12 Sample.full (S := 50%Z) (it := Sample.gloves 50));
    reflexivity.
Defined.

(** C8, as stated, fails: the entry written for 12 out of 50 has no
    [stock_before] and no [stock_after]; and 8 out of 5 leaves 0, not
    -3. *)
Lemma deduct_entry_has_no_snapshot :
  (let s' := fst (deductItem 1000 Sample.sari "Sari" [Sample.takes_12] Sample.full) in
   map Item.stock (items s') = [JS.Int 38]
   /\ map History.qty (history s') = [JS.Int 12]
   /\ map History.stock_before (history s') = [None]
   /\ map History.stock_after (history s') = [None]
   /\ map History.stock_before (history s') <> [Some (JS.Int 50)]
   /\ map History.stock_after (history s') <> [Some (JS.Int 38)])
  /\ (let s' := fst (deductItem 1000 Sample.sari "Sari"
                       [mkDeduction "ITEMAB12CD34" (JS.Int 8)] Sample.short) in
      map Item.stock (items s') = [JS.Int 0]
      /\ map Item.stock (items s') <> [JS.Int (5 - 8)]).
Proof. repeat split; discriminate. Qed.

End DeductExamples.

(** ** Mobile client: marking a task done *)

Section TaskDoneFacts.

Import Db Mobile Ledger.

Lemma deducts_after_iff employeeId t h :
  deducts_after employeeId t h = true
  <-> History.employee_id h = employeeId
      /\ History.action h = "deduct"
      /\ (t < History.timestamp h)%Z.
Proof.
  unfold deducts_after, eq_text.
  now rewrite !andb_true_iff, !String.eqb_eq, Z.ltb_lt, and_assoc.
Qed.

Lemma has_deduct_after_iff employeeId t s :
  existsb (deducts_after employeeId t) (history s) = true
  <-> has_deduct_after employeeId t s.
Proof.
  unfold has_deduct_after. rewrite existsb_exists.
  split; intros [h [I D]]; exists h.
  - now apply deducts_after_iff in D.
  - split; trivial. now apply deducts_after_iff.
Qed.

(** What [canMarkTaskDone] answers; it never writes. *)
Lemma canMarkTaskDone_run taskId employeeId s :
  canMarkTaskDone taskId employeeId s
  = (s, match task_of taskId s with
        | None => Throw PostgrestError
        | Some task =>
            match Task.assigned_at task with
            | None => Throw PostgrestError
            | Some assigned_at =>
                Ok (JS.includes (checked task) employeeId
                    && existsb (deducts_after employeeId assigned_at) (history s))
            end
        end).
Proof.
  unfold canMarkTaskDone, task_of. rewrite bind_eq. unfold get. cbv iota beta.
  destruct (single _) as [task|]; [|reflexivity].
  destruct (Task.assigned_at task); [|reflexivity].
  unfold ret. now rewrite limit_1_not_empty.
Qed.

(** [canMarkTaskDone] answers [true] exactly when the condition holds. *)
Lemma canMarkTaskDone_true taskId employeeId s :
  canMarkTaskDone taskId employeeId s = (s, Ok true)
  <-> may_be_done taskId employeeId s.
Proof.
  rewrite canMarkTaskDone_run. unfold may_be_done. split.
  - destruct (task_of taskId s) as [task|]; [|discriminate].
    destruct (Task.assigned_at task) as [a|] eqn:A; [|discriminate].
    intros E. injection E as E. apply andb_true_iff in E as [C D].
    exists task, a. repeat split; trivial.
    + now apply includes_In.
    + now apply has_deduct_after_iff.
  - intros (task & a & T & C & A & D). rewrite T, A.
    apply includes_In in C. apply has_deduct_after_iff in D.
    now rewrite C, D.
Qed.

Lemma doneTask_run now taskId employeeId s :
  doneTask now taskId employeeId s
  = match snd (canMarkTaskDone taskId employeeId s) with
    | Ok true =>
        (marked now taskId employeeId s,
         Ok (push_absent
               (csvToArray
                  (match task_of taskId s with
                   | Some d => Task.done_by d
                   | None => None
                   end))
               employeeId))
    | Ok false =>
        (s, Throw (Error "Task cannot be marked as done. You must check the task and deduct after it was assigned."))
    | Throw e => (s, Throw e)
    end.
Proof.
  unfold doneTask. rewrite bind_eq, canMarkTaskDone_run. cbv iota beta.
  destruct (task_of taskId s) as [task|] eqn:T; [|reflexivity].
  destruct (Task.assigned_at task); [|reflexivity].
  cbn [snd]. destruct (_ && _); [|reflexivity].
  unfold marked. rewrite T. unfold task_of in T.
  cbn [negb]. rewrite !bind_eq. unfold get. cbv iota beta. now rewrite T.
Qed.

Lemma doneTask_refused now taskId employeeId s :
  ~ may_be_done taskId employeeId s ->
  exists e, doneTask now taskId employeeId s = (s, Throw e).
Proof.
  intros N. rewrite doneTask_run.
  destruct (canMarkTaskDone taskId employeeId s) as [s0 r] eqn:E.
  assert (s0 = s) by (rewrite canMarkTaskDone_run in E; congruence). subst s0.
  simpl. destruct r as [[|]|e]; eauto.
  exfalso. apply N. now apply canMarkTaskDone_true.
Qed.

Lemma doneTask_allowed now taskId employeeId s :
  may_be_done taskId employeeId s ->
  exists task,
    task_of taskId s = Some task
    /\ doneTask now taskId employeeId s
       = (marked now taskId employeeId s,
          Ok (push_absent (done task) employeeId)).
Proof.
  intros G. pose proof G as (task & a & T & _).
  apply canMarkTaskDone_true in G.
  exists task. split; trivial. rewrite doneTask_run, G. simpl. now rewrite T.
Qed.

Lemma doneTask_ok now taskId employeeId s s' doneByList :
  doneTask now taskId employeeId s = (s', Ok doneByList) ->
  may_be_done taskId employeeId s.
Proof.
  intros D. rewrite doneTask_run in D.
  destruct (canMarkTaskDone taskId employeeId s) as [s0 r] eqn:E.
  assert (s0 = s) by (rewrite canMarkTaskDone_run in E; congruence). subst s0.
  simpl in D. destruct r as [[|]|e]; try discriminate.
  now apply canMarkTaskDone_true.
Qed.

Lemma checked_safe employeeId task :
  In employeeId (checked task) -> csv_safe employeeId = true.
Proof.
  intros I. pose proof (csvToArray_safe (Task.checked_by task)) as F.
  rewrite Forall_forall in F. now apply F.
Qed.

(** The [done_by] column after a successful [doneTask], read back. *)
Lemma done_after_push task employeeId now st :
  csv_safe employeeId = true ->
  done (Task.with_done (arrayToCsv (push_absent (done task) employeeId)) now st task)
  = push_absent (done task) employeeId.
Proof.
  intros S. unfold done at 1. simpl. apply csvToArray_arrayToCsv.
  apply push_absent_safe; trivial. apply csvToArray_safe.
Qed.

Lemma task_of_marked now taskId employeeId s task :
  task_of taskId s = Some task ->
  task_of taskId (marked now taskId employeeId s)
  = Some (Task.with_done (arrayToCsv (push_absent (done task) employeeId))
            now "completed" task).
Proof.
  intros T. unfold marked. rewrite T. unfold task_of in *. simpl.
  rewrite select_update by reflexivity. now apply single_map.
Qed.

(** C5.  [doneTask] succeeds, and then leaves the task marked done for
    the employee, exactly when the employee is in the task's [checked_by]
    set and has a [deduct] history row with a timestamp after the task's
    [assigned_at]; otherwise it throws and the store is the one before
    the call. *)
Theorem doneTask_eligibility now taskId employeeId s :
  (may_be_done taskId employeeId s
   <-> exists s' doneByList,
         doneTask now taskId employeeId s = (s', Ok doneByList)
         /\ done_for taskId employeeId now s')
  /\ (~ may_be_done taskId employeeId s ->
      exists e, doneTask now taskId employeeId s = (s, Throw e)).
Proof.
  split; [split|apply doneTask_refused].
  - intros G. destruct (doneTask_allowed now G) as (task & T & D).
    destruct G as (task0 & a & T0 & C & _).
    assert (task0 = task) by congruence. subst task0.
    eexists _, _. split; [exact D|].
    eexists. split; [apply task_of_marked; exact T|].
    rewrite done_after_push by now apply checked_safe with task.
    repeat split. apply push_absent_In.
  - intros (s' & l & D & _). exact (doneTask_ok _ _ _ _ D).
Qed.

End TaskDoneFacts.

Section DoneAgainFacts.

Import Db Mobile Ledger.

Lemma may_be_done_marked now taskId employeeId s :
  may_be_done taskId employeeId s ->
  may_be_done taskId employeeId (marked now taskId employeeId s).
Proof.
  intros (task & a & T & C & A & D).
  eexists _, a. split; [apply task_of_marked; exact T|].
  repeat split; trivial.
Qed.

(** C6, as the code has it.  Invoking [doneTask] again for the same task
    and employee succeeds with the same list and changes nothing in the
    store but [done_at] of the task, which becomes the time of the second
    call; [done_by] and [status] are as the first call left them. *)
Theorem doneTask_again now1 now2 taskId employeeId s s1 doneByList :
  doneTask now1 taskId employeeId s = (s1, Ok doneByList) ->
  doneTask now2 taskId employeeId s1
  = (with_tasks
       (update (eq_text Task.task_id taskId) (Task.with_done_at now2) (tasks s1))
       s1,
     Ok doneByList).
Proof.
  intros D. pose proof (doneTask_ok _ _ _ _ D) as G.
  destruct (doneTask_allowed now1 G) as (task & T & D1).
  rewrite D1 in D. injection D as <- <-.
  pose proof (may_be_done_marked now1 G) as G1.
  destruct (doneTask_allowed now2 G1) as (task1 & T1 & D2).
  rewrite (task_of_marked now1 taskId employeeId s T) in T1. injection T1 as <-.
  assert (S : csv_safe employeeId = true).
  { destruct G as (task0 & a & T0 & C & _). now apply checked_safe with task0. }
  rewrite done_after_push, push_absent_present in D2
    by (trivial; apply push_absent_In).
  rewrite D2. f_equal. unfold marked at 1.
  rewrite (task_of_marked now1 taskId employeeId s T). cbn [Task.done_by Task.with_done].
  change (csvToArray (Some (arrayToCsv (push_absent (done task) employeeId))))
    with (done (Task.with_done (arrayToCsv (push_absent (done task) employeeId))
                  now1 "completed" task)).
  rewrite done_after_push, push_absent_present by (trivial; apply push_absent_In).
  f_equal. unfold marked. rewrite T. cbn [tasks with_tasks].
  fold (done task). rewrite !update_update by reflexivity.
  apply update_ext. reflexivity.
Qed.

End DoneAgainFacts.

Section TaskDoneExamples.

Import Db Mobile Ledger.

Lemma ready_may_be_done :
  may_be_done "TASK1700000000000" Sample.sari Sample.ready.
Proof.
  exists Sample.checked_refill, 500%Z. repeat split.
  - now left.
  - exists Sample.deducted_row. repeat split. now left.
Defined.

Lemma short_may_not_be_done :
  ~ may_be_done "TASK1700000000000" Sample.sari Sample.short.
Proof.
  intros (task & a & T & C & _). injection T as <-. exact C.
Defined.

Lemma doneTask_eligibility_witness :
  (exists s' doneByList,
      doneTask 2000 "TASK1700000000000" Sample.sari Sample.ready
      = (s', Ok doneByList)
      /\ done_for "TASK1700000000000" Sample.sari 2000 s')
  /\ (exists e,
        doneTask 2000 "TASK1700000000000" Sample.sari Sample.short
        = (Sample.short, Throw e)).
Proof.
  split.
  - apply (doneTask_eligibility 2000 "TASK1700000000000" Sample.sari Sample.ready).
    exact ready_may_be_done.
  - apply (doneTask_eligibility 2000 "TASK1700000000000" Sample.sari Sample.short).
    exact short_may_not_be_done.
Defined.

Lemma doneTask_again_witness :
  doneTask 2000 "TASK1700000000000" Sample.sari Sample.ready
  = (Sample.finished 2000, Ok [Sample.sari])
  /\ doneTask 3000 "TASK1700000000000" Sample.sari (Sample.finished 2000)
     = (with_tasks
          (update (eq_text Task.task_id "TASK1700000000000")
             (Task.with_done_at 3000) (tasks (Sample.finished 2000)))
          (Sample.finished 2000),
        Ok [Sample.sari]).
Proof.
  split; [reflexivity|].
  apply (doneTask_again 2000 3000 "TASK1700000000000" Sample.sari Sample.ready).
  reflexivity.
Defined.

(** C6, as stated, fails: Sari is in [done_by] after the call at 2000,
    and the call at 3000 rewrites the stored task, whose [done_at] moves
    from 2000 to 3000. *)
Lemma doneTask_again_moves_done_at :
  doneTask 2000 "TASK1700000000000" Sample.sari Sample.ready
  = (Sample.finished 2000, Ok [Sample.sari])
  /\ map done (tasks (Sample.finished 2000)) = [[Sample.sari]]
  /\ doneTask 3000 "TASK1700000000000" Sample.sari (Sample.finished 2000)
     = (Sample.finished 3000, Ok [Sample.sari])
  /\ map Task.done_at (tasks (Sample.finished 2000)) = [Some 2000%Z]
  /\ map Task.done_at (tasks (Sample.finished 3000)) = [Some 3000%Z]
  /\ tasks (Sample.finished 3000) <> tasks (Sample.finished 2000).
Proof. repeat split. discriminate. Qed.

End TaskDoneExamples.

(** ** Mobile client: the membership sets only grow *)

Section MembershipFacts.

Import Db Mobile Ledger.

Lemma updateTaskCheckStatus_run taskId employeeId s :
  updateTaskCheckStatus taskId employeeId s
  = match task_of taskId s with
    | None => (s, Throw PostgrestError)
    | Some data =>
        (with_tasks
           (update (eq_text Task.task_id taskId)
              (Task.with_checked_by
                 (arrayToCsv (push_absent (checked data) employeeId)))
              (tasks s))
           s,
         Ok tt)
    end.
Proof.
  unfold updateTaskCheckStatus, task_of. rewrite bind_eq. unfold get.
  cbv iota beta. destruct (single _); reflexivity.
Qed.

Lemma later_refl t : later t t.
Proof. unfold later, grown. auto using incl_refl. Qed.

Lemma later_trans t1 t2 t3 : later t1 t2 -> later t2 t3 -> later t1 t3.
Proof.
  unfold later, grown. intros [(I1 & C1 & D1) N1] [(I2 & C2 & D2) N2].
  split; [split; [congruence|split]|auto].
  - exact (incl_tran C1 C2).
  - exact (incl_tran D1 D2).
Qed.

Lemma Forall2_later_refl l : Forall2 later l l.
Proof. induction l; constructor; auto using later_refl. Qed.

Lemma Forall2_later_trans l1 l2 l3 :
  Forall2 later l1 l2 -> Forall2 later l2 l3 -> Forall2 later l1 l3.
Proof.
  intros F. revert l3. induction F as [|a b l1 l2 Hab _ IH]; intros l3 G.
  - inversion G. constructor.
  - inversion G; subst. constructor; eauto using later_trans.
Qed.

(** Appending to [checked_by] what [updateTaskCheckStatus] appends. *)
Lemma check_later employeeId r :
  csv_safe employeeId = true ->
  later r (Task.with_checked_by
             (arrayToCsv (push_absent (checked r) employeeId)) r).
Proof.
  intros S.
  assert (E : checked (Task.with_checked_by
                         (arrayToCsv (push_absent (checked r) employeeId)) r)
              = push_absent (checked r) employeeId).
  { unfold checked at 1. simpl. apply csvToArray_arrayToCsv.
    apply push_absent_safe; trivial. apply csvToArray_safe. }
  unfold later, grown, no_duplicates. rewrite E.
  change (done (Task.with_checked_by _ r)) with (done r).
  split; [split; [reflexivity|split]|].
  - apply push_absent_incl.
  - apply incl_refl.
  - intros [N D]. split; [now apply push_absent_NoDup|exact D].
Qed.

(** Appending to [done_by] what [doneTask] appends. *)
Lemma done_later employeeId now st r :
  csv_safe employeeId = true ->
  later r (Task.with_done
             (arrayToCsv (push_absent (done r) employeeId)) now st r).
Proof.
  intros S. unfold later, grown, no_duplicates.
  rewrite done_after_push by trivial.
  change (checked (Task.with_done _ now st r)) with (checked r).
  split; [split; [reflexivity|split]|].
  - apply incl_refl.
  - apply push_absent_incl.
  - intros [C N]. split; [exact C|now apply push_absent_NoDup].
Qed.

Lemma run_op_later op s :
  op_safe op -> Forall2 later (tasks s) (tasks (run_op op s)).
Proof.
  destruct op as [taskId employeeId|now taskId employeeId]; simpl; intros S.
  - rewrite updateTaskCheckStatus_run.
    destruct (task_of taskId s) as [data|] eqn:T; simpl;
      [|apply Forall2_later_refl].
    apply update_Forall2_in; [apply later_refl|]. intros r I P.
    rewrite <- (single_unique _ _ r T I P). now apply check_later.
  - rewrite doneTask_run.
    destruct (canMarkTaskDone taskId employeeId s) as [s0 r] eqn:E.
    assert (s0 = s) by (rewrite canMarkTaskDone_run in E; congruence). subst s0.
    simpl. destruct r as [[|]|e]; simpl; try apply Forall2_later_refl.
    apply canMarkTaskDone_true in E. destruct E as (task & a & T & C & _).
    rewrite T. apply update_Forall2_in; [apply later_refl|]. intros r I P.
    rewrite <- (single_unique _ _ r T I P). apply done_later.
    now apply checked_safe with task.
Qed.

Lemma run_later ops :
  Forall op_safe ops -> forall s, Forall2 later (tasks s) (tasks (run ops s)).
Proof.
  induction 1 as [|op ops S _ IH]; intros s; simpl.
  - apply Forall2_later_refl.
  - eapply Forall2_later_trans; [apply (run_op_later _ s S)|apply IH].
Qed.

Lemma run_app ops1 ops2 s : run (ops1 ++ ops2) s = run ops2 (run ops1 s).
Proof. unfold run. apply fold_left_app. Qed.

(** A request that goes through leaves its set as [push_absent] makes
    it. *)
Lemma run_op_pushes op s :
  op_safe op ->
  goes_through op s ->
  exists task task',
    task_of (target op) s = Some task
    /\ task_of (target op) (run_op op s) = Some task'
    /\ set_of op task' = push_absent (set_of op task) (who op).
Proof.
  destruct op as [taskId employeeId|now taskId employeeId]; simpl; intros S G.
  - destruct G as [task T]. exists task. rewrite updateTaskCheckStatus_run, T.
    eexists. split; [reflexivity|]. split.
    + unfold task_of in *. simpl. rewrite select_update by reflexivity.
      exact (single_map _ _ T).
    + unfold checked at 1. simpl. apply csvToArray_arrayToCsv.
      apply push_absent_safe; trivial. apply csvToArray_safe.
  - destruct G as [l G].
    assert (M : may_be_done taskId employeeId s).
    { destruct (doneTask now taskId employeeId s) as [s1 r] eqn:D.
      simpl in G. subst r. exact (doneTask_ok _ _ _ _ D). }
    destruct (doneTask_allowed now M) as (task & T & R).
    exists task. rewrite R. eexists. split; [exact T|]. split.
    + apply task_of_marked. exact T.
    + apply done_after_push. destruct M as (t0 & a & _ & C & _).
      now apply checked_safe with t0.
Qed.

Lemma select_later taskId l1 l2 :
  Forall2 later l1 l2 ->
  Forall2 later (select (eq_text Task.task_id taskId) l1)
    (select (eq_text Task.task_id taskId) l2).
Proof.
  induction 1 as [|a b l1 l2 L _ IH]; [constructor|].
  unfold select, eq_text in *. simpl.
  pose proof L as [(I & _) _]. rewrite I.
  destruct (Task.task_id a =? taskId); [constructor|]; trivial.
Qed.

(** The tasks stay, and keep their members, over requests. *)
Lemma task_of_later taskId s1 s2 task :
  Forall2 later (tasks s1) (tasks s2) ->
  task_of taskId s1 = Some task ->
  exists task', task_of taskId s2 = Some task' /\ grown task task'.
Proof.
  intros F T. apply (select_later taskId) in F. unfold task_of in *.
  destruct F as [|a b l1 l2 [G _] F]; [discriminate|].
  destruct F; [|discriminate]. injection T as ->. now exists b.
Qed.

Lemma set_of_grown op t t' : grown t t' -> incl (set_of op t) (set_of op t').
Proof. intros (_ & C & D). now destruct op. Qed.

(** C9.  Over any sequence of check and done requests, made with
    identifiers that a comma-separated column gives back as written (not
    empty, no comma, no white space at either end: the identifiers of
    employees, which [generateRandomId] makes, are such) and starting from
    sets without duplicates: every task keeps the members its [checked_by]
    and [done_by] sets had, and the sets stay free of duplicates.  A
    request that goes through appends the employee's identifier to its set
    only when it is absent, and the identifier is in that set from then
    on. *)
Theorem membership_sets_only_grow ops s :
  Forall op_safe ops ->
  Forall no_duplicates (tasks s) ->
  Forall2 (fun t t' => grown t t' /\ no_duplicates t')
    (tasks s) (tasks (run ops s))
  /\ forall before op after,
       ops = (before ++ op :: after)%list ->
       goes_through op (run before s) ->
       (exists task task',
           task_of (target op) (run before s) = Some task
           /\ task_of (target op) (run (before ++ [op]) s) = Some task'
           /\ set_of op task' = push_absent (set_of op task) (who op))
       /\ exists task'',
            task_of (target op) (run ops s) = Some task''
            /\ In (who op) (set_of op task'').
Proof.
  intros S N. split.
  - pose proof (run_later S s) as L.
    induction L as [|t t' l l' [G K] _ IH]; constructor.
    + inversion N; subst. split; auto.
    + apply IH. now inversion N.
  - intros before op after -> G.
    apply Forall_app in S as [_ S]. inversion S as [|? ? So Sa]; subst.
    destruct (@run_op_pushes op (run before s) So G) as (task & task' & T & T' & E).
    assert (R1 : run (before ++ [op]) s = run_op op (run before s))
      by now rewrite run_app.
    split.
    + exists task, task'. now rewrite R1.
    + replace (before ++ op :: after)%list with ((before ++ [op]) ++ after)%list
        by now rewrite <- app_assoc.
      rewrite run_app, R1.
      destruct (@task_of_later (target op) (run_op op (run before s))
                  (run after (run_op op (run before s))) task'
                  (run_later Sa (run_op op (run before s))) T')
        as (task'' & T'' & Gr).
      exists task''. split; [exact T''|].
      apply (@set_of_grown op task' task'' Gr). rewrite E. apply push_absent_In.
Qed.

End MembershipFacts.

Section MembershipExamples.

Import Db Mobile Ledger.

Lemma sari_is_generated : WebAdmin.generated_id Sample.sari = true.
Proof. reflexivity. Qed.

Lemma eager_run : run Sample.eager Sample.assigned = Sample.finished 3000.
Proof. reflexivity. Qed.

(** Sari checks the refill task twice and marks it done twice: she is
    once in each set. *)
Lemma membership_sets_only_grow_witness :
  Forall2 (fun t t' => grown t t' /\ no_duplicates t')
    (tasks Sample.assigned) (tasks (run Sample.eager Sample.assigned))
  /\ (exists task,
        task_of "TASK1700000000000" (run Sample.eager Sample.assigned) = Some task
        /\ In Sample.sari (checked task))
  /\ (exists task,
        task_of "TASK1700000000000" (run Sample.eager Sample.assigned) = Some task
        /\ In Sample.sari (done task)).
Proof.
  destruct (@membership_sets_only_grow Sample.eager Sample.assigned) as [F K].
  - repeat constructor.
  - repeat constructor.
  - split; [exact F|]. split.
    + destruct (K [] (Check "TASK1700000000000" Sample.sari)
                  [Check "TASK1700000000000" Sample.sari;
                   Done 2000 "TASK1700000000000" Sample.sari;
                   Done 3000 "TASK1700000000000" Sample.sari] eq_refl)
        as [_ M]; [eexists; reflexivity|exact M].
    + destruct (K [Check "TASK1700000000000" Sample.sari;
                   Check "TASK1700000000000" Sample.sari]
                  (Done 2000 "TASK1700000000000" Sample.sari)
                  [Done 3000 "TASK1700000000000" Sample.sari] eq_refl)
        as [_ M]; [eexists; reflexivity|exact M].
Defined.

(** The condition on the identifiers is needed.  No employee has the
    identifier [" e1"]; were it handed to [updateTaskCheckStatus], it would
    be stored with its space and read back trimmed, so that a second check
    would not find it and would append it again. *)
Lemma padded_id_is_stored_twice :
  let s' := run [Check "TASK1700000000000" " e1";
                 Check "TASK1700000000000" " e1"] Sample.assigned in
  Forall no_duplicates (tasks Sample.assigned)
  /\ map Task.checked_by (tasks s') = [Some "e1, e1"]
  /\ map checked (tasks s') = [["e1"; "e1"]]
  /\ ~ Forall no_duplicates (tasks s').
Proof.
  split; [repeat constructor|]. split; [reflexivity|]. split; [reflexivity|].
  intros F. inversion F as [|t l [N _] _]; subst.
  inversion N as [|x l' NI _]; subst. apply NI. now left.
Qed.

End MembershipExamples.

(** ** Web admin: generated identifiers *)

Section IdFacts.

Import WebAdminApi.

Lemma list_ascii_of_string_app a b :
  list_ascii_of_string (a ++ b) = (list_ascii_of_string a ++ list_ascii_of_string b)%list.
Proof. induction a as [|c a IH]; simpl; [reflexivity|now rewrite IH]. Qed.

Lemma length_string_app a b :
  String.length (a ++ b) = (String.length a + String.length b)%nat.
Proof. induction a as [|c a IH]; simpl; [reflexivity|now rewrite IH]. Qed.

Lemma charAt_chars j :
  (j < 36)%nat ->
  exists c, charAt WebAdmin.chars j = String c ""
            /\ JS.contains c WebAdmin.chars = true.
Proof.
  intros L.
  do 36 (destruct j as [|j]; [eexists; split; reflexivity|]).
  exfalso. lia.
Qed.

(** The loop of [generateRandomId], from any turn on. *)
Lemma generateRandomId_loop (draw : nat -> nat) turns :
  (forall i, In i turns -> (draw i < 36)%nat) ->
  forall id,
    forallb (fun c => JS.contains c WebAdmin.chars) (list_ascii_of_string id) = true ->
    let id' := fold_left (fun id i => id ++ charAt WebAdmin.chars (draw i)) turns id in
    String.length id' = (String.length id + length turns)%nat
    /\ forallb (fun c => JS.contains c WebAdmin.chars) (list_ascii_of_string id') = true.
Proof.
  induction turns as [|i turns IH]; intros D id A; simpl.
  - split; [lia|exact A].
  - destruct (charAt_chars (D i (or_introl eq_refl))) as (c & E & C).
    rewrite E.
    destruct (IH (fun j I => D j (or_intror I)) (id ++ String c "")) as [L F].
    + rewrite list_ascii_of_string_app, forallb_app, A.
      cbn [list_ascii_of_string forallb andb]. now rewrite C.
    + split; [|exact F]. rewrite L, length_string_app. simpl. lia.
Qed.

(** [generateRandomId] returns 16 characters of its alphabet, so an
    identifier that a membership column gives back as written. *)
Theorem generateRandomId_format (draw : nat -> nat) :
  (forall i, (i < 16)%nat -> (draw i < 36)%nat) ->
  WebAdmin.generated_id (generateRandomId draw) = true
  /\ Mobile.csv_safe (generateRandomId draw) = true.
Proof.
  intros D.
  assert (G : WebAdmin.generated_id (generateRandomId draw) = true).
  { destruct (generateRandomId_loop draw (seq 0 16)) with (id := "") as [L F].
    - intros i I. apply D. apply in_seq in I. lia.
    - reflexivity.
    - unfold WebAdmin.generated_id, generateRandomId.
      rewrite L, F. reflexivity. }
  split; [exact G|now apply generated_id_safe].
Qed.

Lemma generateRandomId_format_witness :
  WebAdmin.generated_id (generateRandomId (fun i => i)) = true
  /\ Mobile.csv_safe (generateRandomId (fun i => i)) = true.
Proof.
  apply (generateRandomId_format (fun i => i)). intros i L. lia.
Defined.

End IdFacts.

(** ** Web admin: what inserts, patches and deletions leave behind *)

Section WebApiFacts.
Context `{JS.NumericStrings}.

Import Db WebAdmin WebAdminApi Ledger.

Lemma str_or_not_empty a b : b <> "" -> str_or a b <> "".
Proof.
  intros B. destruct a as [x|]; simpl; trivial.
  destruct (x =? "") eqn:E; trivial. now apply String.eqb_neq.
Qed.

Lemma str_truthy_not_empty a : str_truthy a = true -> str_or a "" <> "".
Proof.
  destruct a as [x|]; simpl; [|discriminate].
  destruct (x =? "") eqn:E; simpl; [discriminate|]. intros _.
  now apply String.eqb_neq.
Qed.

(** A row inserted by [addHistory] names its employee, its item and its
    action: none of these columns is empty, whatever the payload and the
    stored session hold.  The row gets the next [id] and the time of the
    call, and neither [items] nor [tasks] is written. *)
Theorem addHistory_row_is_complete session now payload s s' row :
  addHistory session now payload s = (s', Ok row) ->
  History.id row = next_history_id s
  /\ History.timestamp row = now
  /\ History.employee_id row <> ""
  /\ History.employee_name row <> ""
  /\ History.item_id row <> ""
  /\ History.item_name row <> ""
  /\ History.action row <> ""
  /\ items s' = items s
  /\ tasks s' = tasks s.
Proof.
  intros E. destruct (addHistory_inserted _ _ _ _ E) as (A & _ & S' & _).
  pose proof (str_truthy_not_empty _ A) as NA.
  revert E. unfold addHistory.
  destruct (negb (str_truthy (hi_item_id payload))) eqn:I; simpl; [discriminate|].
  apply negb_false_iff in I.
  destruct (_ || _); simpl; [discriminate|].
  unfold bind, get, modify, ret. simpl. intros E. inversion E; subst; clear E.
  simpl. repeat split.
  - apply str_or_not_empty. discriminate.
  - apply str_or_not_empty. discriminate.
  - now apply str_truthy_not_empty.
  - apply str_or_not_empty. discriminate.
  - destruct (str_or (hi_action payload) "" =? "deduct"); simpl; trivial.
    destruct (JS.gt _ _); [discriminate|].
    destruct (JS.lt _ _); [discriminate|trivial].
Qed.

Lemma with_history_same s : with_history (history s) s = s.
Proof. now destruct s. Qed.

Lemma update_none {R} (p : R -> bool) patch rows :
  (forall r, In r rows -> p r = false) -> update p patch rows = rows.
Proof.
  intros N. unfold update. induction rows as [|r rows IH]; simpl; trivial.
  rewrite (N r) by now left. f_equal. apply IH. intros r' I. apply N. now right.
Qed.

Lemma updateHistory_ok h s s' :
  updateHistory h s = (s', Ok tt) ->
  JS.isInteger (JS.ToNumber (hu_qty h)) = true
  /\ action_empty (hu_action h) = false.
Proof.
  intros E.
  destruct (JS.isInteger (JS.ToNumber (hu_qty h))) eqn:Q.
  - destruct (action_empty (hu_action h)) eqn:A; [|tauto].
    rewrite (updateHistory_action_empty _ _ Q A) in E. discriminate.
  - rewrite (updateHistory_invalid_qty _ _ Q) in E. discriminate.
Qed.

(** Sending the same patch again changes nothing: [updateHistory] after a
    successful [updateHistory] with the same argument succeeds and leaves
    the store as the first call left it. *)
Theorem updateHistory_twice h s s1 :
  updateHistory h s = (s1, Ok tt) ->
  updateHistory h s1 = (s1, Ok tt).
Proof.
  intros E. destruct (updateHistory_ok _ _ E) as [Q A].
  destruct (updateHistory_patches h s Q A) as (a & Ea & U).
  rewrite U in E. injection E as E. subst s1.
  match goal with |- updateHistory h ?s1 = _ =>
    destruct (updateHistory_patches h s1 Q A) as (a' & Ea' & U') end.
  assert (a' = a) by congruence. subst a'. rewrite U'.
  f_equal. unfold with_history. simpl. f_equal.
  rewrite update_update by (intros r; unfold eq_int; now destruct (hu_stock_after h)).
  apply update_ext. intros r. now destruct (hu_stock_after h).
Qed.

(** A patch for an [id] that no row has is not reported: [updateHistory]
    succeeds and the store is unchanged. *)
Theorem updateHistory_unknown_id h s :
  (forall r, In r (history s) -> History.id r <> hu_id h) ->
  JS.isInteger (JS.ToNumber (hu_qty h)) = true ->
  action_empty (hu_action h) = false ->
  updateHistory h s = (s, Ok tt).
Proof.
  intros N Q A. destruct (updateHistory_patches h s Q A) as (a & _ & ->).
  rewrite update_none, with_history_same; trivial.
  intros r I. unfold eq_int. apply Z.eqb_neq. now apply N.
Qed.

(** [updateItem] writes nothing but [items]; there it keeps every [id] and
    every row with another [id], and when no row carries the [id] it
    throws and changes nothing at all. *)
Theorem updateItem_frame now u s :
  let s' := fst (updateItem now u s) in
  history s' = history s
  /\ tasks s' = tasks s
  /\ Forall2 (fun r r' => Item.id r' = Item.id r /\ (Item.id r <> iu_id u -> r' = r))
       (items s) (items s')
  /\ (item_of (iu_id u) s = None -> updateItem now u s = (s, Throw PostgrestError)).
Proof.
  unfold updateItem, item_of. rewrite bind_eq. unfold get. cbv iota beta.
  destruct (single _) as [r0|]; simpl.
  - repeat split; try discriminate.
    apply update_Forall2_in; [tauto|]. intros r _ P. split; [reflexivity|].
    intros N. apply String.eqb_eq in P. contradiction.
  - repeat split. induction (items s); constructor; tauto.
Qed.

End WebApiFacts.

Section WebApiExamples.

Import Db WebAdmin WebAdminApi Ledger.

#[local] Existing Instance JS.integer_literals.

Lemma addHistory_row_is_complete_witness :
  History.id Sample.restock_row = next_history_id Sample.empty
  /\ History.timestamp Sample.restock_row = 0%Z
  /\ History.employee_id Sample.restock_row <> ""
  /\ History.employee_name Sample.restock_row <> ""
  /\ History.item_id Sample.restock_row <> ""
  /\ History.item_name Sample.restock_row <> ""
  /\ History.action Sample.restock_row <> ""
  /\ items Sample.restocked = items Sample.empty
  /\ tasks Sample.restocked = tasks Sample.empty.
Proof.
  apply (addHistory_row_is_complete (H := JS.integer_literals)
           None 0 Sample.restock Sample.empty (s' := Sample.restocked)).
  reflexivity.
Defined.

Lemma updateHistory_twice_witness :
  updateHistory Cases.patch_min Sample.restocked = (Cases.corrected, Ok tt)
  /\ updateHistory Cases.patch_min Cases.corrected = (Cases.corrected, Ok tt).
Proof.
  split; [reflexivity|].
  apply (updateHistory_twice (H := JS.integer_literals)
           Cases.patch_min Sample.restocked).
  reflexivity.
Defined.

Lemma updateHistory_unknown_id_witness :
  updateHistory Cases.patch_nobody Sample.restocked = (Sample.restocked, Ok tt).
Proof.
  apply (updateHistory_unknown_id (H := JS.integer_literals)).
  - intros r [<-|[]]. discriminate.
  - reflexivity.
  - reflexivity.
Defined.

End WebApiExamples.

Section DeletionFacts.

Import Db Mobile WebAdminApi Ledger.

#[local] Arguments JS.sub : simpl never.
#[local] Arguments JS.max : simpl never.

Lemma delete_none {R} (p : R -> bool) rows :
  (forall r, In r rows -> p r = false) -> delete p rows = rows.
Proof.
  intros N. unfold delete. induction rows as [|r rows IH]; simpl; trivial.
  rewrite (N r) by now left. simpl. f_equal. apply IH. intros r' I. apply N. now right.
Qed.

(** Deleting the history entry of a deduction does not give the stock
    back: after [deductItem] and [deleteHistory] of the entry it wrote, the
    ledger is as before the deduction and the item still holds the lowered
    stock. *)
Theorem deleteHistory_keeps_stock now employeeId employeeName id q S it s :
  item_of id s = Some it ->
  Item.stock it = JS.Int S ->
  (forall r, In r (history s) -> History.id r <> next_history_id s) ->
  let s1 := fst (deductItem now employeeId employeeName [mkDeduction id (JS.Int q)] s) in
  let s2 := fst (deleteHistory (next_history_id s) s1) in
  history s2 = history s
  /\ items s2 = items s1
  /\ exists it', item_of id s2 = Some it' /\ Item.stock it' = JS.Int (Z.max (S - q) 0).
Proof.
  intros I St F. rewrite deductItem_cons, deductItem_step_run. simpl.
  rewrite I, St, sub_Int, max_Int. simpl. split; [|split; [reflexivity|]].
  - unfold delete. rewrite filter_app. simpl. unfold eq_int at 2. simpl.
    rewrite Z.eqb_refl. simpl. rewrite app_nil_r. apply delete_none.
    intros r Ir. unfold eq_int. apply Z.eqb_neq. now apply F.
  - unfold item_of in *. simpl. rewrite select_update by reflexivity.
    rewrite (single_map _ _ I). eexists. split; reflexivity.
Qed.

(** The web admin and the mobile client read the same members from a
    membership column, and the counts the web admin shows are the sizes of
    those sets. *)
Theorem web_and_mobile_read_the_same_members task :
  read_by_list (getTasks_lists task) = csvToArray (Task.read_by task)
  /\ checked_by_list (getTasks_lists task) = checked task
  /\ read_by_count (getTasks_lists task) = length (csvToArray (Task.read_by task))
  /\ checked_by_count (getTasks_lists task) = length (checked task).
Proof.
  assert (E : forall v, split_list v = csvToArray v).
  { intros [s|]; simpl; trivial. destruct s; reflexivity. }
  unfold getTasks_lists, checked. simpl. rewrite !E. tauto.
Qed.

End DeletionFacts.

Section DeletionExamples.

Import Db Mobile WebAdminApi Ledger.

Lemma deleteHistory_keeps_stock_witness :
  let s1 := fst (deductItem 1000 Sample.sari "Sari" [Sample.takes_12] Sample.full) in
  let s2 := fst (deleteHistory (next_history_id Sample.full) s1) in
  history s2 = history Sample.full
  /\ items s2 = items s1
  /\ exists it',
       item_of "ITEMAB12CD34" s2 = Some it'
       /\ Item.stock it' = JS.Int (Z.max (50 - 12) 0).
Proof.
  apply (deleteHistory_keeps_stock 1000 Sample.sari "Sari" "ITEMAB12CD34" 12
           Sample.full (S := 50%Z) (it := Sample.gloves 50)).
  - reflexivity.
  - reflexivity.
  - intros r [].
Defined.

End DeletionExamples.

(** ** Web admin: the former history page *)

Section OldPageFacts.
Context `{JS.NumericStrings}.

Import Db WebAdmin HistoryPageOld Ledger.

Lemma old_handleEditSubmit_run ed pg s v :
  JS.ToNumber (qty (editForm ed)) = JS.Int v ->
  action_empty (Some (action (editForm ed))) = false ->
  handleEditSubmit ed pg s
  = (with_history
       (update (eq_int History.id (History.id (editEntry ed)))
          (fun r => History.with_stock_after (JS.Int v)
                      (History.with_action (JS.trim (action (editForm ed))) r))
          (history s)) s,
     Ok (mkPage false NoMessage)).
Proof.
  intros Q A. unfold handleEditSubmit. rewrite Q.
  set (h := mkHistoryUpdate _ _ _ _).
  assert (Eh : JS.isInteger (JS.ToNumber (hu_qty h)) = true) by apply isInteger_Int.
  destruct (updateHistory_patches h s Eh A) as (a & Ea & U).
  injection Ea as <-. simpl in U.
  rewrite try_catch_eq, bind_eq, U. reflexivity.
Qed.

(** On the former page, opening an entry and saving it untouched changes
    nothing, provided the entry holds an integer [stock_after] and an
    action without surrounding white space, and is the only row with its
    [id]. *)
Theorem old_page_save_untouched entry pg pg' s v :
  (forall r, In r (history s) -> History.id r = History.id entry -> r = entry) ->
  History.stock_after entry = Some (JS.Int v) ->
  JS.trim (History.action entry) = History.action entry ->
  History.action entry <> "" ->
  handleEditSubmit (fst (handleEdit entry pg)) pg' s
  = (s, Ok (mkPage false NoMessage)).
Proof.
  intros U Sa T N.
  rewrite (old_handleEditSubmit_run _ _ _ (v := v)).
  - f_equal. simpl.
    assert (K : update (eq_int History.id (History.id entry))
                  (fun r => History.with_stock_after (JS.Int v)
                              (History.with_action (JS.trim (History.action entry)) r))
                  (history s) = history s).
    { rewrite <- (map_id (history s)) at 2. unfold update. apply map_ext_in.
      intros r I. unfold eq_int.
      destruct (Z.eqb_spec (History.id r) (History.id entry)) as [E|E]; trivial.
      rewrite (U r I E), T. destruct entry. simpl in *. now subst. }
    rewrite K. apply with_history_same.
  - simpl. now rewrite Sa.
  - simpl. rewrite T. now apply String.eqb_neq.
Qed.

(** On the former page, saving an entry that has no [stock_after], as the
    entries written by the mobile client, stores 0 for it; no item is
    written. *)
Theorem old_page_save_fills_stock_after entry pg pg' s :
  History.stock_after entry = None ->
  action_empty (Some (History.action entry)) = false ->
  let s' := fst (handleEditSubmit (fst (handleEdit entry pg)) pg' s) in
  items s' = items s
  /\ Forall2 (fun r r' =>
                kept r r'
                /\ (History.id r = History.id entry ->
                    History.stock_after r' = Some (JS.Int 0)))
       (history s) (history s').
Proof.
  intros Sa A.
  rewrite (old_handleEditSubmit_run _ _ _ (v := 0%Z)).
  - simpl. split; [reflexivity|].
    unfold update. induction (history s) as [|r rows IH]; simpl; constructor; trivial.
    unfold eq_int. destruct (Z.eqb_spec (History.id r) (History.id entry)) as [E|E].
    + split; [|reflexivity].
      eapply kept_trans; [apply kept_with_action|apply kept_with_stock_after].
    + split; [apply kept_refl|contradiction].
  - simpl. now rewrite Sa.
  - exact A.
Qed.

End OldPageFacts.

Section OldPageExamples.

Import Db WebAdmin HistoryPageOld Ledger.

#[local] Existing Instance JS.integer_literals.

Lemma old_page_save_untouched_witness :
  handleEditSubmit (fst (handleEdit Sample.restock_row Cases.old_page))
    Cases.old_page Sample.restocked
  = (Sample.restocked, Ok (mkPage false NoMessage)).
Proof.
  apply (old_page_save_untouched (H := JS.integer_literals)) with (v := 15%Z).
  - intros r [<-|[]] _. reflexivity.
  - reflexivity.
  - reflexivity.
  - discriminate.
Defined.

Lemma old_page_save_fills_stock_after_witness :
  let s' := fst (handleEditSubmit (fst (handleEdit Sample.deducted_row Cases.old_page))
                   Cases.old_page Sample.after_deduct) in
  items s' = items Sample.after_deduct
  /\ Forall2 (fun r r' =>
                kept r r'
                /\ (History.id r = History.id Sample.deducted_row ->
                    History.stock_after r' = Some (JS.Int 0)))
       (history Sample.after_deduct) (history s').
Proof.
  apply (old_page_save_fills_stock_after (H := JS.integer_literals)); reflexivity.
Defined.

End OldPageExamples.

(** ** Web admin: more on editing an entry *)

Section EditMoreFacts.
Context `{JS.NumericStrings}.

Import Db WebAdmin HistoryPage Ledger Rounds.

#[local] Arguments JS.sub : simpl never.
#[local] Arguments JS.add : simpl never.
#[local] Arguments JS.max : simpl never.
#[local] Arguments JS.lt : simpl never.

(** Saving the edit of an entry that is not a deduct entry always fails:
    no [qty] is passed on, so [updateHistory] answers [INVALID_QTY]; so
    does saving a deduct entry with a quantity that is not an integer.  In
    both cases nothing is written and the modal stays as it was. *)
Theorem handleEditSubmit_rejects now ed pg s :
  History.action (editEntry ed) <> "deduct"
  \/ JS.isInteger (JS.ToNumber (qty (editForm ed))) = false ->
  handleEditSubmit now ed pg s
  = (s, Ok (mkPage (showEditModal pg)
              (FailedToUpdateHistoryEntry (Error "INVALID_QTY")))).
Proof.
  intros C. unfold handleEditSubmit.
  destruct (History.action (editEntry ed) =? "deduct") eqn:D.
  - destruct C as [C|C]; [apply String.eqb_eq in D; contradiction|].
    rewrite try_catch_eq, !bind_eq.
    rewrite updateHistory_invalid_qty by exact C. reflexivity.
  - rewrite try_catch_eq, !bind_eq.
    rewrite updateHistory_invalid_qty by reflexivity. reflexivity.
Qed.

(** Nothing keeps an edit from driving the stock below zero: raising the
    quantity of a deduct entry by more than the shelf holds leaves a
    negative stock. *)
Theorem deduct_edit_can_go_negative now ed pg s oldQty newQty currentStock it :
  History.action (editEntry ed) = "deduct" ->
  History.qty (editEntry ed) = JS.Int oldQty ->
  JS.ToNumber (qty (editForm ed)) = JS.Int newQty ->
  action_empty (Some (action (editForm ed))) = false ->
  currentItemStock ed = JS.Int currentStock ->
  item_of (History.item_id (editEntry ed)) s = Some it ->
  (currentStock + oldQty < newQty)%Z ->
  exists it',
    item_of (History.item_id (editEntry ed)) (fst (handleEditSubmit now ed pg s))
    = Some it'
    /\ JS.lt (Item.stock it') (JS.Int 0) = true.
Proof.
  intros A Q N E C I L.
  rewrite (handleEditSubmit_deduct now ed pg s A Q N E C I). simpl.
  unfold item_of in *. simpl. rewrite select_update by reflexivity.
  rewrite (single_map _ _ I). eexists. split; [reflexivity|]. simpl.
  rewrite lt_Int. apply Z.ltb_lt. lia.
Qed.

(** When the owning item is gone, saving the edit of a deduct entry still
    patches the entry; the stock of no item changes, the modal closes and
    the page is left without a message. *)
Theorem deduct_edit_without_item now ed pg s newQty :
  History.action (editEntry ed) = "deduct" ->
  JS.ToNumber (qty (editForm ed)) = JS.Int newQty ->
  action_empty (Some (action (editForm ed))) = false ->
  item_of (History.item_id (editEntry ed)) s = None ->
  handleEditSubmit now ed pg s
  = (with_history
       (update (eq_int History.id (History.id (editEntry ed)))
          (History.with_action (JS.trim (action (editForm ed)))) (Db.history s)) s,
     Ok (mkPage false NoMessage)).
Proof.
  intros A N E I. unfold handleEditSubmit.
  rewrite A, N, String.eqb_refl.
  set (h := mkHistoryUpdate _ _ _ _).
  assert (Eh : JS.isInteger (JS.ToNumber (hu_qty h)) = true) by apply isInteger_Int.
  destruct (updateHistory_patches h s Eh E) as (a & Ea & U).
  injection Ea as <-. simpl in U.
  rewrite try_catch_eq, !bind_eq, U. cbv iota beta.
  rewrite try_catch_eq, bind_eq.
  unfold updateItem. rewrite bind_eq. unfold get. cbv iota beta.
  unfold item_of in I. simpl. rewrite I. reflexivity.
Qed.

(** After a change of the quantity field the form never reads as a
    negative number: a negative input is replaced by ["0"]. *)
Theorem handleEditFormChange_not_negative value ed :
  JS.StringToNumber "0" = JS.Int 0 ->
  JS.lt (JS.ToNumber (qty (editForm (handleEditFormChange FieldQty value ed))))
    (JS.Int 0) = false.
Proof.
  intros Z0. unfold handleEditFormChange.
  destruct (JS.lt (JS.ToNumber (JS.Str value)) (JS.Int 0)) eqn:L; simpl.
  - rewrite Z0. rewrite lt_Int. reflexivity.
  - exact L.
Qed.

End EditMoreFacts.

Section EditRoundFacts.
Context `{JS.NumericStrings}.

Import Db WebAdmin HistoryPage Ledger Rounds.

#[local] Arguments JS.sub : simpl never.
#[local] Arguments JS.add : simpl never.
#[local] Arguments JS.max : simpl never.
#[local] Arguments JS.lt : simpl never.

(** One round on a deduct entry whose item exists. *)
Lemma edit_round_deduct now entry typed pg s oldQty newQty S it :
  History.action entry = "deduct" ->
  History.qty entry = JS.Int oldQty ->
  JS.StringToNumber typed = JS.Int newQty ->
  (0 <= newQty)%Z ->
  item_of (History.item_id entry) s = Some it ->
  Item.stock it = JS.Int S ->
  edit_round now entry typed pg s
  = (mkStore
       (update (eq_text Item.id (History.item_id entry))
          (apply_item_update now
             (mkItemUpdate (History.item_id entry) None None
                (Some (JS.Int (S + (oldQty - newQty))))))
          (items s))
       (update (eq_int History.id (History.id entry))
          (History.with_action "deduct") (Db.history s))
       (tasks s) (next_history_id s),
     Ok (mkPage false NoMessage)).
Proof.
  intros A Q N P I St. unfold edit_round.
  rewrite bind_eq, (handleEdit_deduct entry s A I). cbv iota beta.
  assert (F : handleEditFormChange FieldQty typed
                (mkEditing entry (mkForm (JS.Number (History.qty entry)) "deduct")
                   (Item.stock it))
              = mkEditing entry (mkForm (JS.Str typed) "deduct") (Item.stock it)).
  { unfold handleEditFormChange. simpl. rewrite N, lt_Int.
    destruct (Z.ltb_spec newQty 0); [lia|reflexivity]. }
  rewrite F.
  rewrite (handleEditSubmit_deduct now _ pg s (oldQty := oldQty) (newQty := newQty)
             (currentStock := S) (it := it)); trivial.
Qed.

(** The stored quantity being left as it was, repeating an edit repeats
    its effect: two rounds from [oldQty] to [newQty] move the stock by
    twice the difference, and the ledger still shows [oldQty]. *)
Theorem edit_round_repeats now1 now2 entry typed pg1 pg2 s oldQty newQty S it :
  History.action entry = "deduct" ->
  History.qty entry = JS.Int oldQty ->
  JS.StringToNumber typed = JS.Int newQty ->
  (0 <= newQty)%Z ->
  item_of (History.item_id entry) s = Some it ->
  Item.stock it = JS.Int S ->
  let s1 := fst (edit_round now1 entry typed pg1 s) in
  let s2 := fst (edit_round now2 entry typed pg2 s1) in
  (exists it1,
      item_of (History.item_id entry) s1 = Some it1
      /\ Item.stock it1 = JS.Int (S + (oldQty - newQty)))
  /\ (exists it2,
         item_of (History.item_id entry) s2 = Some it2
         /\ Item.stock it2 = JS.Int (S + 2 * (oldQty - newQty)))
  /\ Forall2 kept (Db.history s) (Db.history s1)
  /\ Forall2 kept (Db.history s1) (Db.history s2).
Proof.
  intros A Q N P I St.
  rewrite (@edit_round_deduct now1 entry typed pg1 s oldQty newQty S it A Q N P I St).
  simpl.
  set (it1 := apply_item_update now1
                (mkItemUpdate (History.item_id entry) None None
                   (Some (JS.Int (S + (oldQty - newQty))))) it).
  assert (I1 : item_of (History.item_id entry)
                 (mkStore
                    (update (eq_text Item.id (History.item_id entry))
                       (apply_item_update now1
                          (mkItemUpdate (History.item_id entry) None None
                             (Some (JS.Int (S + (oldQty - newQty))))))
                       (items s))
                    (update (eq_int History.id (History.id entry))
                       (History.with_action "deduct") (Db.history s))
                    (tasks s) (next_history_id s)) = Some it1).
  { unfold item_of in *. simpl. rewrite select_update by reflexivity.
    now apply single_map. }
  rewrite (@edit_round_deduct now2 entry typed pg2 _ oldQty newQty _ it1 A Q N P I1 eq_refl).
  simpl.
  split; [exists it1; split; [exact I1|reflexivity]|]. split.
  - unfold item_of in *. simpl in *. rewrite select_update by reflexivity.
    rewrite (single_map _ _ I1). eexists. split; [reflexivity|]. simpl.
    assert (Eq : (S + (oldQty - newQty) + (oldQty - newQty)
                  = S + 2 * (oldQty - newQty))%Z) by lia.
    now rewrite Eq.
  - split; apply update_Forall2; auto using kept_refl, kept_with_action.
Qed.

Lemma addHistory_action session now payload s s' row b a :
  addHistory session now payload s = (s', Ok row) ->
  hi_action payload <> Some "deduct" ->
  History.stock_before row = Some (JS.Int b) ->
  History.stock_after row = Some (JS.Int a) ->
  History.action row <> "deduct"
  /\ ((b < a)%Z -> History.action row = "add")
  /\ ((a < b)%Z -> History.action row = "min").
Proof.
  intros E D B A.
  destruct (addHistory_inserted _ _ _ _ E) as (T & _ & _ & B' & A').
  rewrite B in B'. rewrite A in A'. injection B' as B'. injection A' as A'.
  apply str_truthy_or in T.
  revert E. unfold addHistory.
  destruct (_ || _ || _); simpl; [discriminate|].
  unfold bind, get, modify, ret. simpl. intros E. inversion E; subst; clear E.
  simpl. rewrite <- B', <- A'. unfold JS.gt. rewrite !lt_Int.
  assert (N : (str_or (hi_action payload) "" =? "deduct") = false).
  { apply String.eqb_neq. intros Q. apply D. now rewrite T, Q. }
  rewrite N. simpl.
  destruct (Z.ltb_spec b a); [repeat split; try discriminate; lia|].
  destruct (Z.ltb_spec a b); [repeat split; try discriminate; lia|].
  repeat split; try lia. now apply String.eqb_neq.
Qed.

(** For an entry that [addHistory] inserted with integer stocks and an
    action other than deduct, the modal opens on the size of the change,
    [|stock_after - stock_before|], whichever action was recorded. *)
Theorem handleEdit_shows_the_difference session now payload s s' row b a s2 :
  addHistory session now payload s = (s', Ok row) ->
  hi_action payload <> Some "deduct" ->
  History.stock_before row = Some (JS.Int b) ->
  History.stock_after row = Some (JS.Int a) ->
  exists ed,
    handleEdit row s2 = (s2, Ok ed)
    /\ qty (editForm ed) = JS.Number (JS.Int (Z.abs (a - b))).
Proof.
  intros E D B A.
  destruct (addHistory_action _ _ _ _ E D B A) as (ND & Add & Min).
  unfold handleEdit, getItems. rewrite !bind_eq. unfold get, ret. cbv iota beta.
  eexists. split; [reflexivity|]. simpl. rewrite B, A. simpl.
  apply String.eqb_neq in ND. rewrite ND. rewrite !sub_Int, !max_Int.
  destruct (Z.lt_trichotomy b a) as [L|[L|L]].
  - rewrite (Add L). simpl. do 2 f_equal. lia.
  - subst. destruct (History.action row =? "add"); [do 2 f_equal; lia|].
    destruct (History.action row =? "min"); do 2 f_equal; lia.
  - rewrite (Min L). simpl. do 2 f_equal. lia.
Qed.

End EditRoundFacts.

Section EditMoreExamples.

Import Db WebAdmin HistoryPage Ledger Rounds.

#[local] Existing Instance JS.integer_literals.

Lemma handleEditSubmit_rejects_witness :
  handleEditSubmit 5000 Cases.edit_restock Sample.blank_page Sample.restocked
  = (Sample.restocked,
     Ok (mkPage true (FailedToUpdateHistoryEntry (Error "INVALID_QTY")))).
Proof.
  apply (handleEditSubmit_rejects (H := JS.integer_literals)
           5000 Cases.edit_restock Sample.blank_page Sample.restocked).
  left. discriminate.
Defined.

Lemma deduct_edit_can_go_negative_witness :
  exists it',
    item_of "ITEMAB12CD34"
      (fst (handleEditSubmit 5000 Cases.edit_to_60 Sample.blank_page Sample.after_deduct))
    = Some it'
    /\ JS.lt (Item.stock it') (JS.Int 0) = true.
Proof.
  apply (@deduct_edit_can_go_negative JS.integer_literals 5000 Cases.edit_to_60
           Sample.blank_page Sample.after_deduct 12 60 38 (Sample.gloves 38));
    reflexivity.
Defined.

Lemma deduct_edit_without_item_witness :
  handleEditSubmit 5000 Sample.edit_to_20 Sample.blank_page Cases.orphan
  = (Cases.orphan, Ok (mkPage false NoMessage)).
Proof.
  apply (@deduct_edit_without_item JS.integer_literals 5000 Sample.edit_to_20
           Sample.blank_page Cases.orphan 20); reflexivity.
Defined.

Lemma handleEditFormChange_not_negative_witness :
  JS.lt (JS.ToNumber
           (qty (editForm (handleEditFormChange FieldQty "-5" Sample.edit_to_20))))
    (JS.Int 0) = false.
Proof.
  apply (handleEditFormChange_not_negative (H := JS.integer_literals)).
  reflexivity.
Defined.

Lemma edit_round_repeats_witness :
  let s1 := fst (edit_round 5000 Sample.deducted_row "20" Sample.blank_page
                   Sample.after_deduct) in
  let s2 := fst (edit_round 6000 Sample.deducted_row "20" Sample.blank_page s1) in
  (exists it1,
      item_of "ITEMAB12CD34" s1 = Some it1
      /\ Item.stock it1 = JS.Int (38 + (12 - 20)))
  /\ (exists it2,
         item_of "ITEMAB12CD34" s2 = Some it2
         /\ Item.stock it2 = JS.Int (38 + 2 * (12 - 20)))
  /\ Forall2 kept (Db.history Sample.after_deduct) (Db.history s1)
  /\ Forall2 kept (Db.history s1) (Db.history s2).
Proof.
  apply (@edit_round_repeats JS.integer_literals 5000 6000 Sample.deducted_row "20"
           Sample.blank_page Sample.blank_page Sample.after_deduct 12 20 38
           (Sample.gloves 38)); try reflexivity.
  discriminate.
Defined.

Lemma handleEdit_shows_the_difference_witness :
  exists ed,
    handleEdit Sample.restock_row Sample.restocked = (Sample.restocked, Ok ed)
    /\ qty (editForm ed) = JS.Number (JS.Int (Z.abs (15 - 10))).
Proof.
  apply (@handleEdit_shows_the_difference JS.integer_literals None 0 Sample.restock
           Sample.empty Sample.restocked Sample.restock_row 10 15 Sample.restocked);
    try reflexivity.
  discriminate.
Defined.

End EditMoreExamples.

(** ** Mobile client: reading, checking and the membership columns *)

Section MembershipMoreFacts.

Import Db Mobile MobileApi Ledger.

(** Whatever text a membership column holds, what [csvToArray] reads from
    it are identifiers without commas, surrounding white space or empty
    entries, and writing that list back with [arrayToCsv] and reading it
    again gives the same list. *)
Theorem csv_reading_normalises value :
  let l := csvToArray value in
  Forall (fun id => csv_safe id = true) l
  /\ csvToArray (Some (arrayToCsv l)) = l.
Proof.
  split; [apply csvToArray_safe|].
  apply csvToArray_arrayToCsv, csvToArray_safe.
Qed.

Lemma updateTaskReadStatus_run taskId employeeId s :
  updateTaskReadStatus taskId employeeId s
  = match task_of taskId s with
    | None => (s, Throw PostgrestError)
    | Some data =>
        (with_tasks
           (update (eq_text Task.task_id taskId)
              (with_read_by
                 (arrayToCsv (push_absent (csvToArray (Task.read_by data)) employeeId)))
              (tasks s))
           s,
         Ok tt)
    end.
Proof.
  unfold updateTaskReadStatus, task_of. rewrite bind_eq. unfold get.
  cbv iota beta. destruct (single _); reflexivity.
Qed.

Lemma with_tasks_same s : with_tasks (tasks s) s = s.
Proof. now destruct s. Qed.

Lemma pushed_again l id :
  Forall (fun x => csv_safe x = true) l -> csv_safe id = true ->
  push_absent (csvToArray (Some (arrayToCsv (push_absent l id)))) id
  = push_absent l id.
Proof.
  intros F S. rewrite csvToArray_arrayToCsv by now apply push_absent_safe.
  apply push_absent_present, push_absent_In.
Qed.

(** A column patch sent twice to the rows of one task. *)
Lemma update_twice_same {R} (p : R -> bool) f rows :
  (forall r, p (f r) = p r) -> (forall r, f (f r) = f r) ->
  update p f (update p f rows) = update p f rows.
Proof.
  intros K I. rewrite update_update by exact K. now apply update_ext.
Qed.

(** Marking a task read or checked a second time changes nothing: for an
    identifier that the column gives back as written, the second call
    succeeds and leaves the store as the first call left it. *)
Theorem read_and_check_twice taskId employeeId s s1 :
  csv_safe employeeId = true ->
  (updateTaskCheckStatus taskId employeeId s = (s1, Ok tt) ->
   updateTaskCheckStatus taskId employeeId s1 = (s1, Ok tt))
  /\ (updateTaskReadStatus taskId employeeId s = (s1, Ok tt) ->
      updateTaskReadStatus taskId employeeId s1 = (s1, Ok tt)).
Proof.
  intros S. split; intros E.
  - rewrite updateTaskCheckStatus_run in E.
    destruct (task_of taskId s) as [data|] eqn:T; [|discriminate].
    injection E as <-. rewrite updateTaskCheckStatus_run.
    unfold task_of in *. cbn [tasks with_tasks].
    rewrite select_update by reflexivity. rewrite (single_map _ _ T).
    unfold checked. cbn [Task.checked_by Task.with_checked_by].
    rewrite pushed_again by (trivial; apply csvToArray_safe).
    f_equal. unfold with_tasks. cbn [tasks items history next_history_id].
    f_equal. apply update_twice_same; reflexivity.
  - rewrite updateTaskReadStatus_run in E.
    destruct (task_of taskId s) as [data|] eqn:T; [|discriminate].
    injection E as <-. rewrite updateTaskReadStatus_run.
    unfold task_of in *. cbn [tasks with_tasks].
    rewrite select_update by reflexivity. rewrite (single_map _ _ T).
    cbn [Task.read_by with_read_by].
    rewrite pushed_again by (trivial; apply csvToArray_safe).
    f_equal. unfold with_tasks. cbn [tasks items history next_history_id].
    f_equal. apply update_twice_same; reflexivity.
Qed.

(** Checking a task that exists puts the employee in its [checked_by] set
    and touches nothing else: the task's other columns, the other tasks,
    the items and the ledger are as before. *)
Theorem check_adds_the_employee taskId employeeId s task :
  csv_safe employeeId = true ->
  task_of taskId s = Some task ->
  let s1 := fst (updateTaskCheckStatus taskId employeeId s) in
  (exists task1,
      task_of taskId s1 = Some task1
      /\ In employeeId (checked task1)
      /\ incl (checked task) (checked task1)
      /\ Task.read_by task1 = Task.read_by task
      /\ Task.done_by task1 = Task.done_by task
      /\ Task.deducted_by_list task1 = Task.deducted_by_list task
      /\ Task.status task1 = Task.status task)
  /\ Forall2 (fun r r' => Task.task_id r <> taskId -> r' = r) (tasks s) (tasks s1)
  /\ items s1 = items s
  /\ history s1 = history s.
Proof.
  intros S T. rewrite updateTaskCheckStatus_run, T. simpl.
  split; [|split; [|split; reflexivity]].
  - unfold task_of in *. simpl. rewrite select_update by reflexivity.
    rewrite (single_map _ _ T). eexists. split; [reflexivity|].
    assert (E : checked (Task.with_checked_by
                           (arrayToCsv (push_absent (checked task) employeeId)) task)
                = push_absent (checked task) employeeId).
    { unfold checked at 1. simpl. apply csvToArray_arrayToCsv.
      apply push_absent_safe; trivial. apply csvToArray_safe. }
    rewrite E. repeat split.
    + apply push_absent_In.
    + apply push_absent_incl.
  - apply update_Forall2_in; [tauto|]. intros r _ P N.
    apply String.eqb_eq in P. contradiction.
Qed.

End MembershipMoreFacts.

(** ** Mobile client: the direct deduction, line by line *)

Section DeductMoreFacts.

Import Db Mobile MobileApi Ledger.

#[local] Arguments JS.sub : simpl never.
#[local] Arguments JS.max : simpl never.
#[local] Arguments JS.lt : simpl never.

Lemma for_of_app {A} (xs ys : list A) body s :
  for_of (xs ++ ys) body s
  = match for_of xs body s with
    | (s1, Ok _) => for_of ys body s1
    | (s1, Throw e) => (s1, Throw e)
    end.
Proof.
  revert s. induction xs as [|x xs IH]; intros s; [reflexivity|].
  simpl. rewrite !bind_eq. destruct (body x s) as [s1 [u|e]]; [apply IH|reflexivity].
Qed.

(** At one reading of the clock, deducting the lines [xs ++ ys] in one call
    is deducting [xs] and then [ys] in two calls; when the first call
    throws, the second is not made. *)
Theorem deductItem_in_two_calls now employeeId employeeName xs ys s :
  deductItem now employeeId employeeName (xs ++ ys) s
  = (deductItem now employeeId employeeName xs ;;;
     deductItem now employeeId employeeName ys)%db s.
Proof.
  unfold deductItem. rewrite for_of_app, bind_eq.
  destruct (for_of xs _ s) as [s1 [u|e]]; reflexivity.
Qed.

(** The loop is not atomic: when the lines before a line whose item cannot
    be read went through, their stock changes and history rows stay
    written, the call throws [Item ... not found], and the lines after it
    are not looked at. *)
Theorem deductItem_stops_at_missing now employeeId employeeName xs bad ys s s1 :
  deductItem now employeeId employeeName xs s = (s1, Ok tt) ->
  item_of (itemId bad) s1 = None ->
  deductItem now employeeId employeeName (xs ++ bad :: ys) s
  = (s1, Throw (Error ("Item " ++ itemId bad ++ " not found"))).
Proof.
  intros E N. unfold deductItem in *. rewrite for_of_app, E.
  change (for_of (bad :: ys) ?b s1) with (deductItem now employeeId employeeName (bad :: ys) s1).
  now rewrite deductItem_cons, deductItem_step_run, N.
Qed.

(** What a turn of the loop leaves alone. *)
Lemma deductItem_step_frame now employeeId employeeName item s s' :
  deductItem_step now employeeId employeeName item s = (s', Ok tt) ->
  tasks s' = tasks s
  /\ Forall2 (fun r r' =>
                Item.id r' = Item.id r /\ Item.name r' = Item.name r
                /\ Item.category r' = Item.category r
                /\ (Item.id r <> itemId item -> r' = r))
       (items s) (items s').
Proof.
  rewrite deductItem_step_run.
  destruct (item_of (itemId item) s) as [data|]; [|discriminate].
  intros E. injection E as <-. simpl. split; [reflexivity|].
  apply update_Forall2_in; [tauto|]. intros r _ P. repeat split.
  intros N. apply String.eqb_eq in P. contradiction.
Qed.

(** A successful [deductItem] writes to tables [items] and [history] only,
    and in [items] only to the stock of the rows it was asked to deduct:
    every row keeps its [id], [name] and [category], and a row of an item
    that is not among the lines is unchanged. *)
Theorem deductItem_frame now employeeId employeeName xs s s' :
  deductItem now employeeId employeeName xs s = (s', Ok tt) ->
  tasks s' = tasks s
  /\ Forall2 (fun r r' =>
                Item.id r' = Item.id r /\ Item.name r' = Item.name r
                /\ Item.category r' = Item.category r
                /\ (~ In (Item.id r) (map itemId xs) -> r' = r))
       (items s) (items s').
Proof.
  revert s. induction xs as [|x xs IH]; intros s E.
  - injection E as <-. split; [reflexivity|].
    clear. induction (items s); constructor; auto.
  - rewrite deductItem_cons in E.
    destruct (deductItem_step now employeeId employeeName x s) as [s1 [[]|e]] eqn:S;
      [|discriminate].
    apply deductItem_step_frame in S as [T1 F1]. apply IH in E as [T2 F2].
    split; [congruence|]. clear - F1 F2.
    revert F2. generalize (items s'). induction F1 as [|a b l1 l2 (I & Nm & C & K) F1 IHF];
      intros l3 F2; inversion F2 as [|b' c l2' l3' (I' & Nm' & C' & K') F3]; subst;
      constructor.
    + repeat split; try congruence. intros N. simpl in N.
      rewrite K', K; trivial.
      * intros Eq. apply N. left. congruence.
      * rewrite I. intros In'. apply N. now right.
    + now apply IHF.
Qed.

(** A row that [deductItem] writes for a line: the caller's employee, the
    line's item and quantity, action [deduct] and no stock snapshot. *)
Lemma deductItem_step_row now employeeId employeeName x s s' :
  deductItem_step now employeeId employeeName x s = (s', Ok tt) ->
  exists r,
    history s' = (history s ++ [r])%list
    /\ History.employee_id r = employeeId
    /\ History.employee_name r = employeeName
    /\ History.item_id r = itemId x
    /\ History.qty r = qty x
    /\ History.action r = "deduct"
    /\ History.stock_before r = None
    /\ History.stock_after r = None
    /\ exists it, In it (items s) /\ Item.id it = itemId x
                  /\ Item.name it = History.item_name r.
Proof.
  rewrite deductItem_step_run.
  destruct (item_of (itemId x) s) as [data|] eqn:I; [|discriminate].
  intros E. injection E as <-. eexists. split; [reflexivity|].
  cbn [History.employee_id History.employee_name History.item_id History.qty
       History.action History.stock_before History.stock_after History.item_name].
  repeat (split; [reflexivity|]). exists data. unfold item_of in I.
  assert (J : In data (select (eq_text Item.id (itemId x)) (items s))).
  { destruct (select _ _) as [|a [|b l]]; try discriminate.
    injection I as ->. now left. }
  apply filter_In in J as [J P]. apply String.eqb_eq in P. auto.
Qed.

(** The rows of [history] a successful [deductItem] appends: one for each
    line, in the order of the lines, with action [deduct], the line's item
    and quantity, the caller's employee and no stock snapshot; the
    recorded name is the name of a row of that item. *)
Theorem deductItem_appends_a_row_per_line now employeeId employeeName xs s s' :
  deductItem now employeeId employeeName xs s = (s', Ok tt) ->
  exists rows,
    history s' = (history s ++ rows)%list
    /\ Forall2 (fun x r =>
                  History.employee_id r = employeeId
                  /\ History.employee_name r = employeeName
                  /\ History.item_id r = itemId x
                  /\ History.qty r = qty x
                  /\ History.action r = "deduct"
                  /\ History.stock_before r = None
                  /\ History.stock_after r = None
                  /\ exists it, In it (items s) /\ Item.id it = itemId x
                                /\ Item.name it = History.item_name r)
         xs rows.
Proof.
  revert s. induction xs as [|x xs IH]; intros s E.
  - injection E as <-. exists []. rewrite app_nil_r. split; [reflexivity|constructor].
  - rewrite deductItem_cons in E.
    destruct (deductItem_step now employeeId employeeName x s) as [s1 [[]|e]] eqn:S;
      [|discriminate].
    pose proof (deductItem_step_frame _ _ _ _ _ S) as [_ F1].
    apply deductItem_step_row in S as (r & H1 & R).
    apply IH in E as (rows & H & F). clear IH.
    exists (r :: rows). rewrite H, H1, <- app_assoc. split; [reflexivity|].
    constructor; [exact R|].
    clear - F F1. induction F as [|y r ys rs K F IHF]; constructor; trivial.
    destruct K as (K1 & K2 & K3 & K4 & K5 & K6 & K7 & it & In' & Id & Nm).
    repeat (split; trivial).
    assert (G : forall l1 l2,
               Forall2 (fun r r' =>
                 Item.id r' = Item.id r /\ Item.name r' = Item.name r
                 /\ Item.category r' = Item.category r
                 /\ (Item.id r <> itemId x -> r' = r)) l1 l2 ->
               In it l2 ->
               exists it0, In it0 l1 /\ Item.id it0 = Item.id it
                           /\ Item.name it0 = Item.name it).
    { clear. intros l1 l2 F. induction F as [|a b l1 l2 (I & Nm & _) F IHF];
        intros [].
      - subst. exists a. split; [now left|]. split; congruence.
      - destruct (IHF H) as (it0 & ? & ? & ?). exists it0. split; [now right|].
        split; trivial. }
    destruct (G _ _ F1 In') as (it0 & ? & ? & ?). exists it0.
    split; trivial. split; congruence.
Qed.

End DeductMoreFacts.

(** ** Mobile client: deducting the items of a task *)

Section TaskItemsFacts.

Import Db Mobile MobileApi Ledger.

#[local] Arguments JS.sub : simpl never.
#[local] Arguments JS.max : simpl never.
#[local] Arguments JS.lt : simpl never.
#[local] Arguments JS.num_or_zero : simpl never.

Lemma deductTaskItems_turn_run now employeeId employeeName item s :
  deductTaskItems_turn now employeeId employeeName item s
  = (mkStore
       (update (eq_text Item.id (Task.item_id item))
          (Item.with_stock
             (JS.sub (read_stock (Task.item_id item) s) (Task.required_qty item)))
          (items s))
       (history s ++
          [deduct_entry (next_history_id s) now employeeId employeeName
             (Task.item_id item) (read_name (Task.item_id item) s)
             (Task.required_qty item)])
       (tasks s) (next_history_id s + 1),
     Ok tt).
Proof. reflexivity. Qed.

(** The loop of [deductTaskItems] cannot throw. *)
Lemma deductTaskItems_loop now employeeId employeeName items s :
  exists s' rows,
    for_of items (deductTaskItems_turn now employeeId employeeName) s = (s', Ok tt)
    /\ tasks s' = tasks s
    /\ history s' = (history s ++ rows)%list
    /\ Forall2 (fun x r =>
                  r = deduct_entry (History.id r) now employeeId employeeName
                        (Task.item_id x) (History.item_name r) (Task.required_qty x))
         items rows.
Proof.
  revert s. induction items as [|x items IH]; intros s.
  - exists s, []. rewrite app_nil_r. repeat split. constructor.
  - cbn [for_of]. rewrite bind_eq, deductTaskItems_turn_run.
    match goal with |- context [for_of items _ ?s1] =>
      destruct (IH s1) as (s' & rows & E & T & H & F) end.
    eexists s', (_ :: rows). rewrite E. split; [reflexivity|].
    split; [exact T|]. split.
    + rewrite H. cbn [history]. now rewrite <- app_assoc.
    + constructor; [reflexivity|exact F].
Qed.

Lemma deductTaskItems_run now taskId employeeId employeeName items s :
  items <> [] ->
  deductTaskItems now taskId employeeId employeeName items s
  = match for_of items (deductTaskItems_turn now employeeId employeeName) s with
    | (s1, Ok _) =>
        match task_of taskId s1 with
        | None => (s1, Throw (Error "Task not found."))
        | Some taskData =>
            (with_tasks
               (update (eq_text Task.task_id taskId)
                  (Task.with_deducted_by_list (push_absent (deducted taskData) employeeId))
                  (tasks s1))
               s1,
             Ok (push_absent (deducted taskData) employeeId))
        end
    | (s1, Throw e) => (s1, Throw e)
    end.
Proof.
  destruct items as [|x items]; [contradiction|]. intros _.
  unfold deductTaskItems. rewrite bind_eq.
  change (for_of (x :: items) _ s)
    with (for_of (x :: items) (deductTaskItems_turn now employeeId employeeName) s).
  destruct (for_of _ _ s) as [s1 [u|e]]; [|reflexivity].
  rewrite bind_eq. unfold get. cbv iota beta. unfold task_of, deducted.
  destruct (single _) as [taskData|]; [|reflexivity].
  destruct (Task.deducted_by_list taskData); reflexivity.
Qed.


Lemma deductTaskItems_absent now taskId employeeId employeeName id q s :
  select (eq_text Item.id id) (items s) = [] ->
  let s' := fst (deductTaskItems now taskId employeeId employeeName
                   [Task.mkRequired id q] s) in
  items s' = items s
  /\ history s'
     = (history s ++
          [deduct_entry (next_history_id s) now employeeId employeeName id
             "Unknown Item" q])%list.
Proof.
  intros E. rewrite deductTaskItems_run by discriminate.
  cbn [for_of]. rewrite bind_eq, deductTaskItems_turn_run. cbn [Task.item_id Task.required_qty].
  unfold read_name. rewrite E. cbn [single ret].
  assert (U : forall patch, update (eq_text Item.id id) patch (items s) = items s).
  { intros patch. unfold update, select in *. induction (items s) as [|r l IH]; trivial.
    simpl in *. destruct (eq_text Item.id id r); [discriminate|]. now rewrite IH. }
  rewrite U. destruct (task_of taskId _); split; reflexivity.
Qed.

(** An item that table [items] does not hold is deducted all the same: no
    stock changes, and the ledger gets a [deduct] row for ['Unknown Item']
    with the required quantity. *)
Theorem deductTaskItems_unknown_item now taskId employeeId employeeName id q s :
  select (eq_text Item.id id) (items s) = [] ->
  let s' := fst (deductTaskItems now taskId employeeId employeeName
                   [Task.mkRequired id q] s) in
  items s' = items s
  /\ history s'
     = (history s ++
          [deduct_entry (next_history_id s) now employeeId employeeName id
             "Unknown Item" q])%list.
Proof. apply deductTaskItems_absent. Qed.

Lemma select_delete {R} (p : R -> bool) rows :
  select p (WebAdminApi.delete p rows) = [].
Proof.
  unfold select, WebAdminApi.delete. induction rows as [|r rows IH]; trivial.
  simpl. destruct (p r) eqn:E; simpl; [exact IH|now rewrite E].
Qed.

(** Deleting an item in the web admin removes its rows from [items] and
    nothing else: the ledger rows and the tasks that name the item stay.
    From then on the direct deduction of that item throws without writing,
    while the deduction of a task that requires it goes through and
    records an ['Unknown Item'] row. *)
Theorem deleteItem_leaves_ledger_and_tasks now taskId employeeId employeeName id q s :
  let s1 := fst (WebAdminApi.deleteItem id s) in
  snd (WebAdminApi.deleteItem id s) = Ok tt
  /\ history s1 = history s
  /\ tasks s1 = tasks s
  /\ (forall r, In r (items s1) <-> In r (items s) /\ Item.id r <> id)
  /\ deductItem now employeeId employeeName [mkDeduction id q] s1
     = (s1, Throw (Error ("Item " ++ id ++ " not found")))
  /\ (let s2 := fst (deductTaskItems now taskId employeeId employeeName
                       [Task.mkRequired id q] s1) in
      items s2 = items s1
      /\ history s2
         = (history s ++
              [deduct_entry (next_history_id s) now employeeId employeeName id
                 "Unknown Item" q])%list).
Proof.
  cbn zeta. unfold WebAdminApi.deleteItem, modify. cbn [fst snd].
  assert (E : select (eq_text Item.id id)
                (items (with_items (WebAdminApi.delete (eq_text Item.id id) (items s)) s))
              = []) by apply select_delete.
  split; [reflexivity|]. split; [reflexivity|]. split; [reflexivity|]. split; [|split].
  - intros r. cbn [items with_items]. unfold WebAdminApi.delete.
    rewrite filter_In. unfold eq_text. rewrite negb_true_iff, String.eqb_neq. tauto.
  - rewrite deductItem_cons, deductItem_step_run. unfold item_of.
    cbn [itemId]. now rewrite E.
  - apply (deductTaskItems_absent now taskId employeeId employeeName id q _ E).
Qed.

Lemma select_update_other {R} (column : R -> string) v p patch rows :
  (forall r, column (patch r) = column r) ->
  select (eq_text column v) (update p patch rows)
  = update p patch (select (eq_text column v) rows).
Proof.
  intros K. unfold select, update, eq_text.
  induction rows as [|r rows IH]; simpl; trivial.
  assert (E : (column (if p r then patch r else r) =? v) = (column r =? v)).
  { destruct (p r); [now rewrite K|reflexivity]. }
  rewrite E. destruct (column r =? v); simpl; now rewrite IH.
Qed.

(** For a task that exists, [deductTaskItems] with a non-empty list always
    succeeds, whatever the stock: it returns the task's deducted list with
    the employee in it, once, and writes that list as an array; the
    task's other columns are kept. *)
Theorem deductTaskItems_marks_the_task now taskId employeeId employeeName items s task :
  items <> [] ->
  task_of taskId s = Some task ->
  exists s' l,
    deductTaskItems now taskId employeeId employeeName items s = (s', Ok l)
    /\ l = push_absent (deducted task) employeeId
    /\ In employeeId l
    /\ (NoDup (deducted task) -> NoDup l)
    /\ task_of taskId s' = Some (Task.with_deducted_by_list l task).
Proof.
  intros N T. rewrite deductTaskItems_run by exact N.
  destruct (deductTaskItems_loop now employeeId employeeName items s)
    as (s1 & rows & E & Ts & H & F).
  rewrite E. unfold task_of in *. rewrite Ts, T. eexists _, _.
  split; [reflexivity|]. split; [reflexivity|].
  split; [apply push_absent_In|]. split; [apply push_absent_NoDup|].
  cbn [tasks with_tasks]. rewrite select_update by reflexivity.
  now apply single_map.
Qed.

Lemma getTasks_array fetched employeeId r l :
  In r fetched -> Task.deducted_by_list r = Task.IdsArray l ->
  getTasks fetched employeeId = [].
Proof.
  intros I A. unfold getTasks.
  assert (E : map_throwing (getTasks_view employeeId) fetched = None).
  { induction fetched as [|x fetched IH]; [destruct I|]. simpl.
    destruct I as [->|I].
    - unfold getTasks_view. now rewrite A.
    - rewrite (IH I). now destruct (getTasks_view employeeId x). }
  now rewrite E.
Qed.

(** Once [deductTaskItems] has succeeded for a task, the column holds an
    array, and a [getTasks] whose query returns that row answers with the
    empty list, for every employee: the branch for arrays evaluates an
    identifier that is declared nowhere, and the error is caught. *)
Theorem getTasks_after_deductTaskItems
    now taskId employeeId employeeName items s s' l task fetched viewer :
  task_of taskId s = Some task ->
  deductTaskItems now taskId employeeId employeeName items s = (s', Ok l) ->
  incl (tasks s') fetched ->
  getTasks fetched viewer = [].
Proof.
  intros T D I.
  assert (N : items <> []) by (intros ->; discriminate).
  rewrite deductTaskItems_run in D by exact N.
  destruct (deductTaskItems_loop now employeeId employeeName items s)
    as (s1 & rows & E & Ts & H & F).
  rewrite E in D. unfold task_of in *. rewrite Ts, T in D. injection D as <- <-.
  apply getTasks_array
    with (r := Task.with_deducted_by_list (push_absent (deducted task) employeeId) task)
         (l := push_absent (deducted task) employeeId); [|reflexivity].
  apply I. cbn [tasks with_tasks].
  assert (J : In task (select (eq_text Task.task_id taskId) (tasks s))).
  { destruct (select _ _) as [|a [|b k]]; try discriminate. injection T as ->. now left. }
  apply filter_In in J as [J P]. unfold update. apply in_map_iff.
  exists task. now rewrite P.
Qed.

(** Where no fetched row holds an array, [getTasks] answers with one view
    per row, in order, and [can_mark_done] is true exactly for a non-empty
    employee id found both in the task's [checked_by] and in its
    [deducted_by_list] text: neither the ledger nor [assigned_at] is
    looked at, unlike [canMarkTaskDone]. *)
Theorem getTasks_views fetched employeeId :
  Forall (fun r => forall l, Task.deducted_by_list r <> Task.IdsArray l) fetched ->
  map task (getTasks fetched (Some employeeId)) = fetched
  /\ Forall (fun v =>
               can_mark_done v = true
               <-> employeeId <> ""
                   /\ In employeeId (checked (task v))
                   /\ In employeeId (deducted (task v)))
       (getTasks fetched (Some employeeId)).
Proof.
  intros F. unfold getTasks.
  induction F as [|r fetched A F IH]; [split; [reflexivity|constructor]|].
  cbn [map_throwing]. destruct IH as [IH1 IH2].
  destruct (map_throwing (getTasks_view (Some employeeId)) fetched) as [views|] eqn:E.
  - assert (V : exists v, getTasks_view (Some employeeId) r = Some v
                          /\ task v = r
                          /\ (can_mark_done v = true
                              <-> employeeId <> ""
                                  /\ In employeeId (checked r)
                                  /\ In employeeId (deducted r))).
    { unfold getTasks_view, deducted, checked.
      destruct (Task.deducted_by_list r) as [|t|l] eqn:D.
      - eexists. split; [reflexivity|]. split; [reflexivity|]. cbn [can_mark_done].
        rewrite !andb_true_iff, !includes_In. unfold nonempty.
        rewrite negb_true_iff, String.eqb_neq. tauto.
      - eexists. split; [reflexivity|]. split; [reflexivity|]. cbn [can_mark_done].
        rewrite !andb_true_iff, !includes_In. unfold nonempty.
        rewrite negb_true_iff, String.eqb_neq. tauto.
      - now destruct (A l). }
    destruct V as (v & -> & Tv & C). split.
    + cbn [map]. now rewrite Tv, IH1.
    + constructor; [now rewrite Tv|exact IH2].
  - destruct fetched as [|x fetched]; [discriminate|]. discriminate.
Qed.

End TaskItemsFacts.

(** ** Mobile client: from a check to a task that is done *)

Section TaskFlowFacts.

Import Db Mobile MobileApi Ledger.

#[local] Arguments JS.sub : simpl never.
#[local] Arguments JS.num_or_zero : simpl never.

Lemma task_of_update taskId p patch s task :
  (forall r, Task.task_id (patch r) = Task.task_id r) ->
  task_of taskId s = Some task ->
  task_of taskId (with_tasks (update p patch (tasks s)) s)
  = Some (if p task then patch task else task).
Proof.
  intros K T. unfold task_of in *. cbn [tasks with_tasks].
  rewrite select_update_other by exact K. unfold update.
  now apply single_map with (f := fun r => if p r then patch r else r).
Qed.

(** A row the loop of [deductTaskItems] wrote counts as a deduction after
    any moment before the call. *)
Lemma has_deduct_after_rows now employeeId employeeName (items : list Task.required)
    rows s a :
  items <> [] ->
  Forall2 (fun x r =>
             r = deduct_entry (History.id r) now employeeId employeeName
                   (Task.item_id x) (History.item_name r) (Task.required_qty x))
    items rows ->
  (a < now)%Z ->
  (exists old, history s = (old ++ rows)%list) ->
  has_deduct_after employeeId a s.
Proof.
  intros N F L [old H]. destruct F as [|x r items rows E F]; [contradiction|].
  exists r. rewrite H. split; [apply in_or_app; right; now left|].
  rewrite E. repeat split. exact L.
Qed.

(** The flow of the dashboard, end to end.  An employee checks a task
    that is assigned, deducts the items of some task (the same or another
    one) later than the assignment, and asks for the task to be done: the
    three calls succeed and leave the task marked done for the employee.
    No stock level and no relation between the deducted items and the
    task is asked for. *)
Theorem check_deduct_done
    now1 now2 taskId otherId employeeId employeeName items s task other a :
  csv_safe employeeId = true ->
  task_of taskId s = Some task ->
  Task.assigned_at task = Some a ->
  (a < now1)%Z ->
  items <> [] ->
  task_of otherId s = Some other ->
  exists s3 doneByList,
    (updateTaskCheckStatus taskId employeeId ;;;
     (deductTaskItems now1 otherId employeeId employeeName items ;;;
      doneTask now2 taskId employeeId))%db s
    = (s3, Ok doneByList)
    /\ In employeeId doneByList
    /\ done_for taskId employeeId now2 s3.
Proof.
  intros S T A L N T'. rewrite bind_eq, updateTaskCheckStatus_run, T.
  set (c := arrayToCsv (push_absent (csvToArray (Task.checked_by task)) employeeId)).
  set (s1 := with_tasks _ s).
  assert (T1 : task_of taskId s1 = Some (Task.with_checked_by c task)).
  { unfold s1. rewrite task_of_update with (task := task); trivial.
    unfold eq_text. assert (P : Task.task_id task = taskId).
    { unfold task_of in T.
      assert (J : In task (select (eq_text Task.task_id taskId) (tasks s))).
      { destruct (select _ _) as [|x [|y k]]; try discriminate.
        injection T as ->. now left. }
      apply filter_In in J as [_ J]. now apply String.eqb_eq in J. }
    apply String.eqb_eq in P. now rewrite P. }
  assert (T1' : exists other1, task_of otherId s1 = Some other1).
  { unfold s1. eexists. apply task_of_update; [reflexivity|exact T']. }
  destruct T1' as [other1 T1'].
  assert (C1 : In employeeId (checked (Task.with_checked_by c task))).
  { unfold checked, c. cbn [Task.checked_by Task.with_checked_by].
    rewrite csvToArray_arrayToCsv.
    - apply push_absent_In.
    - apply push_absent_safe; trivial. apply csvToArray_safe. }
  rewrite bind_eq, deductTaskItems_run by exact N.
  destruct (deductTaskItems_loop now1 employeeId employeeName items s1)
    as (s2 & rows & E & Ts & H & F).
  rewrite E.
  assert (T2 : task_of taskId s2 = Some (Task.with_checked_by c task))
    by (unfold task_of in *; now rewrite Ts).
  assert (T2' : task_of otherId s2 = Some other1)
    by (unfold task_of in *; now rewrite Ts).
  rewrite T2'.
  set (l := push_absent (deducted other1) employeeId).
  set (s3 := with_tasks _ s2).
  assert (G : may_be_done taskId employeeId s3).
  { eexists _, a. split; [unfold s3; apply task_of_update; [reflexivity|exact T2]|].
    split; [|split].
    - destruct (eq_text _ _ _); exact C1.
    - destruct (eq_text _ _ _); exact A.
    - apply has_deduct_after_rows with (now := now1) (employeeName := employeeName)
                                       (items := items) (rows := rows); trivial.
      exists (history s1). exact H. }
  destruct (doneTask_allowed now2 G) as (task3 & T3 & D).
  rewrite D. eexists _, _. split; [reflexivity|].
  split; [apply push_absent_In|].
  eexists. split; [apply task_of_marked; exact T3|].
  destruct G as (task3' & a' & T3' & C3 & _).
  assert (task3' = task3) by congruence. subst task3'.
  rewrite done_after_push by now apply checked_safe with task3.
  repeat split. apply push_absent_In.
Qed.

End TaskFlowFacts.

Section MobileMoreExamples.

Import Db Mobile MobileApi Ledger.

Lemma read_and_check_twice_witness :
  updateTaskCheckStatus "TASK1700000000000" Sample.sari Sample.ready
  = (Sample.ready, Ok tt)
  /\ updateTaskReadStatus "TASK1700000000000" Sample.sari Cases.seen
     = (Cases.seen, Ok tt).
Proof.
  split.
  - destruct (@read_and_check_twice "TASK1700000000000" Sample.sari
                Sample.assigned Sample.ready eq_refl) as [H _].
    apply H. reflexivity.
  - destruct (@read_and_check_twice "TASK1700000000000" Sample.sari
                Sample.assigned Cases.seen eq_refl) as [_ H].
    apply H. reflexivity.
Defined.

Lemma check_adds_the_employee_witness :
  let s1 := fst (updateTaskCheckStatus "TASK1700000000000" Sample.sari Sample.assigned) in
  (exists task1,
      task_of "TASK1700000000000" s1 = Some task1
      /\ In Sample.sari (checked task1)
      /\ incl (checked Sample.refill) (checked task1)
      /\ Task.read_by task1 = Task.read_by Sample.refill
      /\ Task.done_by task1 = Task.done_by Sample.refill
      /\ Task.deducted_by_list task1 = Task.deducted_by_list Sample.refill
      /\ Task.status task1 = Task.status Sample.refill)
  /\ Forall2 (fun r r' => Task.task_id r <> "TASK1700000000000" -> r' = r)
       (tasks Sample.assigned) (tasks s1)
  /\ items s1 = items Sample.assigned
  /\ history s1 = history Sample.assigned.
Proof.
  apply (@check_adds_the_employee "TASK1700000000000" Sample.sari Sample.assigned
           Sample.refill); reflexivity.
Defined.

Lemma deductItem_stops_at_missing_witness :
  deductItem 1000 Sample.sari "Sari"
    [Sample.takes_12; Cases.ghost; Cases.takes_3_masks] Cases.two_shelves
  = (mkStore [Sample.gloves 38; Cases.masks 7] [Sample.deducted_row] [Sample.refill] 2,
     Throw (Error "Item ITEMZZ00ZZ00 not found")).
Proof.
  apply (@deductItem_stops_at_missing 1000 Sample.sari "Sari" [Sample.takes_12]
           Cases.ghost [Cases.takes_3_masks] Cases.two_shelves);
    reflexivity.
Defined.

Lemma deductItem_frame_witness :
  let s' := fst (deductItem 1000 Sample.sari "Sari" [Sample.takes_12] Cases.two_shelves) in
  tasks s' = tasks Cases.two_shelves
  /\ Forall2 (fun r r' =>
                Item.id r' = Item.id r /\ Item.name r' = Item.name r
                /\ Item.category r' = Item.category r
                /\ (~ In (Item.id r) (map itemId [Sample.takes_12]) -> r' = r))
       (items Cases.two_shelves) (items s').
Proof.
  apply (@deductItem_frame 1000 Sample.sari "Sari" [Sample.takes_12] Cases.two_shelves).
  reflexivity.
Defined.

Lemma deductItem_appends_a_row_per_line_witness :
  exists rows,
    history (fst (deductItem 1000 Sample.sari "Sari"
                    [Sample.takes_12; Cases.takes_3_masks] Cases.two_shelves))
    = (history Cases.two_shelves ++ rows)%list
    /\ Forall2 (fun x r =>
                  History.employee_id r = Sample.sari
                  /\ History.employee_name r = "Sari"
                  /\ History.item_id r = itemId x
                  /\ History.qty r = qty x
                  /\ History.action r = "deduct"
                  /\ History.stock_before r = None
                  /\ History.stock_after r = None
                  /\ exists it, In it (items Cases.two_shelves) /\ Item.id it = itemId x
                                /\ Item.name it = History.item_name r)
         [Sample.takes_12; Cases.takes_3_masks] rows.
Proof.
  apply (@deductItem_appends_a_row_per_line 1000 Sample.sari "Sari"
           [Sample.takes_12; Cases.takes_3_masks] Cases.two_shelves).
  reflexivity.
Defined.

Lemma deductItem_clamps_witness : not_negative (Sample.gloves 0).
Proof.
  apply (@deductItem_clamps 1000 Sample.sari "Sari"
           [mkDeduction "ITEMAB12CD34" (JS.Int 8)] Sample.short
           (mkStore [Sample.gloves 0]
              [History.mk 1 Sample.sari "Sari" "ITEMAB12CD34" "Gloves" "deduct"
                 (JS.Int 8) None None 1000]
              [Sample.refill] 2)
           tt eq_refl (mkDeduction "ITEMAB12CD34" (JS.Int 8)) (Sample.gloves 0));
    [left; reflexivity|left; reflexivity|reflexivity].
Defined.

Lemma deductTaskItems_does_not_clamp_witness :
  let s' := fst (deductTaskItems 1000 "TASK1700000000000" Sample.sari "Sari"
                   [Task.mkRequired "ITEMAB12CD34" (JS.Int 8)] Sample.short) in
  exists it',
    item_of "ITEMAB12CD34" s' = Some it'
    /\ Item.stock it' = JS.Int (5 - 8)
    /\ JS.lt (Item.stock it') (JS.Int 0) = true.
Proof.
  apply (@deductTaskItems_does_not_clamp 1000 "TASK1700000000000" Sample.sari "Sari"
           "ITEMAB12CD34" 8%Z 5%Z (Sample.gloves 5) Sample.short);
    [reflexivity|reflexivity|lia].
Defined.


Lemma deductTaskItems_unknown_item_witness :
  let s' := fst (deductTaskItems 1000 "TASK1700000000000" Sample.sari "Sari"
                   [Task.mkRequired "ITEMZZ00ZZ00" (JS.Int 1)] Sample.short) in
  items s' = items Sample.short
  /\ history s'
     = (history Sample.short ++
          [deduct_entry (next_history_id Sample.short) 1000 Sample.sari "Sari"
             "ITEMZZ00ZZ00" "Unknown Item" (JS.Int 1)])%list.
Proof.
  apply (@deductTaskItems_unknown_item 1000 "TASK1700000000000" Sample.sari "Sari"
           "ITEMZZ00ZZ00" (JS.Int 1) Sample.short).
  reflexivity.
Defined.

Lemma deductTaskItems_marks_the_task_witness :
  exists s' l,
    deductTaskItems 1000 "TASK1700000000000" Sample.sari "Sari"
      [Sample.needs_eight] Sample.short
    = (s', Ok l)
    /\ l = push_absent (deducted Sample.refill) Sample.sari
    /\ In Sample.sari l
    /\ (NoDup (deducted Sample.refill) -> NoDup l)
    /\ task_of "TASK1700000000000" s'
       = Some (Task.with_deducted_by_list l Sample.refill).
Proof.
  apply (@deductTaskItems_marks_the_task 1000 "TASK1700000000000" Sample.sari "Sari"
           [Sample.needs_eight] Sample.short Sample.refill);
    [discriminate|reflexivity].
Defined.

Lemma getTasks_after_deductTaskItems_witness :
  getTasks
    (tasks (fst (deductTaskItems 1000 "TASK1700000000000" Sample.sari "Sari"
                   [Sample.needs_eight] Sample.short)))
    (Some Sample.sari)
  = [].
Proof.
  apply (@getTasks_after_deductTaskItems 1000 "TASK1700000000000" Sample.sari "Sari"
           [Sample.needs_eight] Sample.short
           (fst (deductTaskItems 1000 "TASK1700000000000" Sample.sari "Sari"
                   [Sample.needs_eight] Sample.short))
           [Sample.sari] Sample.refill);
    [reflexivity|reflexivity|apply incl_refl].
Defined.

Lemma getTasks_views_witness :
  map task (getTasks [Sample.checked_refill] (Some Sample.sari)) = [Sample.checked_refill]
  /\ Forall (fun v =>
               can_mark_done v = true
               <-> Sample.sari <> ""
                   /\ In Sample.sari (checked (task v))
                   /\ In Sample.sari (deducted (task v)))
       (getTasks [Sample.checked_refill] (Some Sample.sari)).
Proof.
  apply (@getTasks_views [Sample.checked_refill] Sample.sari).
  repeat constructor. discriminate.
Defined.

Lemma check_deduct_done_witness :
  exists s3 doneByList,
    (updateTaskCheckStatus "TASK1700000000000" Sample.sari ;;;
     (deductTaskItems 1000 "TASK1700000000001" Sample.sari "Sari" [Sample.needs_eight] ;;;
      doneTask 2000 "TASK1700000000000" Sample.sari))%db Cases.two_tasks
    = (s3, Ok doneByList)
    /\ In Sample.sari doneByList
    /\ done_for "TASK1700000000000" Sample.sari 2000 s3.
Proof.
  apply (@check_deduct_done 1000 2000 "TASK1700000000000" "TASK1700000000001"
           Sample.sari "Sari" [Sample.needs_eight] Cases.two_tasks
           Sample.refill Cases.sweep 500%Z);
    [reflexivity|reflexivity|reflexivity|lia|discriminate|reflexivity].
Defined.

End MobileMoreExamples.

(** ** Mobile client: the Done button of the dashboard *)

Section DashboardFacts.

Import Db Mobile MobileApi Ledger.

Lemma getDoneByList_selected scr selected :
  Dashboard.selectedTask scr = Some selected ->
  Dashboard.getDoneByList scr = done (task selected).
Proof.
  intros E. unfold Dashboard.getDoneByList, done, csvToArray. now rewrite E.
Qed.

Lemma doneTask_result now taskId employeeId s :
  (may_be_done taskId employeeId s
   /\ exists task,
        task_of taskId s = Some task
        /\ doneTask now taskId employeeId s
           = (marked now taskId employeeId s,
              Ok (push_absent (done task) employeeId)))
  \/ (~ may_be_done taskId employeeId s
      /\ exists e, doneTask now taskId employeeId s = (s, Throw e)).
Proof.
  destruct (canMarkTaskDone taskId employeeId s) as [s0 r] eqn:E.
  assert (s0 = s) by (rewrite canMarkTaskDone_run in E; congruence). subst s0.
  assert (D : r = Ok true \/ r <> Ok true).
  { destruct r as [[|]|e]; [now left|right; discriminate|right; discriminate]. }
  destruct D as [->|D].
  - apply canMarkTaskDone_true in E. left. split; trivial. now apply doneTask_allowed.
  - right. assert (N : ~ may_be_done taskId employeeId s).
    { intros G. apply canMarkTaskDone_true in G. congruence. }
    split; trivial. now apply doneTask_refused.
Qed.

(** The Done button writes only through [doneTask], and only after its
    own tests passed: it ends with the success alert exactly when a task is
    selected, the employee is not in its [done_by] as the screen has it,
    the screen has the task checked and a deduction of today, and
    [doneTask] accepts; in every other case the store and the screen are
    left as they were. *)
Theorem handleDoneTask_writes_only_when_allowed now ui_now employeeId scr s :
  exists s' scr' a,
    Dashboard.handleDoneTask now ui_now employeeId scr s = (s', Ok (scr', a))
    /\ (a = Dashboard.Success
        <-> exists selected,
              Dashboard.selectedTask scr = Some selected
              /\ ~ In employeeId (Dashboard.getDoneByList scr)
              /\ Dashboard.isChecked employeeId scr = true
              /\ Dashboard.hasDeductToday scr = true
              /\ may_be_done (Task.task_id (task selected)) employeeId s)
    /\ (a <> Dashboard.Success -> s' = s /\ scr' = scr).
Proof.
  unfold Dashboard.handleDoneTask.
  destruct (Dashboard.selectedTask scr) as [selected|] eqn:Sel.
  2:{ eexists _, _, _. split; [reflexivity|]. split; [|auto].
      split; [discriminate|]. intros (x & X & _). discriminate. }
  destruct (JS.includes (Dashboard.getDoneByList scr) employeeId) eqn:I.
  { eexists _, _, _. split; [reflexivity|]. split; [|auto].
    split; [discriminate|]. intros (x & _ & N & _).
    apply includes_In in I. contradiction. }
  destruct (Dashboard.isChecked employeeId scr) eqn:C.
  2:{ eexists _, _, _. split; [reflexivity|]. split; [|auto].
      split; [discriminate|]. intros (x & _ & _ & X & _). discriminate. }
  destruct (Dashboard.hasDeductToday scr) eqn:D.
  2:{ eexists _, _, _. split; [reflexivity|]. split; [|auto].
      split; [discriminate|]. intros (x & _ & _ & _ & X & _). discriminate. }
  cbn [negb]. rewrite try_catch_eq, bind_eq.
  destruct (doneTask_result now (Task.task_id (task selected)) employeeId s)
    as [(G & t & T & R)|(N & e & R)]; rewrite R.
  - eexists _, _, _. split; [reflexivity|]. split; [|congruence].
    split; [|reflexivity]. intros _. exists selected. repeat split; trivial.
    now apply includes_not_In.
  - eexists _, _, _. split; [reflexivity|]. split; [|auto].
    split; [discriminate|]. intros (x & X & _ & _ & _ & G).
    injection X as <-. contradiction.
Qed.

(** Pressed again on the screen it left, the Done button answers
    [Already Done] and calls nothing: from the dashboard the [done_at] of
    a task is written once, although [doneTask] itself would write it
    again. *)
Theorem handleDoneTask_once now1 ui1 now2 ui2 employeeId scr s s1 scr1 :
  Dashboard.handleDoneTask now1 ui1 employeeId scr s
  = (s1, Ok (scr1, Dashboard.Success)) ->
  Dashboard.handleDoneTask now2 ui2 employeeId scr1 s1
  = (s1, Ok (scr1, Dashboard.AlreadyDone)).
Proof.
  unfold Dashboard.handleDoneTask at 1.
  destruct (Dashboard.selectedTask scr) as [selected|] eqn:Sel; [|discriminate].
  destruct (JS.includes (Dashboard.getDoneByList scr) employeeId); [discriminate|].
  destruct (Dashboard.isChecked employeeId scr); [|discriminate].
  destruct (Dashboard.hasDeductToday scr); [|discriminate].
  cbn [negb]. rewrite try_catch_eq, bind_eq.
  destruct (doneTask_result now1 (Task.task_id (task selected)) employeeId s)
    as [(G & t & T & R)|(N & e & R)]; rewrite R; [|discriminate].
  intros E. injection E as <- <-.
  assert (S : csv_safe employeeId = true).
  { destruct G as (t0 & a & _ & C & _). now apply checked_safe with t0. }
  unfold Dashboard.handleDoneTask. cbn [Dashboard.selectedTask].
  assert (L : Dashboard.getDoneByList
                (Dashboard.mkScreen
                   (map (fun t0 =>
                           if Task.task_id (task t0) =? Task.task_id (task selected)
                           then Dashboard.updateTask (push_absent (done t) employeeId) ui1 t0
                           else t0)
                      (Dashboard.tasks scr))
                   (Some (Dashboard.updateTask (push_absent (done t) employeeId) ui1 selected))
                   true)
              = push_absent (done t) employeeId).
  { erewrite getDoneByList_selected by reflexivity.
    unfold done at 1, Dashboard.updateTask. cbn [task Task.done_by Task.with_done].
    apply csvToArray_arrayToCsv. apply push_absent_safe; trivial.
    apply csvToArray_safe. }
  rewrite L.
  assert (I : JS.includes (push_absent (done t) employeeId) employeeId = true)
    by (apply includes_In, push_absent_In).
  now rewrite I.
Qed.

End DashboardFacts.

Section DashboardExamples.

Import Db Mobile MobileApi Ledger.

Lemma handleDoneTask_once_witness :
  Dashboard.handleDoneTask 3000 3001 Sample.sari Screens.done_refill
    (Sample.finished 2000)
  = (Sample.finished 2000, Ok (Screens.done_refill, Dashboard.AlreadyDone)).
Proof.
  apply (@handleDoneTask_once 2000 2001 3000 3001 Sample.sari Screens.open_refill
           Sample.ready (Sample.finished 2000) Screens.done_refill).
  reflexivity.
Defined.

End DashboardExamples.

(** ** Comparing cached and fetched data: [deepEqual] *)

Section DeepEqualFacts.

Import JS Json.

Lemma value_induction (P : value -> Prop) :
  P JNull -> (forall b, P (JBool b)) -> (forall n, P (JNumber n)) ->
  (forall s, P (JString s)) ->
  (forall arr fields, Forall (fun kv => P (snd kv)) fields -> P (JObject arr fields)) ->
  forall v, P v.
Proof.
  intros Hnull Hbool Hnum Hstr Hobj. fix IH 1.
  intros [ |b|n|s|arr fields];
    [exact Hnull|apply Hbool|apply Hnum|apply Hstr|].
  apply Hobj. induction fields as [|[k v] fields IHf]; constructor; [apply IH|exact IHf].
Qed.

Lemma distinct_NoDup l : distinct l = true <-> NoDup l.
Proof.
  induction l as [|x l IH]; simpl.
  - split; [constructor|trivial].
  - rewrite andb_true_iff, negb_true_iff, includes_not_In, IH. split.
    + intros [N D]. now constructor.
    + intros D. inversion D. auto.
Qed.

Lemma lookup_Some_In key fields v : lookup key fields = Some v -> In (key, v) fields.
Proof.
  induction fields as [|[k w] fields IH]; simpl; [discriminate|].
  destruct (String.eqb_spec k key) as [->|N].
  - intros E. injection E as ->. now left.
  - intros E. right. now apply IH.
Qed.

Lemma lookup_In key fields v :
  NoDup (keys fields) -> In (key, v) fields -> lookup key fields = Some v.
Proof.
  induction fields as [|[k w] fields IH]; simpl; [intros _ []|].
  intros D [E|I].
  - injection E as -> ->. now rewrite String.eqb_refl.
  - inversion D as [|? ? N D']; subst.
    destruct (String.eqb_spec k key) as [->|_]; [|now apply IH].
    exfalso. apply N. unfold keys. apply in_map_iff. now exists (key, v).
Qed.

Lemma In_keys key fields : In key (keys fields) <-> exists v, In (key, v) fields.
Proof.
  unfold keys. rewrite in_map_iff. split.
  - intros [[k v] [E I]]. simpl in E. subst. now exists v.
  - intros [v I]. now exists (key, v).
Qed.

(** The test the loop of [deepEqual] applies to every key of [a]. *)
Lemma deepEqual_objects x fa y fb :
  deepEqual (JObject x fa) (JObject y fb) = true
  <-> length fa = length fb
      /\ forall key a_key,
           In (key, a_key) fa ->
           exists b_key, lookup key fb = Some b_key /\ deepEqual a_key b_key = true.
Proof.
  cbn [deepEqual]. unfold keys. rewrite !length_map, andb_true_iff, Nat.eqb_eq, forallb_forall.
  split; intros [L F]; split; trivial.
  - intros key a_key I. apply F in I. apply andb_true_iff in I as [_ I].
    destruct (lookup key fb) as [b_key|]; [|discriminate]. now exists b_key.
  - intros [key a_key] I. destruct (F _ _ I) as (b_key & E & D). rewrite E, D.
    rewrite andb_true_r. apply includes_In, In_keys. exists b_key.
    now apply lookup_Some_In.
Qed.

Lemma well_formed_object x fa :
  well_formed (JObject x fa) = true
  <-> NoDup (keys fa) /\ forall key v, In (key, v) fa -> well_formed v = true.
Proof.
  cbn [well_formed]. rewrite andb_true_iff, distinct_NoDup, forallb_forall.
  split; intros [D F]; split; trivial.
  - intros key v I. exact (F _ I).
  - intros [key v] I. exact (F _ _ I).
Qed.

Lemma deepEqual_refl a : well_formed a = true -> deepEqual a a = true.
Proof.
  induction a as [ |b|n|s|x fa IH] using value_induction; intros W.
  - reflexivity.
  - now destruct b.
  - apply Qeq_bool_iff. reflexivity.
  - apply String.eqb_refl.
  - apply well_formed_object in W as [D W]. apply deepEqual_objects.
    split; trivial. intros key v I. exists v. split; [now apply lookup_In|].
    rewrite Forall_forall in IH. apply (IH _ I). exact (W _ _ I).
Qed.

Lemma deepEqual_sym_true a :
  forall b, well_formed a = true -> well_formed b = true ->
            deepEqual a b = true -> deepEqual b a = true.
Proof.
  induction a as [ |x|n|s|x fa IH] using value_induction;
    intros [ |y|m|t|y fb] Wa Wb E; try discriminate.
  - reflexivity.
  - now destruct x, y.
  - apply Qeq_bool_iff. apply Qeq_bool_iff in E. now symmetry.
  - cbn [deepEqual] in *. now rewrite String.eqb_sym.
  - apply well_formed_object in Wa as [Da Wa]. apply well_formed_object in Wb as [Db Wb].
    apply deepEqual_objects in E as [L F]. apply deepEqual_objects.
    split; [now symmetry|]. intros key b_key I.
    assert (K : incl (keys fa) (keys fb)).
    { intros k J. apply In_keys in J as [v J]. destruct (F _ _ J) as (w & E & _).
      apply In_keys. exists w. now apply lookup_Some_In. }
    assert (K' : incl (keys fb) (keys fa)).
    { apply NoDup_length_incl; trivial. unfold keys. rewrite !length_map. lia. }
    assert (J : In key (keys fa)) by (apply K', In_keys; now exists b_key).
    apply In_keys in J as [a_key J]. exists a_key. split; [now apply lookup_In|].
    destruct (F _ _ J) as (w & E & D).
    rewrite (@lookup_In key fb b_key Db I) in E. injection E as <-.
    rewrite Forall_forall in IH. apply (IH _ J); trivial.
    + exact (Wa _ _ J).
    + exact (Wb _ _ I).
Qed.

Lemma deepEqual_trans_true a :
  forall b c, deepEqual a b = true -> deepEqual b c = true -> deepEqual a c = true.
Proof.
  induction a as [ |x|n|s|x fa IH] using value_induction;
    intros [ |y|m|t|y fb] [ |z|o|u|z fc] E1 E2; try discriminate.
  - reflexivity.
  - destruct x, y, z; trivial; discriminate.
  - apply Qeq_bool_iff. apply Qeq_bool_iff in E1, E2. now rewrite E1.
  - cbn [deepEqual] in *. apply String.eqb_eq in E1, E2. subst. apply String.eqb_refl.
  - apply deepEqual_objects in E1 as [L1 F1]. apply deepEqual_objects in E2 as [L2 F2].
    apply deepEqual_objects. split; [congruence|]. intros key a_key I.
    destruct (F1 _ _ I) as (b_key & E1 & D1).
    destruct (F2 _ _ (@lookup_Some_In key fb b_key E1)) as (c_key & E2 & D2).
    exists c_key. split; trivial. rewrite Forall_forall in IH.
    exact (IH _ I _ _ D1 D2).
Qed.

Lemma deepEqual_sym a b :
  well_formed a = true -> well_formed b = true -> deepEqual a b = deepEqual b a.
Proof.
  intros Wa Wb. destruct (deepEqual a b) eqn:E1, (deepEqual b a) eqn:E2; trivial.
  - now rewrite (@deepEqual_sym_true a b Wa Wb E1) in E2.
  - now rewrite (@deepEqual_sym_true b a Wb Wa E2) in E1.
Qed.

Lemma same_fields_same_length (fa fb : list (string * value)) :
  NoDup (keys fa) -> NoDup (keys fb) ->
  (forall kv, In kv fa <-> In kv fb) ->
  length fa = length fb.
Proof.
  intros Da Db S.
  assert (K : forall f g : list (string * value),
             (forall kv, In kv f -> In kv g) -> incl (keys f) (keys g)).
  { intros f g I k J. apply In_keys in J as [v J]. apply In_keys. exists v. now apply I. }
  assert (La : (length (keys fa) <= length (keys fb))%nat)
    by (apply NoDup_incl_length; trivial; apply K; intros kv; apply S).
  assert (Lb : (length (keys fb) <= length (keys fa))%nat)
    by (apply NoDup_incl_length; trivial; apply K; intros kv; apply S).
  unfold keys in *. rewrite !length_map in *. lia.
Qed.

Lemma uint_digits_inj d : forall d', uint_digits d = uint_digits d' -> d = d'.
Proof.
  induction d as [ |d IH|d IH|d IH|d IH|d IH|d IH|d IH|d IH|d IH|d IH];
    intros [ |e|e|e|e|e|e|e|e|e|e] E; try discriminate E; trivial;
    injection E as E; f_equal; now apply IH.
Qed.

Lemma index_inj i j : index i = index j -> i = j.
Proof. intros E. now apply Unsigned.to_uint_inj, uint_digits_inj. Qed.

Lemma lookup_indexed l : forall start j,
  lookup (index (start + j)) (indexed start l) = nth_error l j.
Proof.
  induction l as [|x l IH]; intros start j.
  - now destruct j.
  - change (indexed start (x :: l)) with ((index start, x) :: indexed (S start) l).
    cbn [lookup]. destruct j as [|j].
    + now rewrite Nat.add_0_r, String.eqb_refl.
    + destruct (String.eqb_spec (index start) (index (start + S j))) as [E|_].
      * apply index_inj in E. lia.
      * replace (start + S j)%nat with (S start + j)%nat by lia. apply IH.
Qed.

Lemma In_indexed l : forall start key v,
  In (key, v) (indexed start l)
  <-> exists j, key = index (start + j) /\ nth_error l j = Some v.
Proof.
  induction l as [|x l IH]; intros start key v.
  - split; [intros []|intros [[|j] [_ E]]; discriminate].
  - change (indexed start (x :: l)) with ((index start, x) :: indexed (S start) l).
    cbn [In]. rewrite IH. split.
    + intros [E|[j [E N]]].
      * injection E as <- <-. exists 0%nat. now rewrite Nat.add_0_r.
      * exists (S j). split; trivial. rewrite E. f_equal. lia.
    + intros [[|j] [E N]].
      * left. injection N as ->. now rewrite E, Nat.add_0_r.
      * right. exists j. split; trivial. rewrite E. f_equal. lia.
Qed.

Lemma length_indexed start l : length (indexed start l) = length l.
Proof.
  unfold indexed. rewrite length_combine, length_map, length_seq. lia.
Qed.

Lemma Forall2_by_position {A} (R : A -> A -> Prop) la :
  forall lb,
    Forall2 R la lb
    <-> length la = length lb
        /\ forall j x, nth_error la j = Some x ->
                       exists y, nth_error lb j = Some y /\ R x y.
Proof.
  induction la as [|a la IH]; intros [|b lb]; split.
  - intros _. split; trivial. intros [|j] x E; discriminate.
  - constructor.
  - intros F. inversion F.
  - intros [L _]. discriminate.
  - intros F. inversion F.
  - intros [L _]. discriminate.
  - intros F. inversion F as [|? ? ? ? Rab F']; subst. apply IH in F' as [L N].
    split; [simpl; now rewrite L|]. intros [|j] x E.
    + injection E as <-. now exists b.
    + now apply N.
  - intros [L N]. constructor.
    + destruct (N 0%nat a eq_refl) as (y & E & Rab). now injection E as <-.
    + apply IH. split; [now injection L|]. intros j x E. exact (N (S j) x E).
Qed.

(** On the values it is called on, [deepEqual] is an equivalence: every
    value equals itself, the order of the two arguments does not matter,
    and two values that both equal a third equal one another. *)
Theorem deepEqual_is_an_equivalence a b c :
  well_formed a = true ->
  well_formed b = true ->
  deepEqual a a = true
  /\ deepEqual a b = deepEqual b a
  /\ (deepEqual a b = true -> deepEqual b c = true -> deepEqual a c = true).
Proof.
  intros Wa Wb. split; [now apply deepEqual_refl|]. split; [now apply deepEqual_sym|].
  apply deepEqual_trans_true.
Qed.

(** Two objects with the same fields are equal in whatever order
    [Object.keys] lists them, and whether or not either is an array. *)
Theorem deepEqual_ignores_field_order x fa y fb :
  well_formed (JObject x fa) = true ->
  well_formed (JObject y fb) = true ->
  (forall kv, In kv fa <-> In kv fb) ->
  deepEqual (JObject x fa) (JObject y fb) = true.
Proof.
  intros Wa Wb S. apply well_formed_object in Wa as [Da Wa].
  apply well_formed_object in Wb as [Db Wb]. apply deepEqual_objects. split.
  - now apply same_fields_same_length.
  - intros key v I. exists v. split.
    + apply lookup_In; trivial. now apply S.
    + apply deepEqual_refl. exact (Wa _ _ I).
Qed.

(** Arrays are compared position by position: two arrays are equal
    exactly when they have the same length and equal elements at every
    index. *)
Theorem deepEqual_arrays la lb :
  deepEqual (array la) (array lb) = true
  <-> Forall2 (fun x y => deepEqual x y = true) la lb.
Proof.
  unfold array. rewrite deepEqual_objects, Forall2_by_position, !length_indexed.
  split; intros [L F]; split; trivial.
  - intros j x E.
    destruct (F (index j) x) as (y & Ey & D).
    + apply In_indexed. now exists j.
    + exists y. split; trivial. now rewrite <- (lookup_indexed lb 0 j).
  - intros key x I. apply In_indexed in I as (j & -> & E).
    destruct (F j x E) as (y & Ey & D). exists y. split; trivial.
    now rewrite lookup_indexed.
Qed.
End DeepEqualFacts.

Section DeepEqualExamples.

Import Json.

Lemma deepEqual_is_an_equivalence_witness :
  deepEqual Cached.row_a Cached.row_a = true
  /\ deepEqual Cached.row_a Cached.row_b = deepEqual Cached.row_b Cached.row_a
  /\ (deepEqual Cached.row_a Cached.row_b = true ->
      deepEqual Cached.row_b (array [Cached.row_a]) = true ->
      deepEqual Cached.row_a (array [Cached.row_a]) = true).
Proof.
  apply (@deepEqual_is_an_equivalence Cached.row_a Cached.row_b (array [Cached.row_a]));
    reflexivity.
Defined.

Lemma deepEqual_ignores_field_order_witness :
  deepEqual Cached.row_a Cached.row_b = true.
Proof.
  apply (@deepEqual_ignores_field_order false
           [("id", JNumber 1%Q); ("action", JString "deduct"); ("stock_after", JNull)]
           false
           [("action", JString "deduct"); ("stock_after", JNull); ("id", JNumber 1%Q)]);
    [reflexivity|reflexivity|].
  intros kv. simpl. tauto.
Defined.

End DeepEqualExamples.

(** ** Web admin: the identifiers of items *)

Section ItemIdFacts.

Import WebAdminApi.

Lemma charAt_item_chars j :
  (j < 36)%nat ->
  exists c, charAt item_chars j = String c ""
            /\ JS.contains c item_chars = true.
Proof.
  intros L.
  do 36 (destruct j as [|j]; [eexists; split; reflexivity|]).
  exfalso. lia.
Qed.

Lemma prefix_app p a b : String.prefix p a = true -> String.prefix p (a ++ b) = true.
Proof.
  revert a. induction p as [|c p IH]; intros a E; [now destruct (a ++ b)|].
  destruct a as [|d a]; [discriminate E|]. simpl in *.
  destruct (Ascii.ascii_dec c d); [now apply IH|discriminate E].
Qed.

(** The loop of [generateRandomItemId], from any turn on. *)
Lemma generateRandomItemId_loop (draw : nat -> nat) turns :
  (forall i, In i turns -> (draw i < 36)%nat) ->
  forall id,
    forallb (fun c => JS.contains c item_chars) (list_ascii_of_string id) = true ->
    String.prefix "ITEM" id = true ->
    let id' := fold_left (fun id i => id ++ charAt item_chars (draw i)) turns id in
    String.length id' = (String.length id + length turns)%nat
    /\ forallb (fun c => JS.contains c item_chars) (list_ascii_of_string id') = true
    /\ String.prefix "ITEM" id' = true.
Proof.
  induction turns as [|i turns IH]; intros D id A P; simpl.
  - split; [lia|]. split; [exact A|exact P].
  - destruct (charAt_item_chars (D i (or_introl eq_refl))) as (c & E & C).
    rewrite E.
    destruct (IH (fun j I => D j (or_intror I)) (id ++ String c "")) as (L & F & Q).
    + rewrite list_ascii_of_string_app, forallb_app, A.
      cbn [list_ascii_of_string forallb andb]. now rewrite C.
    + now apply prefix_app.
    + split; [|split; [exact F|exact Q]]. rewrite L, length_string_app. simpl. lia.
Qed.

(** [generateRandomItemId] returns [ITEM] followed by eight characters of
    its alphabet: twelve capitals and digits, which is never the shape of
    an employee's identifier. *)
Theorem generateRandomItemId_format (draw : nat -> nat) :
  (forall i, (i < 8)%nat -> (draw i < 36)%nat) ->
  let id := generateRandomItemId draw in
  String.length id = 12%nat
  /\ String.prefix "ITEM" id = true
  /\ forallb (fun c => JS.contains c item_chars) (list_ascii_of_string id) = true
  /\ WebAdmin.generated_id id = false.
Proof.
  intros D.
  destruct (generateRandomItemId_loop draw (seq 0 8)) with (id := "ITEM") as (L & F & P).
  - intros i I. apply D. apply in_seq in I. lia.
  - reflexivity.
  - reflexivity.
  - cbn zeta. unfold generateRandomItemId. split; [exact L|]. split; [exact P|].
    split; [exact F|]. unfold WebAdmin.generated_id. now rewrite L.
Qed.

Lemma generateRandomItemId_format_witness :
  let id := generateRandomItemId (fun i => (i + 10)%nat) in
  String.length id = 12%nat
  /\ String.prefix "ITEM" id = true
  /\ forallb (fun c => JS.contains c item_chars) (list_ascii_of_string id) = true
  /\ WebAdmin.generated_id id = false.
Proof.
  apply (generateRandomItemId_format (fun i => (i + 10)%nat)). intros i L. lia.
Defined.

End ItemIdFacts.
